(** * ecoflow-authentication: a shallow embedding of the controllers

    The package exposes a handful of pipeline controllers (JWT signing and
    verification, a JWKS publisher, Google OAuth helpers).  Each controller
    receives a mutable context ([payload], [inputs], [request], [status],
    [next]) and calls into third-party libraries.  The embedding below keeps
    the JavaScript data (dynamically typed values, objects as ordered
    property lists, [payload]/[process.env]/the file system as finite maps),
    threads the mutable state through a small state-and-exception monad and
    takes the third-party libraries as fields of a [Host] record. *)

From Stdlib Require Import ZArith Ascii String List Bool Lia.
From stdpp Require Import base option list strings gmap pretty.

Set Warnings "-register-all".

Open Scope string_scope.
Open Scope Z_scope.

(** ** JavaScript values *)

Inductive value : Type :=
| VUndefined
| VNull
| VBool (b : bool)
| VNumber (n : Z)
| VString (s : string)
| VArray (elems : list value)
| VObject (props : list (string * value))
| VInstance (class : string) (props : list (string * value)).

(** Own enumerable properties of an object, in insertion order. *)
Fixpoint assoc_get (k : string) (props : list (string * value)) : value :=
  match props with
  | [] => VUndefined
  | (k', v) :: rest => if String.eqb k k' then v else assoc_get k rest
  end.

Fixpoint assoc_set (k : string) (v : value) (props : list (string * value))
  : list (string * value) :=
  match props with
  | [] => [(k, v)]
  | (k', v') :: rest =>
      if String.eqb k k' then (k, v) :: rest else (k', v') :: assoc_set k v rest
  end.

(** [o.k] on a value that is neither [null] nor [undefined]. *)
Definition get_prop (o : value) (k : string) : value :=
  match o with
  | VObject props | VInstance _ props => assoc_get k props
  | _ => VUndefined
  end.

(** [o.k = v] on an object. *)
Definition set_prop (o : value) (k : string) (v : value) : value :=
  match o with
  | VObject props => VObject (assoc_set k v props)
  | VInstance c props => VInstance c (assoc_set k v props)
  | _ => o
  end.

(** [!!v] *)
Definition truthy (v : value) : bool :=
  match v with
  | VUndefined | VNull => false
  | VBool b => b
  | VNumber n => negb (n =? 0)
  | VString s => negb (String.eqb s "")
  | VArray _ | VObject _ | VInstance _ _ => true
  end.

(** [a || b] *)
Definition js_or (a b : value) : value := if truthy a then a else b.

Fixpoint join_with (sep : string) (l : list string) : string :=
  match l with
  | [] => ""
  | [s] => s
  | s :: rest => s ++ sep ++ join_with sep rest
  end.

(** [String(v)], used for property keys and template strings. *)
Fixpoint to_string (v : value) : string :=
  match v with
  | VUndefined => "undefined"
  | VNull => "null"
  | VBool true => "true"
  | VBool false => "false"
  | VNumber n => pretty n
  | VString s => s
  | VArray elems =>
      join_with ","
        (List.map (fun e => match e with
                            | VUndefined | VNull => ""
                            | _ => to_string e
                            end) elems)
  | VObject _ | VInstance _ _ => "[object Object]"
  end.

(** [v === "lit"] *)
Definition is_str (v : value) (lit : string) : bool :=
  match v with
  | VString s => String.eqb s lit
  | _ => false
  end.

(** [s.split(sep)] for a one-character separator. *)
Fixpoint split (sep : ascii) (s : string) : list string :=
  match s with
  | EmptyString => [EmptyString]
  | String c rest =>
      if Ascii.eqb c sep then EmptyString :: split sep rest
      else match split sep rest with
           | [] => [String c EmptyString]
           | seg :: segs => String c seg :: segs
           end
  end.

(** [arr[i]] on an array of strings. *)
Definition index (segs : list string) (i : nat) : value :=
  match nth_error segs i with
  | Some s => VString s
  | None => VUndefined
  end.

(** ** lodash predicates (the host's [ecoFlow._]) *)

Module lodash.

Definition isUndefined (v : value) : bool :=
  match v with VUndefined => true | _ => false end.

Definition isNull (v : value) : bool :=
  match v with VNull => true | _ => false end.

Definition isString (v : value) : bool :=
  match v with VString _ => true | _ => false end.

(** [_.isEmpty]: nullish values, booleans and numbers are empty; strings
    and arrays are empty when their length is zero; objects when they have
    no own enumerable property. *)
Definition isEmpty (v : value) : bool :=
  match v with
  | VUndefined | VNull | VBool _ | VNumber _ => true
  | VString s => String.eqb s ""
  | VArray elems => match elems with [] => true | _ => false end
  | VObject props | VInstance _ props =>
      match props with [] => true | _ => false end
  end.

(** [_.isElement]: an object-like value that is not a plain object and
    whose [nodeType] is [1]. *)
Definition isElement (v : value) : bool :=
  match v with
  | VInstance _ props =>
      match assoc_get "nodeType" props with
      | VNumber 1 => true
      | _ => false
      end
  | _ => false
  end.

End lodash.

(** ** The process: environment, file system, third-party libraries *)

Inductive fsnode : Type :=
| FsFile (content : string)
| FsDir.

(** Key material handed to [jsonwebtoken]: a JavaScript value (normally a
    string) or the [Buffer] read from a key file. *)
Inductive key_material : Type :=
| KValue (v : value)
| KBuffer (bytes : string).

(** The options the JWKS client is built with. *)
Record jwks_options : Type := mk_jwks_options {
  jwksUri : string;
  cache : bool;
  cacheMaxEntries : Z;
  cacheMaxAge : Z
}.

(** What [fetchJWKPublicKey] resolves to: a string, or the key-provider
    function closed over its JWKS client. *)
Inductive secret_or_provider : Type :=
| SecretValue (v : value)
| KeyProvider (client : jwks_options).

Inductive completion (A : Type) : Type :=
| Normal (a : A)
| Throw (e : value).
Arguments Normal {A} a.
Arguments Throw {A} e.

(** [jsonwebtoken]'s verification callback receives either an error
    ([name], [message]) or the decoded claims. *)
Inductive verify_result : Type :=
| VerifyError (name message : string)
| Verified (decoded : value).

(** The calls into [fs-extra] and [jsonwebtoken] made during an invocation,
    oldest first. *)
Inductive event : Type :=
| FsExists (path : value)
| FsStat (path : value)
| FsReadFile (path : value)
| JwtVerify (token : string) (secret : secret_or_provider)
    (algorithms : list value) (result : verify_result)
| JwtSign (claims : value) (secret : key_material)
    (expiresIn algorithm : value) (result : completion string).

(** Everything the controllers read but never change: [process.env], the
    file system, and the third-party libraries they call into. *)
Record Host : Type := mk_Host {
  (** [process.env] *)
  env : gmap string string;
  (** the files and directories [fs-extra] sees *)
  fs : gmap string fsnode;
  (** [new URL(s)] constructs without throwing *)
  url_parses : string -> bool;
  (** [JWT.verify(token, secret, { algorithms }, callback)] *)
  jwt_verify : string -> secret_or_provider -> list value -> verify_result;
  (** the [alg] field of a token's header, when the token decodes *)
  jwt_header_alg : string -> option string;
  (** [JWT.sign(payload, secret, { expiresIn, algorithm })] *)
  jwt_sign : value -> key_material -> value -> value -> completion string;
  (** [pem2jwk(pem, extras)] *)
  pem2jwk : string -> value -> completion value;
  (** [new Auth.OAuth2Client(options).generateAuthUrl(params)] *)
  oauth_generateAuthUrl : value -> value -> string;
  (** [client.getAccessToken()]: from the client's credentials to the
      response (or the error thrown) and the client's credentials afterwards *)
  oauth_getAccessToken : value -> completion value * value;
  (** [axios.get(url)] *)
  axios_get : string -> completion value
}.

(** [request]: the [Authorization] header and the query string. *)
Record Request : Type := mk_Request {
  authorization : option string;
  query : gmap string value
}.

(** The mutable part of an invocation: the context fields the controllers
    assign, the package's shared client configurations
    ([ecoFlow.moduleConfigs]), the error log and the library calls made so
    far. *)
Record State : Type := mk_State {
  payload : gmap string value;
  status : Z;
  next_calls : nat;
  moduleConfigs : option (gmap string value);
  error_log : list value;
  trace : list event
}.

(** ** State and exceptions *)

Definition M (A : Type) : Type := State -> completion A * State.

Definition ret {A} (a : A) : M A := fun s => (Normal a, s).

Definition bind {A B} (m : M A) (k : A -> M B) : M B :=
  fun s => match m s with
           | (Normal a, s') => k a s'
           | (Throw e, s') => (Throw e, s')
           end.

Definition throw {A} (e : value) : M A := fun s => (Throw e, s).

(** [try { body } catch (error) { handler }] *)
Definition try_catch {A} (body : M A) (handler : value -> M A) : M A :=
  fun s => match body s with
           | (Normal a, s') => (Normal a, s')
           | (Throw e, s') => handler e s'
           end.

Definition lift {A} (c : completion A) : M A := fun s => (c, s).

Declare Scope js_scope.
Delimit Scope js_scope with js.
Notation "'do' x <- c1 ; c2" := (bind c1 (fun x => c2))
  (at level 10, x name, c1 at level 100, c2 at level 200) : js_scope.
Notation "'do' ' pat <- c1 ; c2" :=
  (bind c1 (fun x => match x with pat => c2 end))
  (at level 10, pat pattern, c1 at level 100, c2 at level 200) : js_scope.
Notation "'exec' c1 ; c2" := (bind c1 (fun _ => c2))
  (at level 10, c1 at level 100, c2 at level 200) : js_scope.
Open Scope js_scope.

(** [payload[key] = v] *)
Definition payload_set (key : value) (v : value) : M unit :=
  fun s => (Normal tt,
            mk_State (<[to_string key := v]> (payload s)) (status s)
                     (next_calls s) (moduleConfigs s) (error_log s)
                     (trace s)).

(** [payload[key]] *)
Definition payload_get (key : value) : M value :=
  fun s => (Normal (default VUndefined (payload s !! to_string key)), s).

(** [ctx.status = code] *)
Definition status_set (code : Z) : M unit :=
  fun s => (Normal tt,
            mk_State (payload s) code (next_calls s) (moduleConfigs s)
                     (error_log s) (trace s)).

(** [next()] *)
Definition next : M unit :=
  fun s => (Normal tt,
            mk_State (payload s) (status s) (S (next_calls s))
                     (moduleConfigs s) (error_log s) (trace s)).

(** [log.error(e)] *)
Definition log_error (e : value) : M unit :=
  fun s => (Normal tt,
            mk_State (payload s) (status s) (next_calls s) (moduleConfigs s)
                     (error_log s ++ [e]) (trace s)).

Definition record (ev : event) : M unit :=
  fun s => (Normal tt,
            mk_State (payload s) (status s) (next_calls s) (moduleConfigs s)
                     (error_log s) (trace s ++ [ev])).

(** An [Error]-like object carrying a message. *)
Definition error_obj (class message : string) : value :=
  VInstance class [("message", VString message)].

Definition isFile (n : fsnode) : bool :=
  match n with FsFile _ => true | FsDir => false end.

(** Decoding a [Buffer] as ["ascii"] clears the top bit of every byte. *)
Definition ascii_clear_top (c : ascii) : ascii :=
  match c with
  | Ascii b0 b1 b2 b3 b4 b5 b6 _ => Ascii b0 b1 b2 b3 b4 b5 b6 false
  end.

Fixpoint decode_ascii (bytes : string) : string :=
  match bytes with
  | EmptyString => EmptyString
  | String c rest => String (ascii_clear_top c) (decode_ascii rest)
  end.

Section Helpers.

Context (host : Host).

(** [process.env[name]] *)
Definition env_get (name : value) : value :=
  match env host !! to_string name with
  | Some s => VString s
  | None => VUndefined
  end.

Definition fs_lookup (path : value) : option fsnode :=
  match path with
  | VString p => fs host !! p
  | _ => None
  end.

(** [await fse.exists(path)] never rejects. *)
Definition fse_exists (path : value) : M bool :=
  exec record (FsExists path);
  ret (match fs_lookup path with Some _ => true | None => false end).

(** [await fse.stat(path)] *)
Definition fse_stat (path : value) : M fsnode :=
  exec record (FsStat path);
  match fs_lookup path with
  | Some n => ret n
  | None => throw (error_obj "Error" "ENOENT: no such file or directory")
  end.

(** [await fse.readFile(path)]: the raw bytes. *)
Definition fse_readFile (path : value) : M string :=
  exec record (FsReadFile path);
  match fs_lookup path with
  | Some (FsFile content) => ret content
  | Some FsDir =>
      throw (error_obj "Error" "EISDIR: illegal operation on a directory")
  | None => throw (error_obj "Error" "ENOENT: no such file or directory")
  end.

(** ** helpers/stringIsAValidUrl.ts *)
Definition stringIsAValidUrl (url : value) : bool :=
  if url_parses host (to_string url) then true else false.

(** ** helpers/fetchSecretORprivateKey.ts *)
Definition fetchSecretORprivateKey (algorithm key : value)
  : M (key_material * value) :=
  if is_str algorithm "HS256" || is_str algorithm "HS384"
  then ret (KValue key, algorithm)
  else
    do ex <- fse_exists key;
    do stats <- (if ex then (do n <- fse_stat key; ret (isFile n))
                 else ret false);
    if stats then
      do bytes <- fse_readFile key;
      ret (KBuffer bytes, algorithm)
    else
      ret (KValue (env_get (VString "ECOFLOW_SYS_TOKEN_SALT")),
           if is_str algorithm "RS256" then VString "HS256"
           else if is_str algorithm "RS384" then VString "HS384"
                else VString "HS256").

(** ** helpers/fetchJWKPublicKey.ts *)
Definition fetchJWKPublicKey (url : value) : secret_or_provider :=
  if negb (stringIsAValidUrl url) then SecretValue (VString "")
  else KeyProvider {| jwksUri := to_string url;
                      cache := true;
                      cacheMaxEntries := 50;
                      cacheMaxAge := 60 * 60 * 1000 |}.

End Helpers.

(** [key?.k] *)
Definition optional_get (o : value) (k : string) : value :=
  match o with
  | VUndefined | VNull => VUndefined
  | _ => get_prop o k
  end.

(** The provider returned by [fetchJWKPublicKey] asks its JWKS client for the
    signing key of [header.kid] and passes the client's answer [(err, key)]
    on to [callback] as [(err, key?.publicKey || key?.rsaPublicKey)]. *)
Definition provider_callback (err key : value) : value * value :=
  (err, js_or (optional_get key "publicKey") (optional_get key "rsaPublicKey")).

(** ** The invocation context *)

(** The read-only part of [EcoContext]: the step's configured [inputs]
    (optional) and the incoming [request]. *)
Record EcoContext : Type := mk_EcoContext {
  inputs : option (list (string * value));
  request : Request
}.

Definition inputs_value (ctx : EcoContext) : value :=
  match inputs ctx with
  | Some props => VObject props
  | None => VUndefined
  end.

(** [request.headers.authorization] *)
Definition header_authorization (ctx : EcoContext) : value :=
  match authorization (request ctx) with
  | Some h => VString h
  | None => VUndefined
  end.

(** [request.query[key]] *)
Definition query_get (ctx : EcoContext) (key : value) : value :=
  default VUndefined (query (request ctx) !! to_string key).

(** [o.k] where [o] may be [null] or [undefined]: reading a property of a
    nullish value throws a [TypeError]. *)
Definition member (o : value) (k : string) : M value :=
  match o with
  | VUndefined | VNull =>
      throw (error_obj "TypeError" "Cannot read properties of undefined")
  | _ => ret (get_prop o k)
  end.

(** [v.split(" ")] *)
Definition str_split (v : value) : M (list string) :=
  match v with
  | VString s => ret (split " "%char s)
  | _ => throw (error_obj "TypeError" "split is not a function")
  end.

(** ** The shared client configurations

    [moduleConfigs.selectPackage("ecoflow-authentication")] is the host's
    configuration manager: a map from configuration names to configuration
    objects whose [configs] property holds the [OAuth2Client] built by
    [ApiCredentialsController].  The client objects are shared by every
    invocation, so assignments to them are written back to the store. *)

Definition selectPackage : M (option (gmap string value)) :=
  fun s => (Normal (moduleConfigs s), s).

(** [configManager.get(client)] *)
Definition config_get (cm : gmap string value) (client : value) : value :=
  match client with
  | VString name => default VUndefined (cm !! name)
  | _ => VUndefined
  end.

(** The [OAuth2Client] stored under a configuration name. *)
Definition stored_client (s : State) (name : string) : value :=
  match moduleConfigs s with
  | Some cm => get_prop (default VUndefined (cm !! name)) "configs"
  | None => VUndefined
  end.

(** [client.credentials] of the stored client. *)
Definition stored_credentials (s : State) (name : string) : value :=
  get_prop (stored_client s name) "credentials".

(** [OAuthClient.credentials = creds] on the shared object. *)
Definition client_assign_credentials (name : string) (creds : value) : M unit :=
  fun s =>
    match moduleConfigs s with
    | Some cm =>
        match cm !! name with
        | Some config =>
            let client := set_prop (get_prop config "configs") "credentials" creds in
            (Normal tt,
             mk_State (payload s) (status s) (next_calls s)
                      (Some (<[name := set_prop config "configs" client]> cm))
                      (error_log s) (trace s))
        | None => (Normal tt, s)
        end
    | None => (Normal tt, s)
    end.

Definition is_oauth_client (v : value) : bool :=
  match v with
  | VInstance c _ => String.eqb c "OAuth2Client"
  | _ => false
  end.

Section Controllers.

Context (host : Host).

(** [new Promise((resolve, reject) => JWT.verify(token, secret,
    { algorithms }, (error, jwtPayload) => { if (error) reject(error);
    resolve(jwtPayload); }))], awaited. *)
Definition await_verify (token : value) (secret : secret_or_provider)
    (algorithms : list value) : M value :=
  match token with
  | VString t =>
      let result := jwt_verify host t secret algorithms in
      exec record (JwtVerify t secret algorithms result);
      match result with
      | VerifyError name message => throw (error_obj name message)
      | Verified decoded => ret decoded
      end
  | _ => throw (error_obj "JsonWebTokenError" "jwt must be a string")
  end.

(** [JWT.sign(claims, secret, { expiresIn, algorithm })] returns the token
    or throws. *)
Definition sign (claims : value) (secret : key_material)
    (expiresIn algorithm : value) : M string :=
  let result := jwt_sign host claims secret expiresIn algorithm in
  exec record (JwtSign claims secret expiresIn algorithm result);
  lift result.

(** ** controllers/authenticateTokenController.ts *)
Definition authenticateTokenController (ctx : EcoContext) : M unit :=
  if lodash.isUndefined (inputs_value ctx) then ret tt
  else
    let responseKey := get_prop (inputs_value ctx) "responseKey" in
    let algorithm := get_prop (inputs_value ctx) "algorithm" in
    let secretORprivateKeySelector :=
      get_prop (inputs_value ctx) "secretORprivateKeySelector" in
    let secretORpublicKey := get_prop (inputs_value ctx) "secretORpublicKey" in
    let fromEnvironmentVariable :=
      get_prop (inputs_value ctx) "fromEnvironmentVariable" in
    if lodash.isUndefined (header_authorization ctx)
       || lodash.isEmpty (header_authorization ctx)
    then
      exec payload_set responseKey (VString "Invalid authorization");
      status_set 401
    else
      do segments <- str_split (header_authorization ctx);
      let rawToken := index segments 1 in
      if lodash.isEmpty rawToken || negb (lodash.isString rawToken)
      then
        exec payload_set responseKey (VString "Invalid authorization");
        status_set 401
      else
        let secret :=
          if is_str secretORprivateKeySelector "secret"
          then SecretValue (if truthy fromEnvironmentVariable
                            then env_get host secretORpublicKey
                            else secretORpublicKey)
          else fetchJWKPublicKey host
                 (if truthy fromEnvironmentVariable
                  then env_get host secretORpublicKey
                  else secretORpublicKey) in
        try_catch
          (do result <- await_verify rawToken secret [algorithm];
           exec payload_set responseKey result;
           next)
          (fun error =>
             do message <- member error "message";
             exec payload_set responseKey message;
             status_set 401).

(** ** controllers/signJWTController.ts *)
Definition signJWTController (ctx : EcoContext) : M unit :=
  if lodash.isUndefined (inputs_value ctx) then ret tt
  else
    let payloadKey := get_prop (inputs_value ctx) "payloadKey" in
    let responseKey := get_prop (inputs_value ctx) "responseKey" in
    let expiresIn := get_prop (inputs_value ctx) "expiresIn" in
    let algorithm := get_prop (inputs_value ctx) "algorithm" in
    let secretORprivateKey := get_prop (inputs_value ctx) "secretORprivateKey" in
    let secretORprivateKeyFromEnvironment :=
      get_prop (inputs_value ctx) "secretORprivateKeyFromEnvironment" in
    do stored <- payload_get payloadKey;
    let jwtPayload := js_or stored (VObject []) in
    do '(secret, signAlgorithm) <-
      fetchSecretORprivateKey host algorithm
        (if truthy secretORprivateKeyFromEnvironment
         then js_or (env_get host secretORprivateKey) (VString "")
         else secretORprivateKey);
    do token <- sign jwtPayload secret expiresIn signAlgorithm;
    exec payload_set responseKey (VString token);
    next.

(** ** controllers/jwtJWKSController.ts *)
Definition jwtJWKSController (ctx : EcoContext) : M unit :=
  if lodash.isUndefined (inputs_value ctx) then ret tt
  else
    let responseKey := get_prop (inputs_value ctx) "responseKey" in
    let publicKey := get_prop (inputs_value ctx) "publicKey" in
    let fromEnvironmentVariable :=
      get_prop (inputs_value ctx) "fromEnvironmentVariable" in
    let secretPath :=
      if truthy fromEnvironmentVariable then env_get host publicKey
      else publicKey in
    try_catch
      (do found <- fse_exists host secretPath;
       if negb found then
         exec payload_set responseKey (VString "key not found");
         status_set 404
       else
         do bytes <- fse_readFile host secretPath;
         let secret := decode_ascii bytes in
         do jwk <- lift (pem2jwk host secret (VObject [("use", VString "sig")]));
         exec payload_set responseKey (VArray [jwk]);
         next)
      (fun error =>
         exec log_error error;
         exec payload_set responseKey (VString "error occurred");
         status_set 500).

End Controllers.

Section OAuthControllers.

Context (host : Host).

(** [await OAuthClient.getAccessToken()] on the shared client: the library
    may refresh and store new credentials on the client before it returns
    or throws. *)
Definition client_getAccessToken (name : string) : M value :=
  fun s =>
    let '(outcome, creds) :=
      oauth_getAccessToken host (stored_credentials s name) in
    match client_assign_credentials name creds s with
    | (_, s') => (outcome, s')
    end.

(** [OAuthClient.setCredentials(creds)] *)
Definition client_setCredentials (client : value) (name : string)
    (creds : value) : M unit :=
  if is_oauth_client client then client_assign_credentials name creds
  else throw (error_obj "TypeError" "OAuthClient.setCredentials is not a function").

(** ** controllers/generateGoogleAuthUrl.ts *)
Definition generateGoogleAuthUrl (ctx : EcoContext) : M unit :=
  if lodash.isUndefined (inputs_value ctx) then ret tt
  else
    let clientId := get_prop (inputs_value ctx) "clientId" in
    let clientIdFromEnv := get_prop (inputs_value ctx) "clientIdFromEnv" in
    let clientSecret := get_prop (inputs_value ctx) "clientSecret" in
    let clientSecretFromEnv := get_prop (inputs_value ctx) "clientSecretFromEnv" in
    let redirectUri := get_prop (inputs_value ctx) "redirectUri" in
    let redirectUriFromEnv := get_prop (inputs_value ctx) "redirectUriFromEnv" in
    let oAuthClientID :=
      if truthy clientIdFromEnv then env_get host clientId else clientId in
    let oAuthClientSecret :=
      if truthy clientSecretFromEnv then env_get host clientSecret
      else clientSecret in
    let oAuthRedirectUri :=
      if truthy redirectUriFromEnv then env_get host redirectUri
      else redirectUri in
    if negb (truthy oAuthClientID)
       || negb (truthy oAuthClientSecret)
       || negb (truthy oAuthRedirectUri)
       || lodash.isElement oAuthClientID
       || lodash.isEmpty oAuthClientSecret
       || lodash.isEmpty oAuthRedirectUri
    then
      payload_set (VString "msg")
        (VObject
           [("error", VBool true);
            ("message", VString "Missing required Google OAuth client credentials");
            ("statusCode", VNumber 400);
            ("missing",
             VObject
               [("clientId", VBool (lodash.isElement oAuthClientID));
                ("clientSecret", VBool (lodash.isElement oAuthClientSecret));
                ("redirectUri", VBool (lodash.isEmpty oAuthRedirectUri))])])
    else
      let oAuth2Client :=
        VObject [("clientId", oAuthClientID);
                 ("clientSecret", oAuthClientSecret);
                 ("redirectUri", oAuthRedirectUri)] in
      let access_type := get_prop (inputs_value ctx) "access_type" in
      let prompt := get_prop (inputs_value ctx) "prompt" in
      let scope := get_prop (inputs_value ctx) "scope" in
      let state := get_prop (inputs_value ctx) "state" in
      let login_hint := get_prop (inputs_value ctx) "login_hint" in
      if negb (truthy access_type) || negb (truthy prompt)
         || lodash.isEmpty access_type || lodash.isEmpty prompt
      then
        payload_set (VString "msg")
          (VObject
             [("error", VBool true);
              ("message", VString "Missing required Google OAuth parameters");
              ("statusCode", VNumber 400);
              ("missing",
               VObject
                 [("access_type", VBool (lodash.isEmpty access_type));
                  ("prompt", VBool (lodash.isEmpty prompt))])])
      else
        let authURL :=
          oauth_generateAuthUrl host oAuth2Client
            (VObject [("access_type", access_type);
                      ("scope", scope);
                      ("prompt", prompt);
                      ("state", state);
                      ("login_hint", login_hint)]) in
        exec payload_set (VString "msg") (VObject [("authURL", VString authURL)]);
        next.

(** ** controllers/getUserDetails.ts *)
Definition getUserDetails (ctx : EcoContext) : M unit :=
  if negb (truthy (inputs_value ctx)) || lodash.isEmpty (inputs_value ctx)
  then
    payload_set (VString "msg")
      (VObject [("error", VBool true);
                ("message", VString "Missing inputs.")])
  else
    let client := get_prop (inputs_value ctx) "client" in
    let refreshToken := get_prop (inputs_value ctx) "refreshToken" in
    let passByQuery := get_prop (inputs_value ctx) "passByQuery" in
    let queryKey := get_prop (inputs_value ctx) "queryKey" in
    if negb (truthy client) || lodash.isEmpty client
    then
      payload_set (VString "msg")
        (VObject [("error", VBool true);
                  ("message", VString "Missing client.");
                  ("status",
                   VObject [("client", VBool (lodash.isUndefined client))])])
    else
      let userRefreshToken :=
        if truthy passByQuery
        then (if truthy queryKey then query_get ctx queryKey
              else query_get ctx (VString "token"))
        else refreshToken in
      do configManager <- selectPackage;
      match configManager with
      | None =>
          payload_set (VString "msg")
            (VObject
               [("error", VBool true);
                ("message",
                 VString "Missing configs manager for ecoflow-authentication package")])
      | Some manager =>
          let config := config_get manager client in
          if lodash.isNull config || lodash.isEmpty config
          then
            payload_set (VString "msg")
              (VObject
                 [("error", VBool true);
                  ("message",
                   VString "Missing config for ecoflow-authentication package")])
          else
            let OAuthClient := get_prop config "configs" in
            if lodash.isNull OAuthClient || lodash.isEmpty OAuthClient
            then
              payload_set (VString "msg")
                (VObject [("error", VBool true);
                          ("message", VString "Missing OAuth client")])
            else
              try_catch
                (exec client_setCredentials OAuthClient (to_string client)
                        (VObject [("refresh_token", userRefreshToken)]);
                 do access_token <- client_getAccessToken (to_string client);
                 do token <- member access_token "token";
                 if lodash.isUndefined token || lodash.isNull token
                 then throw (VString "Failed to get access token.")
                 else
                   do response <-
                     lift (axios_get host
                             ("https://www.googleapis.com/oauth2/v2/userinfo?alt=json&access_token="
                              ++ to_string token));
                   do userInfo <- member response "data";
                   exec payload_set (VString "msg")
                          (VObject [("success", VBool true);
                                    ("user", userInfo)]);
                   exec client_assign_credentials (to_string client) (VObject []);
                   next)
                (fun error =>
                   payload_set (VString "msg")
                     (VObject [("error", VBool true);
                               ("message", VString "Failed to get user details.");
                               ("rawError", error)]))
      end.

End OAuthControllers.

(** ** The remaining controllers *)

(** The Google endpoints used by the code-exchange controllers. *)
Record GoogleApi : Type := mk_GoogleApi {
  (** [await client.getToken(code)] on a client: the token response, or the
      error thrown; the call leaves the client's credentials alone *)
  oauth_getToken : value -> value -> completion value;
  (** [await new oauth2_v2.Resource$Userinfo({ _options: { auth } }).get()] *)
  userinfo_get : value -> completion value
}.

(** [new Auth.OAuth2Client({ clientId, clientSecret, redirectUri })]: the
    instance keeps the options and starts with empty credentials. *)
Definition new_OAuth2Client (clientId clientSecret redirectUri : value) : value :=
  VInstance "OAuth2Client"
    [("_clientId", clientId);
     ("_clientSecret", clientSecret);
     ("redirectUri", redirectUri);
     ("credentials", VObject [])].

(** ** controllers/ApiCredentialsController.ts *)
Definition ApiCredentialsController (inputs : value) : M value :=
  if lodash.isEmpty inputs then
    exec log_error (VString "Missing inputs.");
    ret VNull
  else
    let clientId := get_prop inputs "clientId" in
    let clientSecret := get_prop inputs "clientSecret" in
    let redirectUri := get_prop inputs "redirectUri" in
    if negb (truthy clientId) || lodash.isEmpty clientId then
      exec log_error (VString "Missing project URL.");
      ret VNull
    else if negb (truthy clientSecret) || lodash.isEmpty clientSecret then
      exec log_error (VString "Missing project URL.");
      ret VNull
    else ret (new_OAuth2Client clientId clientSecret redirectUri).

Section CodeExchange.

Context (host : Host) (google : GoogleApi).

(** [await OAuthClient.getToken(code)] *)
Definition client_getToken (client code : value) : M value :=
  if is_oauth_client client then lift (oauth_getToken google client code)
  else throw (error_obj "TypeError" "OAuthClient.getToken is not a function").

(** ** controllers/getTokenFromCode.ts *)
Definition getTokenFromCode (ctx : EcoContext) : M unit :=
  if negb (truthy (inputs_value ctx)) || lodash.isEmpty (inputs_value ctx)
  then
    payload_set (VString "msg")
      (VObject [("error", VBool true);
                ("message", VString "Missing inputs.")])
  else
    let client := get_prop (inputs_value ctx) "client" in
    let code := get_prop (inputs_value ctx) "code" in
    let passByPayload := get_prop (inputs_value ctx) "passByPayload" in
    let payloadKey := get_prop (inputs_value ctx) "payloadKey" in
    if negb (truthy client) || lodash.isEmpty client
    then
      payload_set (VString "msg")
        (VObject
           [("error", VBool true);
            ("message", VString "Missing client.");
            ("status",
             VObject
               [("client", VBool (lodash.isUndefined client));
                ("code", VBool (lodash.isUndefined code));
                ("passByPayload", VBool (lodash.isUndefined passByPayload));
                ("payloadKey", VBool (lodash.isUndefined payloadKey))])])
    else
      do userCode <-
        (if truthy passByPayload
         then (if truthy payloadKey
               then (do entry <- payload_get payloadKey; member entry "code")
               else (do entry <- payload_get (VString "msg");
                     member entry "code"))
         else ret code);
      do configManager <- selectPackage;
      match configManager with
      | None =>
          payload_set (VString "msg")
            (VObject
               [("error", VBool true);
                ("message",
                 VString "Missing configs manager for ecoflow-authentication package")])
      | Some manager =>
          let config := config_get manager client in
          if lodash.isNull config || lodash.isEmpty config
          then
            payload_set (VString "msg")
              (VObject
                 [("error", VBool true);
                  ("message",
                   VString "Missing config for ecoflow-authentication package")])
          else
            let OAuthClient := get_prop config "configs" in
            if lodash.isNull OAuthClient || lodash.isEmpty OAuthClient
            then
              payload_set (VString "msg")
                (VObject [("error", VBool true);
                          ("message", VString "Missing OAuth client")])
            else
              do exchanged <-
                try_catch
                  (do token <- client_getToken OAuthClient userCode;
                   do tokens <- member token "tokens";
                   do accessToken <- member tokens "access_token";
                   do refreshToken <- member tokens "refresh_token";
                   exec payload_set (VString "msg")
                          (VObject [("success", VBool true);
                                    ("token", tokens);
                                    ("accessToken", accessToken);
                                    ("refreshToken", refreshToken)]);
                   ret true)
                  (fun error =>
                     exec payload_set (VString "msg")
                            (VObject
                               [("error", VBool true);
                                ("message",
                                 VString ("Failed to get token from code: "
                                          ++ to_string code));
                                ("rawError", error)]);
                     ret false);
              if exchanged then next else ret tt
      end.

(** ** controllers/googleOAuthAuthenticate.ts *)
Definition googleOAuthAuthenticate (ctx : EcoContext) : M unit :=
  if lodash.isUndefined (inputs_value ctx) then ret tt
  else
    let clientId := get_prop (inputs_value ctx) "clientId" in
    let clientIdFromEnv := get_prop (inputs_value ctx) "clientIdFromEnv" in
    let clientSecret := get_prop (inputs_value ctx) "clientSecret" in
    let clientSecretFromEnv := get_prop (inputs_value ctx) "clientSecretFromEnv" in
    let redirectUri := get_prop (inputs_value ctx) "redirectUri" in
    let redirectUriFromEnv := get_prop (inputs_value ctx) "redirectUriFromEnv" in
    let oAuthClientID :=
      if truthy clientIdFromEnv then env_get host clientId else clientId in
    let oAuthClientSecret :=
      if truthy clientSecretFromEnv then env_get host clientSecret
      else clientSecret in
    let oAuthRedirectUri :=
      if truthy redirectUriFromEnv then env_get host redirectUri
      else redirectUri in
    if negb (truthy oAuthClientID)
       || negb (truthy oAuthClientSecret)
       || negb (truthy oAuthRedirectUri)
       || lodash.isElement oAuthClientID
       || lodash.isEmpty oAuthClientSecret
       || lodash.isEmpty oAuthRedirectUri
    then
      payload_set (VString "msg")
        (VObject
           [("error", VBool true);
            ("message", VString "Missing required Google OAuth client credentials");
            ("statusCode", VNumber 400);
            ("missing",
             VObject
               [("clientId", VBool (lodash.isElement oAuthClientID));
                ("clientSecret", VBool (lodash.isElement oAuthClientSecret));
                ("redirectUri", VBool (lodash.isEmpty oAuthRedirectUri))])])
    else
      let oAuth2Client :=
        VObject [("clientId", oAuthClientID);
                 ("clientSecret", oAuthClientSecret);
                 ("redirectUri", oAuthRedirectUri)] in
      let code := query_get ctx (VString "code") in
      if negb (truthy code) || lodash.isEmpty code
      then
        payload_set (VString "msg")
          (VObject
             [("error", VBool true);
              ("message", VString "Missing Google OAuth authorization code");
              ("statusCode", VNumber 400)])
      else
        do oAuthGetTokensResponse <- lift (oauth_getToken google oAuth2Client code);
        do tokens <- member oAuthGetTokensResponse "tokens";
        let authorized := set_prop oAuth2Client "credentials" tokens in
        do response <- lift (userinfo_get google authorized);
        do data <- member response "data";
        exec payload_set (VString "msg")
               (VObject
                  [("error", VBool false);
                   ("message", VString "Google OAuth authentication successful");
                   ("statusCode", VNumber 200);
                   ("user", data)]);
        next.

End CodeExchange.

(** ** index.ts: the manifest *)

(** The options of a picker: a literal list, or a function the host calls
    when it renders the step. *)
Inductive picker : Type :=
| StaticOptions (values : list string)
| ComputedOptions (compute : unit -> completion (list value)).

Record ModuleSpecsInputs : Type := mk_input {
  name : string;
  label : string;
  type : string;
  required : option bool;
  defaultValue : option value;
  hint : option string;
  pickerOptions : option picker;
  radioValues : option (list string)
}.

Record ModuleSpecs : Type := mk_spec {
  spec_name : string;
  spec_type : string;
  spec_inputs : list ModuleSpecsInputs;
  controller : string
}.

Record ModuleManifest : Type := mk_manifest {
  manifest_name : string;
  specs : list ModuleSpecs
}.

(** An input with only the mandatory fields, and the optional fields added
    one by one. *)
Definition input (n l t : string) : ModuleSpecsInputs :=
  mk_input n l t None None None None None.

Definition with_required (b : bool) (i : ModuleSpecsInputs) : ModuleSpecsInputs :=
  mk_input (name i) (label i) (type i) (Some b) (defaultValue i) (hint i)
           (pickerOptions i) (radioValues i).

Definition with_default (v : value) (i : ModuleSpecsInputs) : ModuleSpecsInputs :=
  mk_input (name i) (label i) (type i) (required i) (Some v) (hint i)
           (pickerOptions i) (radioValues i).

Definition with_hint (h : string) (i : ModuleSpecsInputs) : ModuleSpecsInputs :=
  mk_input (name i) (label i) (type i) (required i) (defaultValue i) (Some h)
           (pickerOptions i) (radioValues i).

Definition with_picker (p : picker) (i : ModuleSpecsInputs) : ModuleSpecsInputs :=
  mk_input (name i) (label i) (type i) (required i) (defaultValue i) (hint i)
           (Some p) (radioValues i).

Definition with_radio (l : list string) (i : ModuleSpecsInputs) : ModuleSpecsInputs :=
  mk_input (name i) (label i) (type i) (required i) (defaultValue i) (hint i)
           (pickerOptions i) (Some l).

(** The double-quote character of the hints. *)
Definition dquote : string := String (Ascii.ascii_of_nat 34) EmptyString.

Definition env_hint : string :=
  "For environment variables provide EcoFlow prefix. example:"
  ++ dquote ++ "ECOFLOW_USER_" ++ dquote.

(** The body of the [for ... of configManager.allConfigs.entries()] loop of
    [selectClientConfig]: every entry [[key, { label }]] adds the option
    [{ label: `${label} (${key})`, value: key }]. *)
Fixpoint selectClientConfig_loop (entries : list (string * value))
    (result : list value) : completion (list value) :=
  match entries with
  | [] => Normal result
  | (key, config) :: rest =>
      match config with
      | VUndefined | VNull =>
          Throw (error_obj "TypeError" "Cannot destructure property 'label'")
      | _ =>
          selectClientConfig_loop rest
            (result
             ++ [VObject
                   [("label",
                     VString (to_string (get_prop config "label")
                              ++ " (" ++ key ++ ")"));
                    ("value", VString key)]])
      end
  end.

(** [selectClientConfig], closed over [configManager] (here: the entries of
    its [allConfigs] map in iteration order, when the package has a
    manager). *)
Definition selectClientConfig (configManager : option (list (string * value)))
  : completion (list value) :=
  match configManager with
  | None => Normal []
  | Some allConfigs => selectClientConfig_loop allConfigs []
  end.

Definition google_credentials_inputs : list ModuleSpecsInputs :=
  [ with_hint env_hint (with_required true (input "clientId" "Client ID" "String"));
    with_hint "Use environment variable for client ID"
      (input "clientIdFromEnv" "Client ID from Environment" "Checkbox");
    with_hint env_hint
      (with_required true (input "clientSecret" "Client Secret" "String"));
    with_hint "Use environment variable for client secret"
      (input "clientSecretFromEnv" "Client Secret from Environment" "Checkbox");
    with_hint env_hint
      (with_required true (input "redirectUri" "Redirect URI" "String"));
    with_hint "Use environment variable for redirect URI"
      (input "redirectUriFromEnv" "Redirect URI from Environment" "Checkbox") ].

Definition functionManifest (configManager : option (list (string * value)))
  : ModuleManifest :=
  {| manifest_name := "Authentication";
     specs :=
       [ {| spec_name := "ApiCredentials";
            spec_type := "Configuration";
            spec_inputs :=
              [ with_required true (input "clientId" "Client Id" "String");
                with_required true
                  (input "clientSecret" "Client Secret" "HiddenString");
                with_required false (input "redirectUri" "Redirect URI" "String") ];
            controller := "ApiCredentialsController" |};
         {| spec_name := "SignJWT";
            spec_type := "Middleware";
            spec_inputs :=
              [ with_default (VString "msg")
                  (with_required true (input "payloadKey" "Payload Key" "String"));
                with_default (VString "msg")
                  (with_required true (input "responseKey" "Response Key" "String"));
                with_default (VString "1hr")
                  (with_required true (input "expiresIn" "Expiration Time" "String"));
                with_required true
                  (with_picker (StaticOptions ["HS256"; "HS384"; "RS256"; "RS384"])
                     (input "algorithm" "Algorithm" "SelectPicker"));
                with_required true
                  (with_hint "Private key works only with RS256 and RS384"
                     (input "secretORprivateKey"
                        "Enter the secret or private key" "String"));
                with_hint env_hint
                  (input "secretORprivateKeyFromEnvironment"
                     "Fetch the secret or private key from Environment"
                     "Checkbox") ];
            controller := "signJWTController" |};
         {| spec_name := "JWT JWKS Public Key";
            spec_type := "Middleware";
            spec_inputs :=
              [ with_default (VString "msg")
                  (with_required true (input "responseKey" "Response Key" "String"));
                with_required true
                  (with_hint "RS256 and RS384 public key"
                     (input "publicKey" "Enter the Public Key" "String"));
                with_hint env_hint
                  (input "fromEnvironmentVariable"
                     "Fetch the public key from Environment" "Checkbox") ];
            controller := "jwtJWKSController" |};
         {| spec_name := "Authenticate JWT";
            spec_type := "Middleware";
            spec_inputs :=
              [ with_default (VString "msg")
                  (with_required true (input "responseKey" "Response Key" "String"));
                with_required true
                  (with_picker (StaticOptions ["HS256"; "HS384"; "RS256"; "RS384"])
                     (input "algorithm" "Algorithm" "SelectPicker"));
                with_required true
                  (with_default (VString "secret")
                     (with_radio ["secret"; "publicKey"]
                        (input "secretORprivateKeySelector"
                           "Select the secret or private key" "Radio")));
                with_required true
                  (with_hint "Public key works only with RS256 and RS384"
                     (input "secretORpublicKey"
                        "Enter the secret or public key" "String"));
                with_hint env_hint
                  (input "fromEnvironmentVariable"
                     "Fetch the secret or public key from Environment"
                     "Checkbox") ];
            controller := "authenticateTokenController" |};
         {| spec_name := "Generate Google Auth URL";
            spec_type := "Middleware";
            spec_inputs :=
              google_credentials_inputs
              ++ [ with_default (VString "online")
                     (with_required true
                        (with_picker (StaticOptions ["online"; "offline"])
                           (input "access_type" "Auth URL Access Type"
                              "SelectPicker")));
                   with_default (VString "consent")
                     (with_required true
                        (with_picker
                           (StaticOptions ["select_account"; "consent"; "none"])
                           (input "prompt" "Auth URL Prompt" "SelectPicker")));
                   input "scope" "Scopes" "ListBox";
                   with_hint
                     "An optional state parameter to maintain state between the request and the callback"
                     (input "state" "State" "String");
                   with_hint
                     "An optional login hint to pre-fill the email field in the consent screen"
                     (input "login_hint" "Login Hint" "String") ];
            controller := "generateGoogleAuthUrl" |};
         {| spec_name := "Get Token From Code";
            spec_type := "Middleware";
            spec_inputs :=
              [ with_required true
                  (with_picker
                     (ComputedOptions (fun _ => selectClientConfig configManager))
                     (input "client" "client" "SelectPicker"));
                with_required false
                  (with_hint
                     "The authorization code received from the authorization endpoint"
                     (input "code" "code" "String"));
                with_required false
                  (with_default (VBool false)
                     (with_hint
                        "If true, the token will be passed by payload, otherwise, it will be passed by query parameter"
                        (input "passByPayload" "Pass By Payload" "Checkbox")));
                with_required false
                  (with_default (VString "msg")
                     (with_hint "The key to use when passing the token by payload"
                        (input "payloadKey" "Payload Key" "String"))) ];
            controller := "getTokenFromCode" |};
         {| spec_name := "Get User Details";
            spec_type := "Middleware";
            spec_inputs :=
              [ with_required true
                  (with_picker
                     (ComputedOptions (fun _ => selectClientConfig configManager))
                     (input "client" "client" "SelectPicker"));
                with_required false
                  (with_hint
                     "The refresh token obtained from the authorization code or the access token"
                     (input "refreshToken" "Refresh Token" "String"));
                with_required false
                  (with_default (VBool false)
                     (with_hint
                        "If true, the token will be passed by payload, otherwise, it will be passed by query parameter"
                        (input "passByQuery" "Pass By Query String" "Checkbox")));
                with_required false
                  (with_default (VString "token")
                     (with_hint
                        "The key to use when passing the token by query string"
                        (input "queryKey" "Query Key" "String"))) ];
            controller := "getUserDetails" |};
         {| spec_name := "Google Authenticate";
            spec_type := "Middleware";
            spec_inputs := google_credentials_inputs;
            controller := "googleOAuthAuthenticate" |} ] |}.

(** The input names the manifest declares for a controller. *)
Definition declared_inputs (m : ModuleManifest) (c : string) : list string :=
  flat_map (fun sp => if String.eqb (controller sp) c
                      then List.map name (spec_inputs sp) else [])
           (specs m).

(** Two [inputs] objects that hold the same value under every given name. *)
Definition agree_on (names : list string) (props props' : list (string * value))
  : Prop :=
  ∀ n, In n names → assoc_get n props = assoc_get n props'.

(** ** A concrete host and scenarios

    A small stand-in for the third-party libraries, used to run the
    controllers on concrete requests.  Its tokens read
    [<alg>.<subject>.<key>]: verification checks the algorithm against the
    allowed list and the last segment against the secret. *)

Definition scenario_header_alg (token : string) : option string :=
  match split "."%char token with
  | [alg; _; _] => Some alg
  | _ => None
  end.

Definition scenario_verify (token : string) (secret : secret_or_provider)
    (algorithms : list value) : verify_result :=
  match split "."%char token with
  | [alg; subject; signature] =>
      if negb (existsb (fun a => is_str a alg) algorithms)
      then VerifyError "JsonWebTokenError" "invalid algorithm"
      else
        match secret with
        | SecretValue (VString k) =>
            if String.eqb k ""
            then VerifyError "JsonWebTokenError" "secret or public key must be provided"
            else if String.eqb signature k
                 then Verified (VObject [("sub", VString subject)])
                 else VerifyError "JsonWebTokenError" "invalid signature"
        | _ => VerifyError "JsonWebTokenError" "secret or public key must be provided"
        end
  | _ => VerifyError "JsonWebTokenError" "jwt malformed"
  end.

Definition scenario_sign (claims : value) (secret : key_material)
    (expiresIn algorithm : value) : completion string :=
  match secret with
  | KValue (VString k) =>
      if String.eqb k ""
      then Throw (error_obj "Error" "secretOrPrivateKey must have a value")
      else Normal (to_string algorithm ++ "." ++ to_string (get_prop claims "sub")
                   ++ "." ++ k)
  | KValue _ => Throw (error_obj "Error" "secretOrPrivateKey must have a value")
  | KBuffer bytes =>
      Normal (to_string algorithm ++ "." ++ to_string (get_prop claims "sub")
              ++ "." ++ bytes)
  end.

(** Refreshing stores the new access token next to the refresh token; a
    revoked refresh token is refused and the credentials stay as they were.
    The token obtained from ["refresh-limited"] is later refused by the
    user-info endpoint. *)
Definition scenario_getAccessToken (credentials : value)
  : completion value * value :=
  if is_str (get_prop credentials "refresh_token") "refresh-ok"
  then (Normal (VObject [("token", VString "access-1")]),
        set_prop credentials "access_token" (VString "access-1"))
  else if is_str (get_prop credentials "refresh_token") "refresh-limited"
  then (Normal (VObject [("token", VString "access-limited")]),
        set_prop credentials "access_token" (VString "access-limited"))
  else (Throw (error_obj "GaxiosError" "invalid_grant"), credentials).

Definition scenario_axios_get (url : string) : completion value :=
  if String.eqb url
       "https://www.googleapis.com/oauth2/v2/userinfo?alt=json&access_token=access-1"
  then Normal (VObject [("data", VObject [("email", VString "u1@example.com")])])
  else Throw (error_obj "AxiosError" "Request failed with status code 401").

Definition scenario_host : Host := {|
  env := {[ "ECOFLOW_SYS_TOKEN_SALT" := "pepper" ]};
  fs := <[ "/keys/private.pem" := FsFile "PRIVATE KEY" ]>
          (<[ "/keys" := FsDir ]> ∅);
  url_parses := fun s => String.prefix "https://" s;
  jwt_verify := scenario_verify;
  jwt_header_alg := scenario_header_alg;
  jwt_sign := scenario_sign;
  pem2jwk := fun pem extras =>
    Normal (VObject [("kty", VString "RSA"); ("use", get_prop extras "use")]);
  oauth_generateAuthUrl := fun client params =>
    "https://accounts.google.com/o/oauth2/v2/auth?client_id="
    ++ to_string (get_prop client "clientId");
  oauth_getAccessToken := scenario_getAccessToken;
  axios_get := scenario_axios_get
|}.

(** A fresh invocation: nothing in the payload, no client registered. *)
Definition fresh : State := {|
  payload := ∅;
  status := 200;
  next_calls := 0;
  moduleConfigs := None;
  error_log := [];
  trace := []
|}.

(** A request carrying the given [Authorization] header. *)
Definition request_with (header : option string) : Request :=
  {| authorization := header; query := ∅ |}.

(** The library honours its [algorithms] option: a token whose header names
    an algorithm outside the allowed list never verifies. *)
Definition honours_algorithms (host : Host) : Prop :=
  ∀ (token : string) (secret : secret_or_provider) (algorithms : list value)
    (alg : string),
    jwt_header_alg host token = Some alg →
    VString alg ∉ algorithms →
    ∃ name message,
      jwt_verify host token secret algorithms = VerifyError name message.

(** Whether a string contains a space, the separator the verifier splits
    the [Authorization] header on. *)
Fixpoint has_space (s : string) : bool :=
  match s with
  | EmptyString => false
  | String c rest => Ascii.eqb c " " || has_space rest
  end.

(** The context of a verifier step configured with a static secret. *)
Definition verifier_ctx (algorithm secret : string) (header : option string)
  : EcoContext :=
  {| inputs := Some [("responseKey", VString "user");
                     ("algorithm", VString algorithm);
                     ("secretORprivateKeySelector", VString "secret");
                     ("secretORpublicKey", VString secret);
                     ("fromEnvironmentVariable", VBool false)];
     request := request_with header |}.

(** A context whose [inputs] is undefined. *)
Definition bare_ctx (header : option string) : EcoContext :=
  {| inputs := None; request := request_with header |}.

(** The context of a signer step configured with a static secret. *)
Definition signer_ctx (algorithm secret : string) : EcoContext :=
  {| inputs := Some [("payloadKey", VString "claims");
                     ("responseKey", VString "token");
                     ("expiresIn", VString "1hr");
                     ("algorithm", VString algorithm);
                     ("secretORprivateKey", VString secret);
                     ("secretORprivateKeyFromEnvironment", VBool false)];
     request := request_with None |}.

(** The context of a JWKS step reading its public key from a literal path. *)
Definition jwks_ctx (path : string) : EcoContext :=
  {| inputs := Some [("responseKey", VString "jwks");
                     ("publicKey", VString path);
                     ("fromEnvironmentVariable", VBool false)];
     request := request_with None |}.

(** An auth-URL step whose [clientId] input is absent. *)
Definition authurl_ctx_without_clientId : EcoContext :=
  {| inputs := Some [("clientSecret", VString "shh");
                     ("redirectUri", VString "https://app.example/callback");
                     ("access_type", VString "offline");
                     ("prompt", VString "consent")];
     request := request_with None |}.

(** The package's configurations with one registered client, ["google"],
    whose [OAuth2Client] holds no credentials yet. *)
Definition google_configs : gmap string value :=
  {[ "google" :=
       VObject [("label", VString "Google");
                ("configs",
                 VInstance "OAuth2Client"
                   [("_clientId", VString "id-1");
                    ("credentials", VObject [])])] ]}.

Definition registered : State := {|
  payload := ∅;
  status := 200;
  next_calls := 0;
  moduleConfigs := Some google_configs;
  error_log := [];
  trace := []
|}.

(** A user-details step for the client ["google"] with a literal refresh
    token. *)
Definition userdetails_ctx (refreshToken : string) : EcoContext :=
  {| inputs := Some [("client", VString "google");
                     ("refreshToken", VString refreshToken)];
     request := request_with None |}.

(** Stand-ins for the Google endpoints: the code ["code-ok"] is exchanged for
    a token pair, any other code is refused; the user-info endpoint answers
    clients holding the access token ["access-1"]. *)
Definition scenario_getToken (client code : value) : completion value :=
  if is_str code "code-ok"
  then Normal (VObject [("tokens",
                         VObject [("access_token", VString "access-1");
                                  ("refresh_token", VString "refresh-ok")])])
  else Throw (error_obj "GaxiosError" "invalid_grant").

Definition scenario_userinfo (client : value) : completion value :=
  if is_str (get_prop (get_prop client "credentials") "access_token") "access-1"
  then Normal (VObject [("data", VObject [("email", VString "u1@example.com")])])
  else Throw (error_obj "GaxiosError" "Invalid Credentials").

Definition scenario_google : GoogleApi := {|
  oauth_getToken := scenario_getToken;
  userinfo_get := scenario_userinfo
|}.

(** A signer step asked for an asymmetric algorithm with a key file path. *)
Definition signer_file_ctx (algorithm path : string) : EcoContext :=
  {| inputs := Some [("payloadKey", VString "claims");
                     ("responseKey", VString "token");
                     ("expiresIn", VString "1hr");
                     ("algorithm", VString algorithm);
                     ("secretORprivateKey", VString path);
                     ("secretORprivateKeyFromEnvironment", VBool false)];
     request := request_with None |}.

(** The context of a verifier step that takes its key from a JWKS URL. *)
Definition verifier_jwks_ctx (algorithm url : string) (header : option string)
  : EcoContext :=
  {| inputs := Some [("responseKey", VString "user");
                     ("algorithm", VString algorithm);
                     ("secretORprivateKeySelector", VString "jwk");
                     ("secretORpublicKey", VString url);
                     ("fromEnvironmentVariable", VBool false)];
     request := request_with header |}.

(** The context of a signer step that names its secret by an environment
    variable. *)
Definition signer_env_ctx (algorithm variable : string) : EcoContext :=
  {| inputs := Some [("payloadKey", VString "claims");
                     ("responseKey", VString "token");
                     ("expiresIn", VString "1hr");
                     ("algorithm", VString algorithm);
                     ("secretORprivateKey", VString variable);
                     ("secretORprivateKeyFromEnvironment", VBool true)];
     request := request_with None |}.

(** A state whose payload holds the claims to sign. *)
Definition with_claims : State := {|
  payload := {[ "claims" := VObject [("sub", VString "u1")] ]};
  status := 200;
  next_calls := 0;
  moduleConfigs := None;
  error_log := [];
  trace := []
|}.

(** An auth-URL step with all its inputs. *)
Definition authurl_ctx (access_type prompt : value) : EcoContext :=
  {| inputs := Some [("clientId", VString "id-1");
                     ("clientSecret", VString "shh");
                     ("redirectUri", VString "https://app.example/callback");
                     ("access_type", access_type);
                     ("prompt", prompt);
                     ("state", VString "xyz")];
     request := request_with None |}.

(** A code-exchange step for a registered client. *)
Definition exchange_ctx (client code : string) : EcoContext :=
  {| inputs := Some [("client", VString client); ("code", VString code)];
     request := request_with None |}.

(** The redirect request of the inline Google flow, carrying [?code=...]. *)
Definition redirect_ctx (code : option string) : EcoContext :=
  {| inputs := Some [("clientId", VString "id-1");
                     ("clientSecret", VString "shh");
                     ("redirectUri", VString "https://app.example/callback")];
     request := {| authorization := None;
                   query := match code with
                            | Some c => {[ "code" := VString c ]}
                            | None => ∅
                            end |} |}.

(** A code-exchange step that reads its code from [payload[payloadKey]]
    ([payload.msg] when no key is given). *)
Definition exchange_by_payload_ctx (payloadKey : value) : EcoContext :=
  {| inputs := Some [("client", VString "google");
                     ("passByPayload", VBool true);
                     ("payloadKey", payloadKey)];
     request := request_with None |}.

(** A state with the client ["google"] registered and an authorization code
    waiting in [payload.msg]. *)
Definition code_in_payload : State := {|
  payload := {[ "msg" := VObject [("code", VString "code-used")] ]};
  status := 200;
  next_calls := 0;
  moduleConfigs := Some google_configs;
  error_log := [];
  trace := []
|}.

(** ** What a run may change *)

(** A computation preserves a relation on states when every run, whether it
    returns or throws, ends in a state related to the one it started in. *)
Definition preserves {A} (R : State → State → Prop) (m : M A) : Prop :=
  ∀ s, R s (snd (m s)).

(** Nothing but [payload.msg] is assigned and [next()] is not undone: status,
    error log and library trace are as before, every other payload key is as
    before, and the client configurations are the very same. *)
Definition only_msg (s s' : State) : Prop :=
  status s' = status s
  ∧ error_log s' = error_log s
  ∧ trace s' = trace s
  ∧ moduleConfigs s' = moduleConfigs s
  ∧ (∀ k, k ≠ "msg" → payload s' !! k = payload s !! k)
  ∧ (next_calls s ≤ next_calls s')%nat.

(** As [only_msg], except that the configuration registered under [client]
    may have changed; every other configuration is as before. *)
Definition only_msg_and_client (client : string) (s s' : State) : Prop :=
  status s' = status s
  ∧ error_log s' = error_log s
  ∧ trace s' = trace s
  ∧ match moduleConfigs s, moduleConfigs s' with
    | Some manager, Some manager' =>
        ∀ other, other ≠ client → manager' !! other = manager !! other
    | None, None => True
    | _, _ => False
    end
  ∧ (∀ k, k ≠ "msg" → payload s' !! k = payload s !! k)
  ∧ (next_calls s ≤ next_calls s')%nat.

(** ** Key Resolver *)

Ltac step_monad :=
  unfold bind, ret, throw, lift, try_catch, record, payload_set, payload_get,
    status_set, next, log_error; simpl.

(** C1. With an asymmetric algorithm (RS256 or RS384) and a key reference that
    does not name an existing regular file, [fetchSecretORprivateKey] returns
    the value of the environment variable [ECOFLOW_SYS_TOKEN_SALT] together
    with the downgraded symmetric algorithm: RS256 gives HS256 and RS384
    gives HS384. *)
Theorem fetchSecretORprivateKey_fallback
    (host : Host) (algorithm : string) (key : value) (s : State) :
  algorithm = "RS256" ∨ algorithm = "RS384" →
  (∀ content, fs_lookup host key ≠ Some (FsFile content)) →
  ∃ downgraded,
    fst (fetchSecretORprivateKey host (VString algorithm) key s)
    = Normal (KValue (match env host !! "ECOFLOW_SYS_TOKEN_SALT" with
                      | Some salt => VString salt
                      | None => VUndefined
                      end),
              VString downgraded)
    ∧ (algorithm = "RS256" → downgraded = "HS256")
    ∧ (algorithm = "RS384" → downgraded = "HS384").
Proof.
  intros Halg Hnofile.
  exists (if String.eqb algorithm "RS256" then "HS256" else "HS384").
  split; [| by destruct Halg; subst; split].
  unfold fetchSecretORprivateKey, fse_exists, fse_stat, fse_readFile.
  destruct Halg; subst algorithm; step_monad;
    (destruct (fs_lookup host key) as [[content|]|] eqn:Hnode; simpl;
     [ by destruct (Hnofile content) | reflexivity | reflexivity ]).
Qed.

Lemma fetchSecretORprivateKey_fallback_witness :
  ("RS384" = "RS256" ∨ "RS384" = "RS384")
  ∧ (∀ content, fs_lookup scenario_host (VString "/keys") ≠ Some (FsFile content))
  ∧ ∃ downgraded,
      fst (fetchSecretORprivateKey scenario_host (VString "RS384")
             (VString "/keys") fresh)
      = Normal (KValue (match env scenario_host !! "ECOFLOW_SYS_TOKEN_SALT" with
                        | Some salt => VString salt
                        | None => VUndefined
                        end),
                VString downgraded)
      ∧ ("RS384" = "RS256" → downgraded = "HS256")
      ∧ ("RS384" = "RS384" → downgraded = "HS384").
Proof.
  assert (Hnofile : ∀ content,
             fs_lookup scenario_host (VString "/keys") ≠ Some (FsFile content))
    by (intros content; vm_compute; discriminate).
  split; [right; reflexivity |].
  split; [exact Hnofile |].
  exact (fetchSecretORprivateKey_fallback scenario_host "RS384" (VString "/keys")
           fresh (or_intror eq_refl) Hnofile).
Defined.

(** C2. With a symmetric algorithm (HS256 or HS384), [fetchSecretORprivateKey]
    returns the input key unchanged, paired with the same algorithm, and
    makes no file-system call: the state, and with it the trace of library
    calls, is left as it was. *)
Theorem fetchSecretORprivateKey_symmetric
    (host : Host) (algorithm : string) (key : value) (s : State) :
  algorithm = "HS256" ∨ algorithm = "HS384" →
  fetchSecretORprivateKey host (VString algorithm) key s
  = (Normal (KValue key, VString algorithm), s)
  ∧ trace (snd (fetchSecretORprivateKey host (VString algorithm) key s)) = trace s.
Proof.
  intros [-> | ->]; split; reflexivity.
Qed.

Lemma fetchSecretORprivateKey_symmetric_witness :
  ("HS256" = "HS256" ∨ "HS256" = "HS384")
  ∧ fetchSecretORprivateKey scenario_host (VString "HS256") (VString "s3cr3t") fresh
    = (Normal (KValue (VString "s3cr3t"), VString "HS256"), fresh)
  ∧ trace (snd (fetchSecretORprivateKey scenario_host (VString "HS256")
                  (VString "s3cr3t") fresh)) = trace fresh.
Proof.
  split; [left; reflexivity |].
  exact (fetchSecretORprivateKey_symmetric scenario_host "HS256"
           (VString "s3cr3t") fresh (or_introl eq_refl)).
Defined.

(** ** Remote Key Fetcher *)

(** C9. [fetchJWKPublicKey] returns the empty-string sentinel exactly when
    constructing a URL from the input string fails, and otherwise returns a
    key-provider function (closed over a caching JWKS client for that URL:
    50 entries, one hour) rather than a string. *)
Theorem fetchJWKPublicKey_sentinel (host : Host) (url : string) :
  fetchJWKPublicKey host (VString url)
  = (if url_parses host url
     then KeyProvider {| jwksUri := url; cache := true;
                         cacheMaxEntries := 50; cacheMaxAge := 3600000 |}
     else SecretValue (VString ""))
  ∧ (fetchJWKPublicKey host (VString url) = SecretValue (VString "")
     ↔ url_parses host url = false)
  ∧ ((∃ client, fetchJWKPublicKey host (VString url) = KeyProvider client)
     ↔ url_parses host url = true).
Proof.
  unfold fetchJWKPublicKey, stringIsAValidUrl; simpl.
  destruct (url_parses host url); simpl.
  - split; [reflexivity |]. split; split; try done. eauto.
  - split; [reflexivity |]. split; split; try done. by intros [client ?].
Qed.

(** ** Token Verifier *)

#[local] Arguments nth_error : simpl never.

Lemma app_singleton_neq {A} (l : list A) (x : A) : l ≠ (l ++ [x])%list.
Proof.
  intros H. apply (f_equal length) in H. rewrite length_app in H.
  simpl in H. lia.
Qed.

Lemma app_singleton_inj {A} (l : list A) (x y : A) :
  (l ++ [x])%list = (l ++ [y])%list → x = y.
Proof. intros H. apply app_inv_head in H. by injection H. Qed.

(** Every run of the verifier ends in one of three ways: it returns at once
    because [inputs] is undefined; it answers "Invalid authorization" because
    the header or its second segment is missing or empty; or it calls
    [JWT.verify] once, on the second segment and the single configured
    algorithm, and follows the library's verdict. *)
Lemma authenticateToken_cases (host : Host) (ctx : EcoContext) (s : State) :
  let key := to_string (get_prop (inputs_value ctx) "responseKey") in
  let algorithm := get_prop (inputs_value ctx) "algorithm" in
  let run := authenticateTokenController host ctx s in
  (inputs ctx = None ∧ run = (Normal tt, s))
  ∨ (is_Some (inputs ctx)
     ∧ (authorization (request ctx) = None
        ∨ authorization (request ctx) = Some ""
        ∨ ∃ header, authorization (request ctx) = Some header
                    ∧ (nth_error (split " " header) 1 = None
                       ∨ nth_error (split " " header) 1 = Some ""))
     ∧ run = (Normal tt,
              mk_State (<[key := VString "Invalid authorization"]> (payload s))
                       401 (next_calls s) (moduleConfigs s) (error_log s)
                       (trace s)))
  ∨ (∃ header token secret,
       is_Some (inputs ctx)
       ∧ authorization (request ctx) = Some header
       ∧ header ≠ ""
       ∧ nth_error (split " " header) 1 = Some token
       ∧ token ≠ ""
       ∧ match jwt_verify host token secret [algorithm] with
         | VerifyError name message =>
             run = (Normal tt,
                    mk_State (<[key := VString message]> (payload s))
                             401 (next_calls s) (moduleConfigs s) (error_log s)
                             (trace s ++ [JwtVerify token secret [algorithm]
                                            (VerifyError name message)]))
         | Verified decoded =>
             run = (Normal tt,
                    mk_State (<[key := decoded]> (payload s))
                             (status s) (S (next_calls s)) (moduleConfigs s)
                             (error_log s)
                             (trace s ++ [JwtVerify token secret [algorithm]
                                            (Verified decoded)]))
         end).
Proof.
  intros key algorithm run. subst key algorithm run.
  unfold authenticateTokenController, inputs_value, header_authorization.
  destruct (inputs ctx) as [props|] eqn:Hin; simpl; [| by left].
  right.
  destruct (authorization (request ctx)) as [header|] eqn:Hauth; simpl;
    [| left; split; [eauto |]; split; [by left | reflexivity]].
  destruct (String.eqb header "") eqn:Hempty.
  { apply String.eqb_eq in Hempty; subst header.
    left; split; [eauto |]; split; [by right; left | reflexivity]. }
  apply String.eqb_neq in Hempty.
  unfold str_split, index. step_monad.
  destruct (nth_error (split " " header) 1) as [token|] eqn:Hseg; simpl;
    [| left; split; [eauto |]; split; [right; right; eauto | reflexivity]].
  destruct (String.eqb token "") eqn:Htok; simpl.
  { apply String.eqb_eq in Htok; subst token.
    left; split; [eauto |]; split; [right; right; eauto | reflexivity]. }
  apply String.eqb_neq in Htok.
  right. unfold await_verify. step_monad.
  match goal with
  | |- context [jwt_verify host token ?secret _] => exists header, token, secret
  end.
  split; [eauto |]. split; [reflexivity |]. split; [done |].
  split; [exact Hseg |]. split; [done |].
  destruct (jwt_verify host token _ _); reflexivity.
Qed.

Lemma authenticateToken_undefined_inputs (host : Host) (ctx : EcoContext)
    (s : State) :
  inputs ctx = None → authenticateTokenController host ctx s = (Normal tt, s).
Proof.
  intros Hin. unfold authenticateTokenController, inputs_value.
  by rewrite Hin.
Qed.

(** C3 (amended). When [inputs] is defined and the request's [Authorization]
    header is missing or empty, the verifier writes "Invalid authorization"
    into [payload[responseKey]], sets the status to 401 and returns without
    calling [next()] or the token library. *)
Theorem authenticateToken_missing_header
    (host : Host) (ctx : EcoContext) (s : State) :
  is_Some (inputs ctx) →
  authorization (request ctx) = None ∨ authorization (request ctx) = Some "" →
  fst (authenticateTokenController host ctx s) = Normal tt
  ∧ payload (snd (authenticateTokenController host ctx s))
      !! to_string (get_prop (inputs_value ctx) "responseKey")
    = Some (VString "Invalid authorization")
  ∧ status (snd (authenticateTokenController host ctx s)) = 401
  ∧ next_calls (snd (authenticateTokenController host ctx s)) = next_calls s
  ∧ trace (snd (authenticateTokenController host ctx s)) = trace s.
Proof.
  intros [props Hin] Hheader.
  destruct (authenticateToken_cases host ctx s)
    as [[Hnone _] | [(_ & _ & ->) | (header & token & secret & _ & Hsome & Hne & _)]].
  - congruence.
  - simpl. by rewrite lookup_insert_eq.
  - destruct Hheader; congruence.
Qed.

Lemma authenticateToken_missing_header_witness :
  is_Some (inputs (verifier_ctx "HS256" "s3cr3t" None))
  ∧ (authorization (request (verifier_ctx "HS256" "s3cr3t" None)) = None
     ∨ authorization (request (verifier_ctx "HS256" "s3cr3t" None)) = Some "")
  ∧ payload (snd (authenticateTokenController scenario_host
                    (verifier_ctx "HS256" "s3cr3t" None) fresh)) !! "user"
    = Some (VString "Invalid authorization")
  ∧ status (snd (authenticateTokenController scenario_host
                   (verifier_ctx "HS256" "s3cr3t" None) fresh)) = 401
  ∧ next_calls (snd (authenticateTokenController scenario_host
                       (verifier_ctx "HS256" "s3cr3t" None) fresh)) = 0%nat.
Proof.
  assert (Hin : is_Some (inputs (verifier_ctx "HS256" "s3cr3t" None)))
    by (simpl; eauto).
  assert (Hheader :
            authorization (request (verifier_ctx "HS256" "s3cr3t" None)) = None
            ∨ authorization (request (verifier_ctx "HS256" "s3cr3t" None)) = Some "")
    by (left; reflexivity).
  destruct (authenticateToken_missing_header scenario_host
              (verifier_ctx "HS256" "s3cr3t" None) fresh Hin Hheader)
    as (_ & Hpayload & Hstatus & Hnext & _).
  repeat split; assumption.
Defined.

(** C3 as stated fails when [inputs] is undefined: the header is missing, yet
    the verifier returns at once, writing nothing and leaving the status
    alone. *)
Lemma authenticateToken_missing_header_counterexample :
  authorization (request (bare_ctx None)) = None
  ∧ payload (snd (authenticateTokenController scenario_host (bare_ctx None) fresh))
    = ∅
  ∧ status (snd (authenticateTokenController scenario_host (bare_ctx None) fresh))
    ≠ 401.
Proof. repeat split. by vm_compute. Qed.

Lemma existsb_is_str_false (algorithms : list value) (alg : string) :
  VString alg ∉ algorithms →
  existsb (fun a => is_str a alg) algorithms = false.
Proof.
  induction algorithms as [| a rest IH]; intros Hnotin; [reflexivity |].
  apply not_elem_of_cons in Hnotin as [Hne Hrest].
  simpl. rewrite (IH Hrest), orb_false_r.
  destruct a; try reflexivity. simpl.
  apply String.eqb_neq. congruence.
Qed.

Lemma scenario_host_honours_algorithms : honours_algorithms scenario_host.
Proof.
  intros token secret algorithms alg Halg Hnotin. simpl in *.
  unfold scenario_header_alg in Halg. unfold scenario_verify.
  destruct (split "." token) as [| a [| b [| c [| d rest]]]]; try discriminate.
  injection Halg as ->.
  rewrite (existsb_is_str_false _ _ Hnotin). simpl. eauto.
Qed.

(** C4. Whenever the verifier's call to [JWT.verify] fails, the error's
    message is written into [payload[responseKey]], the status is set to 401
    and [next()] is not called; the call is always restricted to the single
    configured algorithm, so with a library that honours that restriction a
    token signed under any other algorithm is rejected in this way; and
    [next()] is called, with the decoded claims in [payload[responseKey]],
    only after a successful verification under the configured algorithm. *)
Theorem authenticateToken_verification_failure
    (host : Host) (ctx : EcoContext) (s : State) :
  let key := to_string (get_prop (inputs_value ctx) "responseKey") in
  let algorithm := get_prop (inputs_value ctx) "algorithm" in
  let s' := snd (authenticateTokenController host ctx s) in
  (∀ token secret algorithms name message,
      trace s' = (trace s ++ [JwtVerify token secret algorithms
                                (VerifyError name message)])%list →
      algorithms = [algorithm]
      ∧ payload s' !! key = Some (VString message)
      ∧ status s' = 401
      ∧ next_calls s' = next_calls s)
  ∧ (honours_algorithms host →
     ∀ header token alg,
       is_Some (inputs ctx) →
       authorization (request ctx) = Some header →
       nth_error (split " " header) 1 = Some token →
       token ≠ "" →
       jwt_header_alg host token = Some alg →
       algorithm ≠ VString alg →
       ∃ secret name message,
         trace s' = (trace s ++ [JwtVerify token secret [algorithm]
                                   (VerifyError name message)])%list
         ∧ payload s' !! key = Some (VString message)
         ∧ status s' = 401
         ∧ next_calls s' = next_calls s)
  ∧ (next_calls s' ≠ next_calls s →
     ∃ token secret decoded,
       trace s' = (trace s ++ [JwtVerify token secret [algorithm]
                                 (Verified decoded)])%list
       ∧ payload s' !! key = Some decoded
       ∧ next_calls s' = S (next_calls s)).
Proof.
  intros key algorithm s'. subst s'.
  pose proof (authenticateToken_cases host ctx s) as Hcases.
  cbv zeta in Hcases. fold key algorithm in Hcases.
  destruct Hcases
    as [[Hnone ->] | [(_ & Hbad & ->) |
         (header & token & secret & Hin & Hauth & Hne & Hseg & Htok & Hrun)]];
    simpl.
  - split; [| split].
    + intros ? ? ? ? ? Htrace. by destruct (app_singleton_neq _ _ Htrace).
    + intros _ header token alg [props Hprops]. congruence.
    + congruence.
  - split; [| split].
    + intros ? ? ? ? ? Htrace. by destruct (app_singleton_neq _ _ Htrace).
    + intros _ header token alg _ Hauth Hseg Htok.
      destruct Hbad as [H | [H | (header' & Hauth' & Hseg')]].
      * congruence.
      * rewrite Hauth in H. injection H as ->. discriminate Hseg.
      * rewrite Hauth in Hauth'. injection Hauth' as <-.
        destruct Hseg'; congruence.
    + congruence.
  - split; [| split].
    + intros token' secret' algorithms name message Htrace.
      destruct (jwt_verify host token secret [algorithm]) as [n m | decoded];
        rewrite Hrun in Htrace |- *; simpl in *;
        apply app_singleton_inj in Htrace; [| discriminate].
      injection Htrace as <- <- <- <- <-.
      by rewrite lookup_insert_eq.
    + intros Hlib header' token' alg _ Hauth' Hseg' _ Halg Hother.
      rewrite Hauth in Hauth'. injection Hauth' as <-.
      rewrite Hseg in Hseg'. injection Hseg' as <-.
      destruct (Hlib token secret [algorithm] alg Halg) as (n & m & Hfail).
      { intros Hel. apply list_elem_of_singleton in Hel. congruence. }
      rewrite Hfail in Hrun. rewrite Hrun. simpl.
      exists secret, n, m. by rewrite lookup_insert_eq.
    + intros Hnext.
      destruct (jwt_verify host token secret [algorithm]) as [n m | decoded];
        rewrite Hrun in Hnext |- *; simpl in *; [done |].
      exists token, secret, decoded. by rewrite lookup_insert_eq.
Qed.

Lemma authenticateToken_verification_failure_witness :
  ∃ secret name message,
    trace (snd (authenticateTokenController scenario_host
                  (verifier_ctx "HS256" "s3cr3t" (Some "Bearer RS256.u1.s3cr3t"))
                  fresh))
    = [JwtVerify "RS256.u1.s3cr3t" secret [VString "HS256"]
         (VerifyError name message)]
    ∧ payload (snd (authenticateTokenController scenario_host
                      (verifier_ctx "HS256" "s3cr3t"
                         (Some "Bearer RS256.u1.s3cr3t")) fresh)) !! "user"
      = Some (VString message)
    ∧ status (snd (authenticateTokenController scenario_host
                     (verifier_ctx "HS256" "s3cr3t"
                        (Some "Bearer RS256.u1.s3cr3t")) fresh)) = 401
    ∧ next_calls (snd (authenticateTokenController scenario_host
                         (verifier_ctx "HS256" "s3cr3t"
                            (Some "Bearer RS256.u1.s3cr3t")) fresh)) = 0%nat.
Proof.
  destruct (authenticateToken_verification_failure scenario_host
              (verifier_ctx "HS256" "s3cr3t" (Some "Bearer RS256.u1.s3cr3t"))
              fresh) as (_ & Hconfusion & _).
  apply (Hconfusion scenario_host_honours_algorithms
           "Bearer RS256.u1.s3cr3t" "RS256.u1.s3cr3t" "RS256").
  - simpl. eauto.
  - reflexivity.
  - reflexivity.
  - discriminate.
  - reflexivity.
  - discriminate.
Defined.

Lemma split_no_space (s : string) :
  has_space s = false → split " " s = [s].
Proof.
  induction s as [| c rest IH]; [reflexivity |].
  cbn [has_space split]. intros H. apply orb_false_elim in H as [Hc Hrest].
  by rewrite Hc, (IH Hrest).
Qed.

Lemma split_scheme (scheme rest : string) :
  has_space scheme = false →
  split " " (scheme ++ " " ++ rest) = scheme :: split " " rest.
Proof.
  induction scheme as [| c scheme' IH]; [reflexivity |].
  cbn [has_space]. intros H. apply orb_false_elim in H as [Hc Hrest].
  change (String c scheme' ++ " " ++ rest)
    with (String c (scheme' ++ " " ++ rest)).
  cbn [split]. by rewrite Hc, (IH Hrest).
Qed.

Lemma bind_ret_l {A B} (a : A) (k : A → M B) (s : State) :
  bind (ret a) k s = k a s.
Proof. reflexivity. Qed.

Lemma index_cons (seg : string) (segs : list string) (i : nat) :
  index (seg :: segs) (S i) = index segs i.
Proof. reflexivity. Qed.

Lemma scheme_header_nonempty (scheme rest : string) :
  String.eqb (scheme ++ " " ++ rest) "" = false.
Proof. by destruct scheme. Qed.

(** The verifier never looks at the scheme word: two headers that differ only
    in their first segment are processed alike. *)
Lemma authenticateToken_scheme_irrelevant (host : Host)
    (ins : option (list (string * value))) (q : gmap string value)
    (scheme scheme' rest : string) (s : State) :
  has_space scheme = false →
  has_space scheme' = false →
  authenticateTokenController host
    {| inputs := ins;
       request := {| authorization := Some (scheme ++ " " ++ rest); query := q |} |} s
  = authenticateTokenController host
      {| inputs := ins;
         request := {| authorization := Some (scheme' ++ " " ++ rest); query := q |} |} s.
Proof.
  intros Hscheme Hscheme'.
  unfold authenticateTokenController, inputs_value, header_authorization,
    str_split.
  destruct ins as [props |]; [| reflexivity].
  cbn [inputs request authorization lodash.isUndefined lodash.isEmpty orb].
  rewrite !scheme_header_nonempty.
  rewrite (split_scheme scheme rest Hscheme),
          (split_scheme scheme' rest Hscheme').
  rewrite !bind_ret_l. cbv beta.
  by rewrite !index_cons.
Qed.

(** C10 (amended). When [inputs] is defined and the [Authorization] header is
    a non-empty string, the verifier takes the header's second
    space-separated segment as the token.  If that segment is a non-empty
    string, it goes on to [JWT.verify] with it, whatever the first segment
    (the scheme word) is: replacing the scheme word by any other word leaves
    the whole run unchanged.  If there is no second segment (in particular
    when the header has no space) or the segment is empty, it answers
    "Invalid authorization" with status 401 and calls neither the library nor
    [next()]. *)
Theorem authenticateToken_second_segment
    (host : Host) (ctx : EcoContext) (header : string) (s : State) :
  is_Some (inputs ctx) →
  authorization (request ctx) = Some header →
  header ≠ "" →
  let key := to_string (get_prop (inputs_value ctx) "responseKey") in
  let algorithm := get_prop (inputs_value ctx) "algorithm" in
  let s' := snd (authenticateTokenController host ctx s) in
  (∀ token,
      nth_error (split " " header) 1 = Some token → token ≠ "" →
      ∃ secret,
        trace s'
        = (trace s ++ [JwtVerify token secret [algorithm]
                         (jwt_verify host token secret [algorithm])])%list)
  ∧ (nth_error (split " " header) 1 = None
     ∨ nth_error (split " " header) 1 = Some "" →
     payload s' !! key = Some (VString "Invalid authorization")
     ∧ status s' = 401
     ∧ next_calls s' = next_calls s
     ∧ trace s' = trace s)
  ∧ (has_space header = false → nth_error (split " " header) 1 = None)
  ∧ (∀ scheme scheme' rest,
        header = scheme ++ " " ++ rest →
        has_space scheme = false → has_space scheme' = false →
        authenticateTokenController host
          {| inputs := inputs ctx;
             request := {| authorization := Some (scheme' ++ " " ++ rest);
                           query := query (request ctx) |} |} s
        = authenticateTokenController host ctx s).
Proof.
  intros Hin Hauth Hne key algorithm s'. subst s'.
  pose proof (authenticateToken_cases host ctx s) as Hcases.
  cbv zeta in Hcases. fold key algorithm in Hcases.
  split; [| split; [| split]].
  - intros token Hseg Htok.
    destruct Hcases
      as [[Hnone _] | [(_ & Hbad & _) |
           (header' & token' & secret & _ & Hauth' & _ & Hseg' & _ & Hrun)]].
    + destruct Hin; congruence.
    + destruct Hbad as [H | [H | (header' & Hauth' & Hseg')]];
        [congruence | congruence |].
      rewrite Hauth in Hauth'. injection Hauth' as <-.
      destruct Hseg'; congruence.
    + rewrite Hauth in Hauth'. injection Hauth' as <-.
      rewrite Hseg in Hseg'. injection Hseg' as <-.
      exists secret.
      by destruct (jwt_verify host token secret [algorithm]); rewrite Hrun.
  - intros Hseg.
    destruct Hcases
      as [[Hnone _] | [(_ & _ & ->) |
           (header' & token' & secret & _ & Hauth' & _ & Hseg' & Htok' & _)]].
    + destruct Hin; congruence.
    + simpl. by rewrite lookup_insert_eq.
    + rewrite Hauth in Hauth'. injection Hauth' as <-.
      destruct Hseg; congruence.
  - intros Hnospace. by rewrite (split_no_space header Hnospace).
  - intros scheme scheme' rest -> Hscheme Hscheme'.
    destruct ctx as [ins [auth q]]. simpl in Hauth. subst auth. simpl.
    apply authenticateToken_scheme_irrelevant; assumption.
Qed.

Lemma authenticateToken_second_segment_witness :
  is_Some (inputs (verifier_ctx "HS256" "s3cr3t" (Some "Basic HS256.u1.s3cr3t")))
  ∧ "Basic HS256.u1.s3cr3t" ≠ ""
  ∧ (∃ secret,
        trace (snd (authenticateTokenController scenario_host
                      (verifier_ctx "HS256" "s3cr3t"
                         (Some "Basic HS256.u1.s3cr3t")) fresh))
        = [JwtVerify "HS256.u1.s3cr3t" secret [VString "HS256"]
             (jwt_verify scenario_host "HS256.u1.s3cr3t" secret
                [VString "HS256"])])
  ∧ authenticateTokenController scenario_host
      (verifier_ctx "HS256" "s3cr3t" (Some "Bearer HS256.u1.s3cr3t")) fresh
    = authenticateTokenController scenario_host
        (verifier_ctx "HS256" "s3cr3t" (Some "Basic HS256.u1.s3cr3t")) fresh.
Proof.
  assert (Hin : is_Some (inputs (verifier_ctx "HS256" "s3cr3t"
                                   (Some "Basic HS256.u1.s3cr3t"))))
    by (simpl; eauto).
  assert (Hne : "Basic HS256.u1.s3cr3t" ≠ "") by discriminate.
  destruct (authenticateToken_second_segment scenario_host
              (verifier_ctx "HS256" "s3cr3t" (Some "Basic HS256.u1.s3cr3t"))
              "Basic HS256.u1.s3cr3t" fresh Hin eq_refl Hne)
    as (Htoken & _ & _ & Hscheme).
  split; [exact Hin |]. split; [exact Hne |]. split.
  - apply (Htoken "HS256.u1.s3cr3t"); [reflexivity | discriminate].
  - apply (Hscheme "Basic" "Bearer" "HS256.u1.s3cr3t"); reflexivity.
Defined.

(** C10 as stated fails on two requests.  With the header ["Bearer  x"] (two
    spaces) the second segment is the empty string and the verifier answers
    401 without calling [JWT.verify]; and when [inputs] is undefined a header
    without a space (["Bearer"]) does not yield the 401 answer: nothing is
    written and the status is left alone. *)
Lemma authenticateToken_second_segment_counterexample :
  (nth_error (split " " "Bearer  x") 1 = Some ""
   ∧ trace (snd (authenticateTokenController scenario_host
                   (verifier_ctx "HS256" "s3cr3t" (Some "Bearer  x")) fresh))
     = []
   ∧ status (snd (authenticateTokenController scenario_host
                    (verifier_ctx "HS256" "s3cr3t" (Some "Bearer  x")) fresh))
     = 401)
  ∧ (has_space "Bearer" = false
     ∧ payload (snd (authenticateTokenController scenario_host
                       (bare_ctx (Some "Bearer")) fresh)) = ∅
     ∧ status (snd (authenticateTokenController scenario_host
                      (bare_ctx (Some "Bearer")) fresh)) ≠ 401).
Proof. repeat split. by vm_compute. Qed.

(** ** Token Signer *)

(** Key resolution always completes normally, and touches nothing but the
    trace of library calls. *)
Lemma fetchSecretORprivateKey_total (host : Host) (algorithm key : value)
    (s : State) :
  ∃ secret effective calls,
    fetchSecretORprivateKey host algorithm key s
    = (Normal (secret, effective),
       mk_State (payload s) (status s) (next_calls s) (moduleConfigs s)
                (error_log s) (trace s ++ calls)).
Proof.
  unfold fetchSecretORprivateKey, fse_exists, fse_stat, fse_readFile.
  destruct (is_str algorithm "HS256" || is_str algorithm "HS384").
  - exists (KValue key), algorithm, []. rewrite app_nil_r. by destruct s.
  - step_monad.
    destruct (fs_lookup host key) as [[content |] |] eqn:Hnode; simpl;
      rewrite ?Hnode; simpl; rewrite <- ?app_assoc; simpl; eauto.
Qed.

(** A run of the signer on defined [inputs]: key resolution, one call to
    [JWT.sign], then either the write and [next()] or the library's
    exception. *)
Lemma signJWT_run (host : Host) (ctx : EcoContext) (s : State) :
  is_Some (inputs ctx) →
  let key := to_string (get_prop (inputs_value ctx) "responseKey") in
  let expiresIn := get_prop (inputs_value ctx) "expiresIn" in
  let secretORprivateKey := get_prop (inputs_value ctx) "secretORprivateKey" in
  let keyRef :=
    if truthy (get_prop (inputs_value ctx) "secretORprivateKeyFromEnvironment")
    then js_or (env_get host secretORprivateKey) (VString "")
    else secretORprivateKey in
  let claims :=
    js_or (default VUndefined
             (payload s !! to_string (get_prop (inputs_value ctx) "payloadKey")))
          (VObject []) in
  ∃ secret algorithm calls,
    fst (fetchSecretORprivateKey host (get_prop (inputs_value ctx) "algorithm")
           keyRef s)
    = Normal (secret, algorithm)
    ∧ let result := jwt_sign host claims secret expiresIn algorithm in
      let calls' :=
        (trace s ++ calls
         ++ [JwtSign claims secret expiresIn algorithm result])%list in
      signJWTController host ctx s
      = match result with
        | Normal token =>
            (Normal tt,
             mk_State (<[key := VString token]> (payload s)) (status s)
                      (S (next_calls s)) (moduleConfigs s) (error_log s) calls')
        | Throw e =>
            (Throw e,
             mk_State (payload s) (status s) (next_calls s) (moduleConfigs s)
                      (error_log s) calls')
        end.
Proof.
  intros [props Hin] key expiresIn secretORprivateKey keyRef claims.
  subst key expiresIn secretORprivateKey keyRef claims.
  unfold signJWTController, inputs_value. rewrite Hin. simpl.
  unfold bind at 1. unfold payload_get at 1.
  set (claims := js_or (default _ _) _).
  set (keyRef := if truthy _ then _ else _).
  unfold bind at 1.
  destruct (fetchSecretORprivateKey_total host (assoc_get "algorithm" props)
              keyRef s) as (secret & effective & calls & Hkey).
  rewrite Hkey.
  unfold sign. step_monad.
  exists secret, effective, calls. split; [reflexivity |].
  destruct (jwt_sign host claims secret _ effective);
    by rewrite <- app_assoc.
Qed.

(** C5 (amended). When [inputs] is defined, the signer resolves the key with
    [fetchSecretORprivateKey] and calls [JWT.sign] once, on
    [payload[payloadKey] || {}].  If the call returns a token, the token is
    written into [payload[responseKey]] and [next()] is called exactly once.
    The signer has no error branch of its own: if the call throws, the
    exception reaches the caller with nothing written and [next()] not
    called. *)
Theorem signJWT_writes_token (host : Host) (ctx : EcoContext) (s : State) :
  is_Some (inputs ctx) →
  let key := to_string (get_prop (inputs_value ctx) "responseKey") in
  let expiresIn := get_prop (inputs_value ctx) "expiresIn" in
  let secretORprivateKey := get_prop (inputs_value ctx) "secretORprivateKey" in
  let keyRef :=
    if truthy (get_prop (inputs_value ctx) "secretORprivateKeyFromEnvironment")
    then js_or (env_get host secretORprivateKey) (VString "")
    else secretORprivateKey in
  let claims :=
    js_or (default VUndefined
             (payload s !! to_string (get_prop (inputs_value ctx) "payloadKey")))
          (VObject []) in
  let run := signJWTController host ctx s in
  ∃ secret algorithm,
    fst (fetchSecretORprivateKey host (get_prop (inputs_value ctx) "algorithm")
           keyRef s)
    = Normal (secret, algorithm)
    ∧ match jwt_sign host claims secret expiresIn algorithm with
      | Normal token =>
          fst run = Normal tt
          ∧ payload (snd run) = <[key := VString token]> (payload s)
          ∧ next_calls (snd run) = S (next_calls s)
          ∧ status (snd run) = status s
      | Throw e =>
          fst run = Throw e
          ∧ payload (snd run) = payload s
          ∧ next_calls (snd run) = next_calls s
          ∧ status (snd run) = status s
      end.
Proof.
  intros Hin key expiresIn secretORprivateKey keyRef claims run.
  destruct (signJWT_run host ctx s Hin)
    as (secret & algorithm & calls & Hkey & Hrun).
  cbv zeta in Hrun.
  fold key expiresIn claims run in Hrun. clearbody run. subst run.
  exists secret, algorithm. split; [exact Hkey |].
  by destruct (jwt_sign host claims secret expiresIn algorithm) as [token | e].
Qed.

Lemma signJWT_writes_token_witness :
  is_Some (inputs (signer_ctx "HS256" "s3cr3t"))
  ∧ payload (snd (signJWTController scenario_host (signer_ctx "HS256" "s3cr3t")
                    (mk_State {[ "claims" := VObject [("sub", VString "u1")] ]}
                       200 0 None [] []))) !! "token"
    = Some (VString "HS256.u1.s3cr3t")
  ∧ next_calls (snd (signJWTController scenario_host (signer_ctx "HS256" "s3cr3t")
                       (mk_State {[ "claims" := VObject [("sub", VString "u1")] ]}
                          200 0 None [] []))) = 1%nat.
Proof.
  assert (Hin : is_Some (inputs (signer_ctx "HS256" "s3cr3t")))
    by (simpl; eauto).
  split; [exact Hin |].
  destruct (signJWT_writes_token scenario_host (signer_ctx "HS256" "s3cr3t")
              (mk_State {[ "claims" := VObject [("sub", VString "u1")] ]}
                 200 0 None [] []) Hin)
    as (secret & algorithm & Hkey & Hresult).
  vm_compute in Hkey. injection Hkey as <- <-.
  destruct Hresult as (_ & -> & -> & _).
  split; [| reflexivity]. by vm_compute.
Defined.

(** C5 as stated fails when [inputs] is undefined: the signer returns at
    once, writes no token and does not call [next()]. *)
Lemma signJWT_writes_token_counterexample :
  payload (snd (signJWTController scenario_host (bare_ctx None) fresh)) = ∅
  ∧ next_calls (snd (signJWTController scenario_host (bare_ctx None) fresh))
    = 0%nat
  ∧ trace (snd (signJWTController scenario_host (bare_ctx None) fresh)) = [].
Proof. repeat split. Qed.

(** ** JWKS Publisher *)

(** C8. Once [inputs] is defined the publisher resolves the public-key path
    ([publicKey] itself, or [process.env[publicKey]] when
    [fromEnvironmentVariable] is set).  Whenever nothing exists at the
    resolved path, it writes "key not found" into [payload[responseKey]],
    sets the status to 404 and returns without calling [next()]; its only
    file-system call is the existence check. *)
Theorem jwtJWKS_key_not_found (host : Host) (ctx : EcoContext) (s : State) :
  let key := to_string (get_prop (inputs_value ctx) "responseKey") in
  let publicKey := get_prop (inputs_value ctx) "publicKey" in
  let secretPath :=
    if truthy (get_prop (inputs_value ctx) "fromEnvironmentVariable")
    then env_get host publicKey else publicKey in
  is_Some (inputs ctx) →
  fs_lookup host secretPath = None →
  jwtJWKSController host ctx s
  = (Normal tt,
     mk_State (<[key := VString "key not found"]> (payload s)) 404
              (next_calls s) (moduleConfigs s) (error_log s)
              (trace s ++ [FsExists secretPath])).
Proof.
  intros key publicKey secretPath [props Hin] Hnone.
  subst key publicKey secretPath.
  unfold jwtJWKSController, inputs_value in *. rewrite Hin in *. simpl in *.
  unfold try_catch, fse_exists. step_monad.
  by rewrite Hnone.
Qed.

Lemma jwtJWKS_key_not_found_witness :
  is_Some (inputs (jwks_ctx "/keys/missing.pem"))
  ∧ fs_lookup scenario_host (VString "/keys/missing.pem") = None
  ∧ jwtJWKSController scenario_host (jwks_ctx "/keys/missing.pem") fresh
    = (Normal tt,
       mk_State {[ "jwks" := VString "key not found" ]} 404 0 None []
                [FsExists (VString "/keys/missing.pem")]).
Proof.
  assert (Hin : is_Some (inputs (jwks_ctx "/keys/missing.pem")))
    by (simpl; eauto).
  assert (Hnone : fs_lookup scenario_host (VString "/keys/missing.pem") = None)
    by (by vm_compute).
  split; [exact Hin |]. split; [exact Hnone |].
  exact (jwtJWKS_key_not_found scenario_host (jwks_ctx "/keys/missing.pem")
           fresh Hin Hnone).
Defined.

(** Without [inputs] no path is resolved: the publisher returns at once. *)
Lemma jwtJWKS_undefined_inputs (host : Host) (ctx : EcoContext) (s : State) :
  inputs ctx = None → jwtJWKSController host ctx s = (Normal tt, s).
Proof.
  intros Hin. unfold jwtJWKSController, inputs_value. by rewrite Hin.
Qed.

(** A path that names a directory exists, so the existence check passes;
    reading it fails and the publisher answers "error occurred" with status
    500 instead. *)
Lemma jwtJWKS_directory (host : Host) (ctx : EcoContext) (s : State) :
  let key := to_string (get_prop (inputs_value ctx) "responseKey") in
  let publicKey := get_prop (inputs_value ctx) "publicKey" in
  let secretPath :=
    if truthy (get_prop (inputs_value ctx) "fromEnvironmentVariable")
    then env_get host publicKey else publicKey in
  is_Some (inputs ctx) →
  fs_lookup host secretPath = Some FsDir →
  payload (snd (jwtJWKSController host ctx s)) !! key
  = Some (VString "error occurred")
  ∧ status (snd (jwtJWKSController host ctx s)) = 500
  ∧ next_calls (snd (jwtJWKSController host ctx s)) = next_calls s.
Proof.
  intros key publicKey secretPath [props Hin] Hdir.
  subst key publicKey secretPath.
  unfold jwtJWKSController, inputs_value in *. rewrite Hin in *. simpl in *.
  unfold try_catch, fse_exists, fse_readFile. step_monad.
  rewrite Hdir. simpl. by rewrite lookup_insert_eq.
Qed.

(** ** OAuth flow controllers *)

Lemma falsy_not_element (v : value) :
  truthy v = false → lodash.isElement v = false.
Proof. by destruct v. Qed.

(** C7.  The claim holds of the status code and of the halt, but not of the
    flags: whenever the resolved client id is missing or empty, the auth-URL
    builder writes the error payload with [statusCode] 400 and returns
    without calling [next()], yet the [missing.clientId] flag it reports is
    [false], because the flag is computed with [_.isElement] and a missing or
    empty value is never a DOM element. *)
Theorem generateGoogleAuthUrl_clientId_flag
    (host : Host) (ctx : EcoContext) (s : State) :
  let clientId := get_prop (inputs_value ctx) "clientId" in
  let oAuthClientID :=
    if truthy (get_prop (inputs_value ctx) "clientIdFromEnv")
    then env_get host clientId else clientId in
  is_Some (inputs ctx) →
  truthy oAuthClientID = false →
  ∃ secretFlag redirectFlag,
    generateGoogleAuthUrl host ctx s
    = (Normal tt,
       mk_State
         (<["msg" :=
              VObject
                [("error", VBool true);
                 ("message",
                  VString "Missing required Google OAuth client credentials");
                 ("statusCode", VNumber 400);
                 ("missing",
                  VObject [("clientId", VBool false);
                           ("clientSecret", VBool secretFlag);
                           ("redirectUri", VBool redirectFlag)])]]>
            (payload s))
         (status s) (next_calls s) (moduleConfigs s) (error_log s) (trace s)).
Proof.
  intros clientId oAuthClientID [props Hin] Hfalsy.
  subst clientId oAuthClientID.
  unfold generateGoogleAuthUrl, inputs_value in *. rewrite Hin in *.
  simpl in *. rewrite Hfalsy, (falsy_not_element _ Hfalsy). simpl.
  eexists _, _. reflexivity.
Qed.

Lemma generateGoogleAuthUrl_clientId_flag_witness :
  is_Some (inputs authurl_ctx_without_clientId)
  ∧ get_prop (inputs_value authurl_ctx_without_clientId) "clientId" = VUndefined
  ∧ ∃ secretFlag redirectFlag,
      generateGoogleAuthUrl scenario_host authurl_ctx_without_clientId fresh
      = (Normal tt,
         mk_State
           {[ "msg" :=
                VObject
                  [("error", VBool true);
                   ("message",
                    VString "Missing required Google OAuth client credentials");
                   ("statusCode", VNumber 400);
                   ("missing",
                    VObject [("clientId", VBool false);
                             ("clientSecret", VBool secretFlag);
                             ("redirectUri", VBool redirectFlag)])] ]}
           200 0 None [] []).
Proof.
  assert (Hin : is_Some (inputs authurl_ctx_without_clientId))
    by (simpl; eauto).
  split; [exact Hin |]. split; [reflexivity |].
  exact (generateGoogleAuthUrl_clientId_flag scenario_host
           authurl_ctx_without_clientId fresh Hin eq_refl).
Defined.

(** On that request all three flags come out [false], although the client id
    is absent. *)
Example generateGoogleAuthUrl_without_clientId :
  generateGoogleAuthUrl scenario_host authurl_ctx_without_clientId fresh
  = (Normal tt,
     mk_State
       {[ "msg" :=
            VObject
              [("error", VBool true);
               ("message",
                VString "Missing required Google OAuth client credentials");
               ("statusCode", VNumber 400);
               ("missing",
                VObject [("clientId", VBool false);
                         ("clientSecret", VBool false);
                         ("redirectUri", VBool false)])] ]}
       200 0 None [] []).
Proof. reflexivity. Qed.

Lemma assoc_get_set (k : string) (v : value) (props : list (string * value)) :
  assoc_get k (assoc_set k v props) = v.
Proof.
  induction props as [| [k' v'] rest IH]; simpl.
  - by rewrite String.eqb_refl.
  - destruct (String.eqb k k') eqn:Hk; simpl.
    + by rewrite String.eqb_refl.
    + by rewrite Hk.
Qed.

(** Assigning credentials to a registered client and reading them back. *)
Lemma client_assign_credentials_stored (name : string) (creds : value)
    (s : State) (manager : gmap string value) (config : value)
    (class : string) (fields : list (string * value)) :
  moduleConfigs s = Some manager →
  manager !! name = Some config →
  get_prop config "configs" = VInstance class fields →
  ∃ config',
    client_assign_credentials name creds s
    = (Normal tt,
       mk_State (payload s) (status s) (next_calls s)
                (Some (<[name := config']> manager)) (error_log s) (trace s))
    ∧ get_prop config' "configs"
      = VInstance class (assoc_set "credentials" creds fields).
Proof.
  intros Hmanager Hconfig Hclient.
  unfold client_assign_credentials. rewrite Hmanager, Hconfig, Hclient.
  eexists. split; [reflexivity |].
  destruct config; try discriminate; simpl; by rewrite assoc_get_set.
Qed.

Lemma member_cases (o : value) (k : string) (s : State) :
  (∃ e, member o k s = (Throw e, s))
  ∨ member o k s = (Normal (get_prop o k), s).
Proof. destruct o; simpl; eauto. Qed.

(** The run of [getUserDetails] on a registered client: the refresh token is
    stored on the shared client, [getAccessToken] leaves [remaining] there,
    and then either everything succeeds, the credentials are cleared and
    [next()] is called, or something throws and the failure is reported with
    [remaining] still on the client. *)
Lemma getUserDetails_run
    (host : Host) (ctx : EcoContext) (s : State)
    (props : list (string * value)) (name : string)
    (manager : gmap string value) (config : value)
    (fields : list (string * value))
    (outcome : completion value) (remaining : value) :
  let userRefreshToken :=
    if truthy (get_prop (inputs_value ctx) "passByQuery")
    then (if truthy (get_prop (inputs_value ctx) "queryKey")
          then query_get ctx (get_prop (inputs_value ctx) "queryKey")
          else query_get ctx (VString "token"))
    else get_prop (inputs_value ctx) "refreshToken" in
  inputs ctx = Some props →
  assoc_get "client" props = VString name →
  name ≠ "" →
  moduleConfigs s = Some manager →
  manager !! name = Some config →
  get_prop config "configs" = VInstance "OAuth2Client" fields →
  fields ≠ [] →
  oauth_getAccessToken host (VObject [("refresh_token", userRefreshToken)])
  = (outcome, remaining) →
  ∃ config' message calls,
    getUserDetails host ctx s
    = (Normal tt,
       mk_State (<["msg" := message]> (payload s)) (status s) calls
                (Some (<[name := config']> manager)) (error_log s) (trace s))
    ∧ ((calls = S (next_calls s)
        ∧ get_prop (get_prop config' "configs") "credentials" = VObject []
        ∧ ∃ user, message = VObject [("success", VBool true); ("user", user)])
       ∨ (calls = next_calls s
          ∧ get_prop (get_prop config' "configs") "credentials" = remaining
          ∧ ∃ e, message
                 = VObject [("error", VBool true);
                            ("message", VString "Failed to get user details.");
                            ("rawError", e)])).
Proof.
  intros token Hin Hclient Hname Hmanager Hconfig Hoauth Hfields Hlib.
  subst token.
  unfold getUserDetails, inputs_value in *. rewrite Hin in *.
  destruct props as [| prop props']; [discriminate |].
  cbn [truthy lodash.isEmpty negb orb get_prop] in *.
  rewrite Hclient. cbn [truthy lodash.isEmpty to_string].
  apply String.eqb_neq in Hname. rewrite Hname. cbn [negb orb].
  unfold bind at 1. unfold selectPackage at 1. cbv beta iota.
  rewrite Hmanager.
  cbn [config_get]. rewrite Hconfig. cbn [from_option id].
  assert (Hlive : lodash.isNull config || lodash.isEmpty config = false).
  { destruct config as [| | | | | | [|] | ? [|]]; try discriminate; reflexivity. }
  rewrite Hlive, Hoauth.
  assert (Hclass : lodash.isNull (VInstance "OAuth2Client" fields)
                   || lodash.isEmpty (VInstance "OAuth2Client" fields) = false)
    by (by destruct fields).
  rewrite Hclass.
  unfold try_catch, client_setCredentials.
  change (is_oauth_client (VInstance "OAuth2Client" fields)) with true.
  cbv iota.
  set (creds := VObject [("refresh_token", _)]) in *.
  destruct (client_assign_credentials_stored name creds s manager config _
              fields Hmanager Hconfig Hoauth) as (config1 & Hset & Hconfigs1).
  unfold bind at 1. rewrite Hset.
  unfold bind at 1. unfold client_getAccessToken at 1.
  unfold stored_credentials, stored_client. cbn [moduleConfigs].
  rewrite lookup_insert_eq. cbn [from_option id].
  rewrite Hconfigs1. cbn [get_prop]. rewrite assoc_get_set, Hlib.
  match goal with
  | |- context [client_assign_credentials name remaining ?s1] =>
      destruct (client_assign_credentials_stored name remaining s1
                  (<[name := config1]> manager) config1 _ _
                  eq_refl (lookup_insert_eq _ _ _) Hconfigs1)
        as (config2 & Hset2 & Hconfigs2);
      rewrite Hset2
  end.
  cbn [payload status next_calls moduleConfigs error_log trace].
  rewrite insert_insert_eq.
  assert (Hleft : get_prop (get_prop config2 "configs") "credentials" = remaining)
    by (rewrite Hconfigs2; apply assoc_get_set).
  set (s2 := mk_State _ _ _ (Some (<[name := config2]> manager)) _ _).
  destruct outcome as [access_token | e].
  2: { exists config2, (VObject [("error", VBool true);
                                 ("message", VString "Failed to get user details.");
                                 ("rawError", e)]), (next_calls s).
       split; [reflexivity |]. right. eauto. }
  unfold bind at 1.
  destruct (member_cases access_token "token" s2) as [[e ->] | ->].
  { eexists config2, _, (next_calls s). split; [reflexivity |]. right. eauto. }
  destruct (lodash.isUndefined (get_prop access_token "token")
            || lodash.isNull (get_prop access_token "token")).
  { eexists config2, _, (next_calls s). split; [reflexivity |]. right. eauto. }
  unfold bind at 1. unfold lift at 1.
  destruct (axios_get host _) as [response | e].
  2: { eexists config2, _, (next_calls s). split; [reflexivity |]. right. eauto. }
  unfold bind at 1.
  destruct (member_cases response "data" s2) as [[e ->] | ->].
  { eexists config2, _, (next_calls s). split; [reflexivity |]. right. eauto. }
  unfold bind at 1. unfold payload_set at 1. subst s2.
  cbn [payload status next_calls moduleConfigs error_log trace to_string].
  unfold bind at 1.
  match goal with
  | |- context [client_assign_credentials name (VObject []) ?s3] =>
      destruct (client_assign_credentials_stored name (VObject []) s3
                  (<[name := config2]> manager) config2 _ _
                  eq_refl (lookup_insert_eq _ _ _) Hconfigs2)
        as (config3 & Hset3 & Hconfigs3);
      rewrite Hset3
  end.
  cbn [payload status next_calls moduleConfigs error_log trace next].
  rewrite insert_insert_eq.
  eexists config3, _, (S (next_calls s)). split; [reflexivity |]. left.
  split; [reflexivity |]. split; [| eauto].
  rewrite Hconfigs3. apply assoc_get_set.
Qed.

(** C6.  The claim fails on the error path.  Take a registered
    [OAuth2Client] on which [getUserDetails] sets the refresh token, and let
    [remaining] be the credentials [getAccessToken] leaves on it.  Whenever
    the run ends without calling [next()] (because [getAccessToken] or the
    user-info request threw), the failure is reported in [payload.msg] and
    [remaining] is still stored on the shared client: the assignment
    [OAuthClient.credentials = {}] is only reached on the success path. *)
Theorem getUserDetails_failure_keeps_credentials
    (host : Host) (ctx : EcoContext) (s : State)
    (props : list (string * value)) (name : string)
    (manager : gmap string value) (config : value)
    (fields : list (string * value))
    (outcome : completion value) (remaining : value) :
  let userRefreshToken :=
    if truthy (get_prop (inputs_value ctx) "passByQuery")
    then (if truthy (get_prop (inputs_value ctx) "queryKey")
          then query_get ctx (get_prop (inputs_value ctx) "queryKey")
          else query_get ctx (VString "token"))
    else get_prop (inputs_value ctx) "refreshToken" in
  inputs ctx = Some props →
  assoc_get "client" props = VString name →
  name ≠ "" →
  moduleConfigs s = Some manager →
  manager !! name = Some config →
  get_prop config "configs" = VInstance "OAuth2Client" fields →
  fields ≠ [] →
  oauth_getAccessToken host (VObject [("refresh_token", userRefreshToken)])
  = (outcome, remaining) →
  next_calls (snd (getUserDetails host ctx s)) = next_calls s →
  stored_credentials (snd (getUserDetails host ctx s)) name = remaining
  ∧ ∃ e, payload (snd (getUserDetails host ctx s)) !! "msg"
         = Some (VObject [("error", VBool true);
                          ("message", VString "Failed to get user details.");
                          ("rawError", e)]).
Proof.
  intros token Hin Hclient Hname Hmanager Hconfig Hoauth Hfields Hlib.
  destruct (getUserDetails_run host ctx s props name manager config fields
              outcome remaining Hin Hclient Hname Hmanager Hconfig Hoauth
              Hfields Hlib) as (config' & message & calls & -> & Hend).
  cbn [snd next_calls payload]. intros Hcalls.
  destruct Hend as [(Hnext & _) | (_ & Hleft & e & ->)]; [lia |].
  unfold stored_credentials, stored_client. cbn [moduleConfigs].
  rewrite !lookup_insert_eq. cbn [from_option id]. eauto.
Qed.

Lemma getUserDetails_failure_keeps_credentials_witness :
  stored_credentials
    (snd (getUserDetails scenario_host (userdetails_ctx "refresh-revoked")
            registered)) "google"
  = VObject [("refresh_token", VString "refresh-revoked")]
  ∧ ∃ e, payload (snd (getUserDetails scenario_host
                         (userdetails_ctx "refresh-revoked") registered))
         !! "msg"
         = Some (VObject [("error", VBool true);
                          ("message", VString "Failed to get user details.");
                          ("rawError", e)]).
Proof.
  apply (getUserDetails_failure_keeps_credentials scenario_host
           (userdetails_ctx "refresh-revoked") registered
           [("client", VString "google");
            ("refreshToken", VString "refresh-revoked")]
           "google" google_configs
           (VObject [("label", VString "Google");
                     ("configs",
                      VInstance "OAuth2Client"
                        [("_clientId", VString "id-1");
                         ("credentials", VObject [])])])
           [("_clientId", VString "id-1"); ("credentials", VObject [])]
           (Throw (error_obj "GaxiosError" "invalid_grant"))).
  - reflexivity.
  - reflexivity.
  - discriminate.
  - reflexivity.
  - by vm_compute.
  - reflexivity.
  - discriminate.
  - reflexivity.
  - by vm_compute.
Defined.

(** A refresh token refused by [getAccessToken] stays on the shared client
    after the controller has returned. *)
Example getUserDetails_revoked_token :
  getUserDetails scenario_host (userdetails_ctx "refresh-revoked") registered
  = (Normal tt,
     mk_State
       {[ "msg" :=
            VObject [("error", VBool true);
                     ("message", VString "Failed to get user details.");
                     ("rawError", error_obj "GaxiosError" "invalid_grant")] ]}
       200 0
       (Some {[ "google" :=
                  VObject [("label", VString "Google");
                           ("configs",
                            VInstance "OAuth2Client"
                              [("_clientId", VString "id-1");
                               ("credentials",
                                VObject [("refresh_token",
                                          VString "refresh-revoked")])])] ]})
       [] []).
Proof. by vm_compute. Qed.

(** When the user-info request itself fails, both the refresh token and the
    freshly obtained access token stay on the shared client. *)
Example getUserDetails_userinfo_refused :
  stored_credentials
    (snd (getUserDetails scenario_host (userdetails_ctx "refresh-limited")
            registered)) "google"
  = VObject [("refresh_token", VString "refresh-limited");
             ("access_token", VString "access-limited")]
  ∧ next_calls (snd (getUserDetails scenario_host
                       (userdetails_ctx "refresh-limited") registered))
    = 0%nat.
Proof. by vm_compute. Qed.

(** On the success path the credentials are cleared before [next()]. *)
Example getUserDetails_success_clears_credentials :
  stored_credentials
    (snd (getUserDetails scenario_host (userdetails_ctx "refresh-ok")
            registered)) "google"
  = VObject []
  ∧ next_calls (snd (getUserDetails scenario_host (userdetails_ctx "refresh-ok")
                       registered)) = 1%nat
  ∧ payload (snd (getUserDetails scenario_host (userdetails_ctx "refresh-ok")
                    registered)) !! "msg"
    = Some (VObject [("success", VBool true);
                     ("user", VObject [("email", VString "u1@example.com")])]).
Proof. by vm_compute. Qed.

(** * Further properties of the controllers *)

(** ** Key Resolver: the file and the fallback *)

(** X1. For an algorithm other than HS256 and HS384, a key reference that
    names a regular file resolves to the bytes of that file, as a [Buffer],
    with the algorithm unchanged; the resolver checks existence, stats the
    path and reads it, in that order, and changes nothing else. *)
Theorem fetchSecretORprivateKey_reads_key_file
    (host : Host) (algorithm : value) (path content : string) (s : State) :
  is_str algorithm "HS256" || is_str algorithm "HS384" = false →
  fs host !! path = Some (FsFile content) →
  fetchSecretORprivateKey host algorithm (VString path) s
  = (Normal (KBuffer content, algorithm),
     mk_State (payload s) (status s) (next_calls s) (moduleConfigs s)
              (error_log s)
              (trace s ++ [FsExists (VString path); FsStat (VString path);
                           FsReadFile (VString path)])).
Proof.
  intros Halg Hfile.
  unfold fetchSecretORprivateKey, fse_exists, fse_stat, fse_readFile.
  rewrite Halg. step_monad. rewrite Hfile. simpl.
  by rewrite <- !app_assoc.
Qed.

Lemma fetchSecretORprivateKey_reads_key_file_witness :
  fetchSecretORprivateKey scenario_host (VString "RS256")
    (VString "/keys/private.pem") fresh
  = (Normal (KBuffer "PRIVATE KEY", VString "RS256"),
     mk_State ∅ 200 0 None []
              [FsExists (VString "/keys/private.pem");
               FsStat (VString "/keys/private.pem");
               FsReadFile (VString "/keys/private.pem")]).
Proof.
  apply (fetchSecretORprivateKey_reads_key_file scenario_host (VString "RS256")
           "/keys/private.pem" "PRIVATE KEY" fresh).
  - reflexivity.
  - by vm_compute.
Defined.

Lemma fallback_choice (algorithm : value) :
  (if is_str algorithm "RS256" then VString "HS256"
   else if is_str algorithm "RS384" then VString "HS384" else VString "HS256")
  = VString (if is_str algorithm "RS384" then "HS384" else "HS256").
Proof.
  destruct algorithm as [| | | | a | | |]; try reflexivity. simpl.
  destruct (String.eqb a "RS256") eqn:Ha; [| by destruct (String.eqb a "RS384")].
  by apply String.eqb_eq in Ha as ->.
Qed.

(** The resolver's fallback: without a regular file at the key reference,
    every algorithm other than HS256 and HS384 gets the salt, with HS384 for
    RS384 and HS256 for anything else. *)
Lemma resolver_fallback_run (host : Host) (algorithm key : value) (s : State) :
  is_str algorithm "HS256" || is_str algorithm "HS384" = false →
  (∀ content, fs_lookup host key ≠ Some (FsFile content)) →
  fst (fetchSecretORprivateKey host algorithm key s)
  = Normal (KValue (env_get host (VString "ECOFLOW_SYS_TOKEN_SALT")),
            VString (if is_str algorithm "RS384" then "HS384" else "HS256")).
Proof.
  intros Halg Hnofile.
  unfold fetchSecretORprivateKey, fse_exists, fse_stat, fse_readFile.
  rewrite Halg. step_monad.
  destruct (fs_lookup host key) as [[content |] |] eqn:Hnode; simpl.
  - by destruct (Hnofile content).
  - by rewrite fallback_choice.
  - by rewrite fallback_choice.
Qed.

(** X2. An algorithm that is none of HS256, HS384, RS256 and RS384 (a
    misspelt name, or no string at all) is treated like RS256: when the key
    reference names no regular file, the resolver answers with the salt and
    HS256. *)
Theorem fetchSecretORprivateKey_unknown_algorithm
    (host : Host) (algorithm key : value) (s : State) :
  (∀ known, In known ["HS256"; "HS384"; "RS256"; "RS384"] →
            algorithm ≠ VString known) →
  (∀ content, fs_lookup host key ≠ Some (FsFile content)) →
  fst (fetchSecretORprivateKey host algorithm key s)
  = Normal (KValue (env_get host (VString "ECOFLOW_SYS_TOKEN_SALT")),
            VString "HS256").
Proof.
  intros Hunknown Hnofile.
  assert (Hnot : ∀ known, In known ["HS256"; "HS384"; "RS256"; "RS384"] →
                          is_str algorithm known = false).
  { intros known Hin. destruct algorithm; try reflexivity. simpl.
    apply String.eqb_neq. intros ->. by apply (Hunknown known Hin). }
  rewrite resolver_fallback_run; [| | assumption].
  - rewrite (Hnot "RS384"); [reflexivity | simpl; auto].
  - rewrite (Hnot "HS256"), (Hnot "HS384"); [reflexivity | simpl; auto ..].
Qed.

Lemma fetchSecretORprivateKey_unknown_algorithm_witness :
  fst (fetchSecretORprivateKey scenario_host (VString "ES256")
         (VString "/keys/missing.pem") fresh)
  = Normal (KValue (VString "pepper"), VString "HS256").
Proof.
  apply (fetchSecretORprivateKey_unknown_algorithm scenario_host
           (VString "ES256") (VString "/keys/missing.pem") fresh).
  - intros known [<- | [<- | [<- | [<- | []]]]]; discriminate.
  - intros content. vm_compute. discriminate.
Defined.

(** ** Token Verifier and Token Signer together *)

(** The verifier's run once the header carries a non-empty second segment:
    one call to [JWT.verify] on that segment, with the configured secret and
    the single configured algorithm, and the library's verdict. *)
Lemma authenticateToken_verify_run
    (host : Host) (ctx : EcoContext) (s : State) (header token : string) :
  let key := to_string (get_prop (inputs_value ctx) "responseKey") in
  let algorithm := get_prop (inputs_value ctx) "algorithm" in
  let secretORpublicKey := get_prop (inputs_value ctx) "secretORpublicKey" in
  let reference :=
    if truthy (get_prop (inputs_value ctx) "fromEnvironmentVariable")
    then env_get host secretORpublicKey else secretORpublicKey in
  let secret :=
    if is_str (get_prop (inputs_value ctx) "secretORprivateKeySelector") "secret"
    then SecretValue reference else fetchJWKPublicKey host reference in
  is_Some (inputs ctx) →
  authorization (request ctx) = Some header →
  nth_error (split " " header) 1 = Some token →
  token ≠ "" →
  authenticateTokenController host ctx s
  = match jwt_verify host token secret [algorithm] with
    | VerifyError name message =>
        (Normal tt,
         mk_State (<[key := VString message]> (payload s)) 401 (next_calls s)
                  (moduleConfigs s) (error_log s)
                  (trace s ++ [JwtVerify token secret [algorithm]
                                 (VerifyError name message)]))
    | Verified decoded =>
        (Normal tt,
         mk_State (<[key := decoded]> (payload s)) (status s)
                  (S (next_calls s)) (moduleConfigs s) (error_log s)
                  (trace s ++ [JwtVerify token secret [algorithm]
                                 (Verified decoded)]))
    end.
Proof.
  intros key algorithm secretORpublicKey reference secret [props Hin] Hauth
    Hseg Htok.
  subst key algorithm secretORpublicKey reference secret.
  unfold authenticateTokenController, inputs_value, header_authorization.
  rewrite Hin, Hauth. simpl.
  assert (Hne : String.eqb header "" = false).
  { apply String.eqb_neq. intros ->. discriminate Hseg. }
  rewrite Hne. unfold str_split, index. step_monad. rewrite Hseg. simpl.
  apply String.eqb_neq in Htok. rewrite Htok. simpl.
  unfold await_verify. step_monad.
  by destruct (jwt_verify host token _ _).
Qed.

Lemma header_second_segment (scheme token : string) :
  has_space scheme = false → has_space token = false →
  nth_error (split " " (scheme ++ " " ++ token)) 1 = Some token.
Proof.
  intros Hscheme Htoken.
  by rewrite (split_scheme scheme token Hscheme), (split_no_space token Htoken).
Qed.

(** X3. Signing and verifying compose.  Take a signer and a verifier step
    configured with the same symmetric algorithm and the same literal secret.
    If [JWT.sign] returns a token for the signer's call and [JWT.verify]
    accepts that token under that secret and algorithm, then the signer
    writes the token, and the verifier, given the header
    [<scheme> <token>], writes the decoded claims: both steps call [next()]
    and the status is never touched. *)
Theorem sign_then_verify
    (host : Host) (signer verifier : EcoContext) (s : State)
    (ps pv : list (string * value)) (alg scheme token : string)
    (secret decoded : value) :
  inputs signer = Some ps →
  inputs verifier = Some pv →
  alg = "HS256" ∨ alg = "HS384" →
  assoc_get "algorithm" ps = VString alg →
  assoc_get "algorithm" pv = VString alg →
  truthy (assoc_get "secretORprivateKeyFromEnvironment" ps) = false →
  assoc_get "secretORprivateKey" ps = secret →
  assoc_get "secretORprivateKeySelector" pv = VString "secret" →
  truthy (assoc_get "fromEnvironmentVariable" pv) = false →
  assoc_get "secretORpublicKey" pv = secret →
  jwt_sign host
    (js_or (default VUndefined
              (payload s !! to_string (assoc_get "payloadKey" ps)))
           (VObject []))
    (KValue secret) (assoc_get "expiresIn" ps) (VString alg)
  = Normal token →
  jwt_verify host token (SecretValue secret) [VString alg] = Verified decoded →
  has_space scheme = false → has_space token = false → token ≠ "" →
  authorization (request verifier) = Some (scheme ++ " " ++ token) →
  let s1 := snd (signJWTController host signer s) in
  let s2 := snd (authenticateTokenController host verifier s1) in
  payload s1 !! to_string (assoc_get "responseKey" ps) = Some (VString token)
  ∧ payload s2 !! to_string (assoc_get "responseKey" pv) = Some decoded
  ∧ next_calls s2 = S (S (next_calls s))
  ∧ status s2 = status s.
Proof.
  intros Hps Hpv Halg Hsa Hva Hsenv Hskey Hvsel Hvenv Hvkey Hsign Hverify
    Hscheme Htoken Hne Hheader s1 s2.
  assert (Hs1 : signJWTController host signer s
                = (Normal tt,
                   mk_State (<[to_string (assoc_get "responseKey" ps)
                               := VString token]> (payload s))
                            (status s) (S (next_calls s)) (moduleConfigs s)
                            (error_log s)
                            (trace s ++ [JwtSign
                                           (js_or (default VUndefined
                                                     (payload s !! to_string (assoc_get "payloadKey" ps)))
                                                  (VObject []))
                                           (KValue secret)
                                           (assoc_get "expiresIn" ps)
                                           (VString alg) (Normal token)]))).
  { unfold signJWTController, inputs_value. rewrite Hps. simpl.
    rewrite Hsa, Hsenv, Hskey. unfold fetchSecretORprivateKey.
    assert (Hsym : is_str (VString alg) "HS256" || is_str (VString alg) "HS384"
                   = true) by (by destruct Halg as [-> | ->]).
    rewrite Hsym. unfold sign. step_monad. by rewrite Hsign. }
  subst s2 s1. rewrite Hs1. cbn [snd].
  rewrite (authenticateToken_verify_run host verifier _ _ token
             (ex_intro _ pv Hpv) Hheader
             (header_second_segment scheme token Hscheme Htoken) Hne).
  unfold inputs_value. rewrite Hpv. simpl.
  rewrite Hvsel, Hvenv, Hvkey, Hva. simpl. rewrite Hverify. simpl.
  by rewrite !lookup_insert_eq.
Qed.

Lemma sign_then_verify_witness :
  payload (snd (signJWTController scenario_host (signer_ctx "HS256" "s3cr3t")
                  with_claims)) !! "token"
  = Some (VString "HS256.u1.s3cr3t")
  ∧ payload (snd (authenticateTokenController scenario_host
                    (verifier_ctx "HS256" "s3cr3t"
                       (Some "Bearer HS256.u1.s3cr3t"))
                    (snd (signJWTController scenario_host
                            (signer_ctx "HS256" "s3cr3t") with_claims))))
    !! "user"
    = Some (VObject [("sub", VString "u1")])
  ∧ next_calls (snd (authenticateTokenController scenario_host
                       (verifier_ctx "HS256" "s3cr3t"
                          (Some "Bearer HS256.u1.s3cr3t"))
                       (snd (signJWTController scenario_host
                               (signer_ctx "HS256" "s3cr3t") with_claims))))
    = 2%nat
  ∧ status (snd (authenticateTokenController scenario_host
                   (verifier_ctx "HS256" "s3cr3t"
                      (Some "Bearer HS256.u1.s3cr3t"))
                   (snd (signJWTController scenario_host
                           (signer_ctx "HS256" "s3cr3t") with_claims))))
    = 200.
Proof.
  apply (sign_then_verify scenario_host (signer_ctx "HS256" "s3cr3t")
           (verifier_ctx "HS256" "s3cr3t" (Some "Bearer HS256.u1.s3cr3t"))
           with_claims _ _ "HS256" "Bearer" "HS256.u1.s3cr3t"
           (VString "s3cr3t") (VObject [("sub", VString "u1")])
           eq_refl eq_refl (or_introl eq_refl)).
  all: first [reflexivity | by vm_compute | discriminate].
Defined.

(** X4. A token signed under the fallback is refused by this package's own
    verifier.  Ask the signer for RS256 or RS384 with a key reference that
    names no regular file: it signs with the salt under HS256 or HS384.  If
    the library stamps that algorithm into the token's header and honours the
    verifier's [algorithms] option, a verifier step configured with the same
    asymmetric algorithm answers the token with 401 and does not call
    [next()], whatever its key configuration is. *)
Theorem fallback_token_refused
    (host : Host) (signer verifier : EcoContext) (s sv : State)
    (ps : list (string * value)) (alg scheme token : string)
    (earlier : list event) (claims expiresIn signedWith : value)
    (secret : key_material) :
  honours_algorithms host →
  alg = "RS256" ∨ alg = "RS384" →
  inputs signer = Some ps →
  assoc_get "algorithm" ps = VString alg →
  (∀ content,
      fs_lookup host
        (if truthy (assoc_get "secretORprivateKeyFromEnvironment" ps)
         then js_or (env_get host (assoc_get "secretORprivateKey" ps))
                    (VString "")
         else assoc_get "secretORprivateKey" ps)
      ≠ Some (FsFile content)) →
  trace (snd (signJWTController host signer s))
  = (earlier ++ [JwtSign claims secret expiresIn signedWith (Normal token)])%list →
  jwt_header_alg host token = Some (to_string signedWith) →
  is_Some (inputs verifier) →
  get_prop (inputs_value verifier) "algorithm" = VString alg →
  has_space scheme = false → has_space token = false → token ≠ "" →
  authorization (request verifier) = Some (scheme ++ " " ++ token) →
  (signedWith = VString "HS256" ∨ signedWith = VString "HS384")
  ∧ secret = KValue (env_get host (VString "ECOFLOW_SYS_TOKEN_SALT"))
  ∧ status (snd (authenticateTokenController host verifier sv)) = 401
  ∧ next_calls (snd (authenticateTokenController host verifier sv))
    = next_calls sv
  ∧ ∃ message,
      payload (snd (authenticateTokenController host verifier sv))
      !! to_string (get_prop (inputs_value verifier) "responseKey")
      = Some (VString message).
Proof.
  intros Hlib Halg Hps Hsa Hnofile Htrace Hstamp Hvin Hva Hscheme Htoken Hne
    Hheader.
  destruct (signJWT_run host signer s (ex_intro _ ps Hps))
    as (secret' & signed' & calls & Hkey & Hrun).
  cbv zeta in Hrun. unfold inputs_value in Hkey, Hrun. rewrite Hps in Hkey, Hrun.
  simpl in Hkey, Hrun. rewrite Hsa in Hkey.
  rewrite resolver_fallback_run in Hkey;
    [| by destruct Halg as [-> | ->] | exact Hnofile].
  injection Hkey as <- <-.
  assert (Hsigned : signedWith
                    = VString (if is_str (VString alg) "RS384"
                               then "HS384" else "HS256")
                    ∧ secret = KValue (env_get host (VString "ECOFLOW_SYS_TOKEN_SALT"))).
  { rewrite Hrun in Htrace.
    destruct (jwt_sign host _ _ _ _); simpl in Htrace;
      rewrite app_assoc in Htrace;
      apply app_inj_tail in Htrace as [_ Hev]; by injection Hev. }
  destruct Hsigned as [-> ->].
  assert (Hother : VString alg
                   ≠ VString (to_string
                                (VString (if is_str (VString alg) "RS384"
                                          then "HS384" else "HS256")))).
  { by destruct Halg as [-> | ->]. }
  split; [by destruct Halg as [-> | ->]; [left | right] |].
  split; [reflexivity |].
  rewrite (authenticateToken_verify_run host verifier sv _ token Hvin Hheader
             (header_second_segment scheme token Hscheme Htoken) Hne).
  rewrite Hva.
  match goal with
  | |- context [jwt_verify host token ?sec [VString alg]] =>
      destruct (Hlib token sec [VString alg] _ Hstamp) as (n & m & ->)
  end.
  { intros Hel. apply list_elem_of_singleton in Hel. by symmetry in Hel. }
  simpl. rewrite lookup_insert_eq. eauto.
Qed.

Lemma fallback_token_refused_witness :
  status (snd (authenticateTokenController scenario_host
                 (verifier_ctx "RS256" "pepper" (Some "Bearer HS256.u1.pepper"))
                 fresh)) = 401
  ∧ next_calls (snd (authenticateTokenController scenario_host
                       (verifier_ctx "RS256" "pepper"
                          (Some "Bearer HS256.u1.pepper")) fresh)) = 0%nat.
Proof.
  assert (Hnofile : ∀ content,
             fs_lookup scenario_host (VString "/keys/missing.pem")
             ≠ Some (FsFile content))
    by (intros content; vm_compute; discriminate).
  assert (Htrace : trace (snd (signJWTController scenario_host
                                 (signer_file_ctx "RS256" "/keys/missing.pem")
                                 with_claims))
                   = ([FsExists (VString "/keys/missing.pem")]
                      ++ [JwtSign (VObject [("sub", VString "u1")])
                            (KValue (VString "pepper")) (VString "1hr")
                            (VString "HS256") (Normal "HS256.u1.pepper")])%list)
    by (by vm_compute).
  assert (Hne : "HS256.u1.pepper" ≠ "") by discriminate.
  destruct (fallback_token_refused scenario_host
              (signer_file_ctx "RS256" "/keys/missing.pem")
              (verifier_ctx "RS256" "pepper" (Some "Bearer HS256.u1.pepper"))
              with_claims fresh _ "RS256" "Bearer" "HS256.u1.pepper"
              [FsExists (VString "/keys/missing.pem")]
              (VObject [("sub", VString "u1")]) (VString "1hr")
              (VString "HS256") (KValue (VString "pepper"))
              scenario_host_honours_algorithms (or_introl eq_refl) eq_refl
              eq_refl Hnofile Htrace eq_refl (ex_intro _ _ eq_refl) eq_refl
              eq_refl eq_refl Hne eq_refl)
    as (_ & _ & Hstatus & Hnext & _).
  split; assumption.
Defined.

(** X5. Only the second segment of the header is looked at: whatever follows
    a further space is ignored, so [<scheme> <token> <anything>] is processed
    exactly like [<scheme> <token>]. *)
Theorem authenticateToken_trailing_segments
    (host : Host) (ins : option (list (string * value)))
    (q : gmap string value) (scheme token rest : string) (s : State) :
  has_space scheme = false →
  has_space token = false →
  authenticateTokenController host
    {| inputs := ins;
       request := {| authorization := Some (scheme ++ " " ++ token ++ " " ++ rest);
                     query := q |} |} s
  = authenticateTokenController host
      {| inputs := ins;
         request := {| authorization := Some (scheme ++ " " ++ token);
                       query := q |} |} s.
Proof.
  intros Hscheme Htoken.
  unfold authenticateTokenController, inputs_value, header_authorization,
    str_split.
  destruct ins as [props |]; [| reflexivity].
  cbn [inputs request authorization lodash.isUndefined lodash.isEmpty orb].
  rewrite !scheme_header_nonempty.
  rewrite (split_scheme scheme (token ++ " " ++ rest) Hscheme),
          (split_scheme token rest Htoken),
          (split_scheme scheme token Hscheme),
          (split_no_space token Htoken).
  rewrite !bind_ret_l. cbv beta.
  by rewrite !index_cons.
Qed.

Lemma authenticateToken_trailing_segments_witness :
  authenticateTokenController scenario_host
    (verifier_ctx "HS256" "s3cr3t" (Some "Bearer HS256.u1.s3cr3t extra words"))
    fresh
  = authenticateTokenController scenario_host
      (verifier_ctx "HS256" "s3cr3t" (Some "Bearer HS256.u1.s3cr3t")) fresh.
Proof.
  exact (authenticateToken_trailing_segments scenario_host _ ∅
           "Bearer" "HS256.u1.s3cr3t" "extra words" fresh eq_refl eq_refl).
Defined.

(** ** JWKS Publisher: publishing and internal errors *)

(** X6. When the resolved path names a regular file and [pem2jwk] converts
    its contents (decoded as ASCII, with [{ use: "sig" }]), the publisher
    writes the one-element array holding that key into
    [payload[responseKey]] and calls [next()] once, leaving the status alone;
    it checks existence and reads the file, and makes no other file-system
    call. *)
Theorem jwtJWKS_publishes_key
    (host : Host) (ctx : EcoContext) (s : State) (path content : string)
    (jwk : value) :
  let key := to_string (get_prop (inputs_value ctx) "responseKey") in
  let publicKey := get_prop (inputs_value ctx) "publicKey" in
  let secretPath :=
    if truthy (get_prop (inputs_value ctx) "fromEnvironmentVariable")
    then env_get host publicKey else publicKey in
  is_Some (inputs ctx) →
  secretPath = VString path →
  fs host !! path = Some (FsFile content) →
  pem2jwk host (decode_ascii content) (VObject [("use", VString "sig")])
  = Normal jwk →
  jwtJWKSController host ctx s
  = (Normal tt,
     mk_State (<[key := VArray [jwk]]> (payload s)) (status s)
              (S (next_calls s)) (moduleConfigs s) (error_log s)
              (trace s ++ [FsExists (VString path); FsReadFile (VString path)])).
Proof.
  intros key publicKey secretPath [props Hin] Hpath Hfile Hjwk.
  subst key publicKey secretPath.
  unfold jwtJWKSController, inputs_value in *. rewrite Hin in *. simpl in *.
  rewrite Hpath. unfold try_catch, fse_exists, fse_readFile. step_monad.
  rewrite Hfile. simpl. rewrite Hjwk. simpl. by rewrite <- app_assoc.
Qed.

Lemma jwtJWKS_publishes_key_witness :
  jwtJWKSController scenario_host (jwks_ctx "/keys/private.pem") fresh
  = (Normal tt,
     mk_State
       {[ "jwks" := VArray [VObject [("kty", VString "RSA");
                                     ("use", VString "sig")]] ]}
       200 1 None []
       [FsExists (VString "/keys/private.pem");
        FsReadFile (VString "/keys/private.pem")]).
Proof.
  apply (jwtJWKS_publishes_key scenario_host (jwks_ctx "/keys/private.pem")
           fresh "/keys/private.pem" "PRIVATE KEY").
  - simpl. eauto.
  - reflexivity.
  - by vm_compute.
  - reflexivity.
Defined.



(** ** Auth-URL Builder: parameters, success and what is never touched *)

Lemma falsy_is_empty (v : value) : truthy v = false → lodash.isEmpty v = true.
Proof.
  destruct v as [| | b | n | str | | |]; try done; simpl.
  by destruct (String.eqb str "").
Qed.

(** The credential check passes on three non-empty strings. *)
Lemma credentials_accepted (id secret uri : string) :
  id ≠ "" → secret ≠ "" → uri ≠ "" →
  negb (truthy (VString id)) || negb (truthy (VString secret))
  || negb (truthy (VString uri)) || lodash.isElement (VString id)
  || lodash.isEmpty (VString secret) || lodash.isEmpty (VString uri) = false.
Proof.
  intros Hid Hsecret Huri. simpl.
  apply String.eqb_neq in Hid, Hsecret, Huri.
  by rewrite Hid, Hsecret, Huri.
Qed.

(** X8. With three non-empty credential strings, a missing or empty
    [access_type] or [prompt] stops the auth-URL builder: it writes the
    parameters error with [statusCode] 400 and returns without calling
    [next()].  Here the flags are computed with [_.isEmpty], so the flag of
    every parameter that is missing or empty is [true]. *)
Theorem generateGoogleAuthUrl_missing_parameters
    (host : Host) (ctx : EcoContext) (s : State) (id secret uri : string) :
  let clientId := get_prop (inputs_value ctx) "clientId" in
  let clientSecret := get_prop (inputs_value ctx) "clientSecret" in
  let redirectUri := get_prop (inputs_value ctx) "redirectUri" in
  let access_type := get_prop (inputs_value ctx) "access_type" in
  let prompt := get_prop (inputs_value ctx) "prompt" in
  is_Some (inputs ctx) →
  (if truthy (get_prop (inputs_value ctx) "clientIdFromEnv")
   then env_get host clientId else clientId) = VString id →
  (if truthy (get_prop (inputs_value ctx) "clientSecretFromEnv")
   then env_get host clientSecret else clientSecret) = VString secret →
  (if truthy (get_prop (inputs_value ctx) "redirectUriFromEnv")
   then env_get host redirectUri else redirectUri) = VString uri →
  id ≠ "" → secret ≠ "" → uri ≠ "" →
  truthy access_type = false ∨ truthy prompt = false →
  generateGoogleAuthUrl host ctx s
  = (Normal tt,
     mk_State
       (<["msg" :=
            VObject
              [("error", VBool true);
               ("message", VString "Missing required Google OAuth parameters");
               ("statusCode", VNumber 400);
               ("missing",
                VObject
                  [("access_type", VBool (lodash.isEmpty access_type));
                   ("prompt", VBool (lodash.isEmpty prompt))])]]>
          (payload s))
       (status s) (next_calls s) (moduleConfigs s) (error_log s) (trace s))
  ∧ (truthy access_type = false → lodash.isEmpty access_type = true)
  ∧ (truthy prompt = false → lodash.isEmpty prompt = true).
Proof.
  intros clientId clientSecret redirectUri access_type prompt [props Hin]
    Hid Hsecret Huri Hid' Hsecret' Huri' Hmissing.
  subst clientId clientSecret redirectUri access_type prompt.
  split; [| split; apply falsy_is_empty].
  unfold generateGoogleAuthUrl, inputs_value in *. rewrite Hin in *.
  cbn [lodash.isUndefined get_prop] in *.
  rewrite Hid, Hsecret, Huri, (credentials_accepted id secret uri) by assumption.
  assert (Hcheck : negb (truthy (assoc_get "access_type" props))
                   || negb (truthy (assoc_get "prompt" props))
                   || lodash.isEmpty (assoc_get "access_type" props)
                   || lodash.isEmpty (assoc_get "prompt" props) = true).
  { destruct Hmissing as [-> | ->]; simpl; [reflexivity |].
    by rewrite orb_true_r. }
  by rewrite Hcheck.
Qed.

Lemma generateGoogleAuthUrl_missing_parameters_witness :
  generateGoogleAuthUrl scenario_host
    (authurl_ctx VUndefined (VString "consent")) fresh
  = (Normal tt,
     mk_State
       {[ "msg" :=
            VObject
              [("error", VBool true);
               ("message", VString "Missing required Google OAuth parameters");
               ("statusCode", VNumber 400);
               ("missing",
                VObject [("access_type", VBool true);
                         ("prompt", VBool false)])] ]}
       200 0 None [] []).
Proof.
  apply (generateGoogleAuthUrl_missing_parameters scenario_host
           (authurl_ctx VUndefined (VString "consent")) fresh
           "id-1" "shh" "https://app.example/callback").
  - simpl. eauto.
  - reflexivity.
  - reflexivity.
  - reflexivity.
  - discriminate.
  - discriminate.
  - discriminate.
  - left. reflexivity.
Defined.

(** X9. With three non-empty credential strings and non-empty [access_type]
    and [prompt] strings, the auth-URL builder writes
    [payload.msg = { authURL }] and calls [next()] once.  The URL is the one
    the OAuth client built from exactly these credentials returns for the five
    parameters; [scope], [state] and [login_hint] are passed on as they are,
    present or not. *)
Theorem generateGoogleAuthUrl_success
    (host : Host) (ctx : EcoContext) (s : State)
    (id secret uri access prompt_ : string) :
  let clientId := get_prop (inputs_value ctx) "clientId" in
  let clientSecret := get_prop (inputs_value ctx) "clientSecret" in
  let redirectUri := get_prop (inputs_value ctx) "redirectUri" in
  is_Some (inputs ctx) →
  (if truthy (get_prop (inputs_value ctx) "clientIdFromEnv")
   then env_get host clientId else clientId) = VString id →
  (if truthy (get_prop (inputs_value ctx) "clientSecretFromEnv")
   then env_get host clientSecret else clientSecret) = VString secret →
  (if truthy (get_prop (inputs_value ctx) "redirectUriFromEnv")
   then env_get host redirectUri else redirectUri) = VString uri →
  get_prop (inputs_value ctx) "access_type" = VString access →
  get_prop (inputs_value ctx) "prompt" = VString prompt_ →
  id ≠ "" → secret ≠ "" → uri ≠ "" → access ≠ "" → prompt_ ≠ "" →
  generateGoogleAuthUrl host ctx s
  = (Normal tt,
     mk_State
       (<["msg" :=
            VObject
              [("authURL",
                VString
                  (oauth_generateAuthUrl host
                     (VObject [("clientId", VString id);
                               ("clientSecret", VString secret);
                               ("redirectUri", VString uri)])
                     (VObject
                        [("access_type", VString access);
                         ("scope", get_prop (inputs_value ctx) "scope");
                         ("prompt", VString prompt_);
                         ("state", get_prop (inputs_value ctx) "state");
                         ("login_hint",
                          get_prop (inputs_value ctx) "login_hint")])))]]>
          (payload s))
       (status s) (S (next_calls s)) (moduleConfigs s) (error_log s) (trace s)).
Proof.
  intros clientId clientSecret redirectUri [props Hin]
    Hid Hsecret Huri Haccess Hprompt Hid' Hsecret' Huri' Haccess' Hprompt'.
  subst clientId clientSecret redirectUri.
  unfold generateGoogleAuthUrl, inputs_value in *. rewrite Hin in *.
  cbn [lodash.isUndefined get_prop] in *.
  rewrite Hid, Hsecret, Huri, (credentials_accepted id secret uri) by assumption.
  rewrite Haccess, Hprompt. simpl.
  apply String.eqb_neq in Haccess', Hprompt'.
  by rewrite Haccess', Hprompt'.
Qed.

Lemma generateGoogleAuthUrl_success_witness :
  generateGoogleAuthUrl scenario_host
    (authurl_ctx (VString "offline") (VString "consent")) fresh
  = (Normal tt,
     mk_State
       {[ "msg" :=
            VObject
              [("authURL",
                VString
                  "https://accounts.google.com/o/oauth2/v2/auth?client_id=id-1")] ]}
       200 1 None [] []).
Proof.
  apply (generateGoogleAuthUrl_success scenario_host
           (authurl_ctx (VString "offline") (VString "consent")) fresh
           "id-1" "shh" "https://app.example/callback" "offline" "consent").
  - simpl. eauto.
  - reflexivity.
  - reflexivity.
  - reflexivity.
  - reflexivity.
  - reflexivity.
  - discriminate.
  - discriminate.
  - discriminate.
  - discriminate.
  - discriminate.
Defined.

(** X10. Whatever its inputs, the auth-URL builder completes normally and
    assigns nothing but [payload.msg]: the response status is never set (the
    400 of its error reports only lives in the payload), and the client
    configurations, the error log and the library trace stay as they were.
    It calls [next()] at most once, and only after writing
    [payload.msg = { authURL }]. *)
Theorem generateGoogleAuthUrl_frame
    (host : Host) (ctx : EcoContext) (s : State) :
  let s' := snd (generateGoogleAuthUrl host ctx s) in
  fst (generateGoogleAuthUrl host ctx s) = Normal tt
  ∧ status s' = status s
  ∧ moduleConfigs s' = moduleConfigs s
  ∧ error_log s' = error_log s
  ∧ trace s' = trace s
  ∧ (∀ k, k ≠ "msg" → payload s' !! k = payload s !! k)
  ∧ (next_calls s' = next_calls s
     ∨ (next_calls s' = S (next_calls s)
        ∧ ∃ url, payload s' !! "msg"
                 = Some (VObject [("authURL", VString url)]))).
Proof.
  intros s'. subst s'.
  unfold generateGoogleAuthUrl.
  destruct (lodash.isUndefined (inputs_value ctx)).
  { simpl. repeat split; auto. }
  match goal with
  | |- context [if ?c then payload_set _ _ else _] => destruct c
  end.
  { simpl. repeat split; auto.
    intros k Hk. by rewrite lookup_insert_ne. }
  match goal with
  | |- context [if ?c then payload_set _ _ else _] => destruct c
  end.
  { simpl. repeat split; auto.
    intros k Hk. by rewrite lookup_insert_ne. }
  simpl. repeat split; auto.
  - intros k Hk. by rewrite lookup_insert_ne.
  - right. split; [reflexivity |]. rewrite lookup_insert_eq. eauto.
Qed.

(** ** Client configurations: [ApiCredentialsController] *)

(** X11. Given an inputs object whose [clientId] and [clientSecret] are
    non-empty strings, [ApiCredentialsController] returns an [OAuth2Client]
    built from them, with empty credentials, and logs nothing; [redirectUri]
    is optional and is passed on as it is, present or not. *)
Theorem ApiCredentialsController_accepts
    (props : list (string * value)) (id secret : string) (s : State) :
  assoc_get "clientId" props = VString id →
  assoc_get "clientSecret" props = VString secret →
  id ≠ "" → secret ≠ "" →
  ApiCredentialsController (VObject props) s
  = (Normal (VInstance "OAuth2Client"
               [("_clientId", VString id);
                ("_clientSecret", VString secret);
                ("redirectUri", assoc_get "redirectUri" props);
                ("credentials", VObject [])]),
     s).
Proof.
  intros Hid Hsecret Hid' Hsecret'.
  unfold ApiCredentialsController.
  destruct props as [| prop props']; [discriminate |].
  cbn [lodash.isEmpty get_prop]. rewrite Hid, Hsecret. simpl.
  apply String.eqb_neq in Hid', Hsecret'. by rewrite Hid', Hsecret'.
Qed.

Lemma ApiCredentialsController_accepts_witness :
  ApiCredentialsController
    (VObject [("clientId", VString "id-1"); ("clientSecret", VString "shh")])
    fresh
  = (Normal (VInstance "OAuth2Client"
               [("_clientId", VString "id-1");
                ("_clientSecret", VString "shh");
                ("redirectUri", VUndefined);
                ("credentials", VObject [])]),
     fresh).
Proof.
  apply (ApiCredentialsController_accepts
           [("clientId", VString "id-1"); ("clientSecret", VString "shh")]
           "id-1" "shh" fresh); first [reflexivity | discriminate].
Defined.

(** X12. [ApiCredentialsController] refuses, by returning [null], exactly
    when the inputs are empty or [clientId] or [clientSecret] is missing or
    empty.  Every refusal logs one message and changes nothing else:
    "Missing inputs." for empty inputs and, for a missing client id and a
    missing client secret alike, "Missing project URL.". *)
Theorem ApiCredentialsController_refuses (inputs : value) (s : State) :
  let usable v := truthy v && negb (lodash.isEmpty v) in
  let refused :=
    lodash.isEmpty inputs
    || negb (usable (get_prop inputs "clientId"))
    || negb (usable (get_prop inputs "clientSecret")) in
  (refused = true ↔ fst (ApiCredentialsController inputs s) = Normal VNull)
  ∧ (refused = true →
     ApiCredentialsController inputs s
     = (Normal VNull,
        mk_State (payload s) (status s) (next_calls s) (moduleConfigs s)
                 (error_log s
                  ++ [VString (if lodash.isEmpty inputs then "Missing inputs."
                               else "Missing project URL.")])
                 (trace s))).
Proof.
  intros usable refused. subst usable refused.
  unfold ApiCredentialsController.
  destruct (lodash.isEmpty inputs); [by split |].
  cbn [orb].
  destruct (truthy (get_prop inputs "clientId"));
    destruct (lodash.isEmpty (get_prop inputs "clientId")); simpl;
    try (by split).
  destruct (truthy (get_prop inputs "clientSecret"));
    destruct (lodash.isEmpty (get_prop inputs "clientSecret")); simpl;
    by split.
Qed.

(** ** What the OAuth controllers leave alone *)

Section Preserves.

Context (R : State → State → Prop).
Hypothesis R_refl : ∀ s, R s s.
Hypothesis R_trans : ∀ s1 s2 s3, R s1 s2 → R s2 s3 → R s1 s3.

Lemma preserves_ret {A} (a : A) : preserves R (ret a).
Proof. intros s. apply R_refl. Qed.

Lemma preserves_throw {A} (e : value) : preserves R (@throw A e).
Proof. intros s. apply R_refl. Qed.

Lemma preserves_lift {A} (c : completion A) : preserves R (lift c).
Proof. intros s. apply R_refl. Qed.

Lemma preserves_member (o : value) (k : string) : preserves R (member o k).
Proof. intros s. destruct o; apply R_refl. Qed.

Lemma preserves_payload_get (k : value) : preserves R (payload_get k).
Proof. intros s. apply R_refl. Qed.

Lemma preserves_selectPackage : preserves R selectPackage.
Proof. intros s. apply R_refl. Qed.

Lemma preserves_bind {A B} (m : M A) (k : A → M B) :
  preserves R m → (∀ a, preserves R (k a)) → preserves R (bind m k).
Proof.
  intros Hm Hk s. unfold bind. specialize (Hm s).
  destruct (m s) as [[a | e] s1]; simpl in *; [| exact Hm].
  exact (R_trans _ _ _ Hm (Hk a s1)).
Qed.

Lemma preserves_try_catch {A} (body : M A) (handler : value → M A) :
  preserves R body → (∀ e, preserves R (handler e)) →
  preserves R (try_catch body handler).
Proof.
  intros Hbody Hhandler s. unfold try_catch. specialize (Hbody s).
  destruct (body s) as [[a | e] s1]; simpl in *; [exact Hbody |].
  exact (R_trans _ _ _ Hbody (Hhandler e s1)).
Qed.

End Preserves.

Lemma only_msg_refl (s : State) : only_msg s s.
Proof. unfold only_msg. auto 10. Qed.

Lemma only_msg_trans (s1 s2 s3 : State) :
  only_msg s1 s2 → only_msg s2 s3 → only_msg s1 s3.
Proof.
  intros (H1 & H2 & H3 & H4 & H5 & H6) (H1' & H2' & H3' & H4' & H5' & H6').
  unfold only_msg. repeat split; try congruence; [| lia].
  intros k Hk. by rewrite H5', H5.
Qed.

Lemma only_msg_payload_set (v : value) :
  preserves only_msg (payload_set (VString "msg") v).
Proof.
  intros s. unfold only_msg. simpl. repeat split; auto.
  intros k Hk. by rewrite lookup_insert_ne.
Qed.

Lemma only_msg_next : preserves only_msg next.
Proof. intros s. unfold only_msg. simpl. repeat split; auto. Qed.

Lemma only_msg_and_client_refl (client : string) (s : State) :
  only_msg_and_client client s s.
Proof. unfold only_msg_and_client. by destruct (moduleConfigs s); auto 10. Qed.

Lemma only_msg_and_client_trans (client : string) (s1 s2 s3 : State) :
  only_msg_and_client client s1 s2 → only_msg_and_client client s2 s3 →
  only_msg_and_client client s1 s3.
Proof.
  intros (H1 & H2 & H3 & H4 & H5 & H6) (H1' & H2' & H3' & H4' & H5' & H6').
  unfold only_msg_and_client. repeat split; try congruence; [| | lia].
  - destruct (moduleConfigs s1), (moduleConfigs s2), (moduleConfigs s3);
      try done.
    intros other Hother. by rewrite H4', H4.
  - intros k Hk. by rewrite H5', H5.
Qed.

Lemma only_msg_weaken (client : string) (s s' : State) :
  only_msg s s' → only_msg_and_client client s s'.
Proof.
  intros (H1 & H2 & H3 & H4 & H5 & H6). unfold only_msg_and_client.
  rewrite H4. by destruct (moduleConfigs s); auto 10.
Qed.

Lemma only_msg_and_client_assign (client : string) (creds : value) :
  preserves (only_msg_and_client client)
    (client_assign_credentials client creds).
Proof.
  intros s. unfold client_assign_credentials, only_msg_and_client.
  destruct s as [pl st nx [manager |] lg tr] eqn:Hs; simpl; [| auto 10].
  destruct (manager !! client) as [config |]; simpl; repeat split; auto.
  intros other Hother. by rewrite lookup_insert_ne.
Qed.

Ltac frame_step R_refl R_trans :=
  match goal with
  | |- preserves _ (bind _ _) =>
      apply (preserves_bind _ R_trans); [| intros ?]
  | |- preserves _ (try_catch _ _) =>
      apply (preserves_try_catch _ R_trans); [| intros ?]
  | |- preserves _ (ret _) => apply (preserves_ret _ R_refl)
  | |- preserves _ (throw _) => apply (preserves_throw _ R_refl)
  | |- preserves _ (lift _) => apply (preserves_lift _ R_refl)
  | |- preserves _ (member _ _) => apply (preserves_member _ R_refl)
  | |- preserves _ (payload_get _) => apply (preserves_payload_get _ R_refl)
  | |- preserves _ selectPackage => apply (preserves_selectPackage _ R_refl)
  | |- preserves _ (if ?c then _ else _) => destruct c
  | |- preserves _ (match ?c with Some _ => _ | None => _ end) => destruct c
  end.

(** X13. Whatever its inputs, the payload and the Google endpoints' answers,
    the code exchanger assigns nothing but [payload.msg]: it never sets the
    response status, never logs, and leaves every registered client
    configuration exactly as it was, whether it returns or throws. *)
Theorem getTokenFromCode_frame
    (google : GoogleApi) (ctx : EcoContext) (s : State) :
  only_msg s (snd (getTokenFromCode google ctx s)).
Proof.
  revert s. change (preserves only_msg (getTokenFromCode google ctx)).
  unfold getTokenFromCode, client_getToken.
  repeat first
    [ apply only_msg_payload_set
    | apply only_msg_next
    | frame_step only_msg_refl only_msg_trans ].
Qed.

(** X14. Whatever happens, the inline Google flow assigns nothing but
    [payload.msg]: the status is never set, nothing is logged, and the
    registered client configurations are not touched (its OAuth client is
    built for the one invocation). *)
Theorem googleOAuthAuthenticate_frame
    (host : Host) (google : GoogleApi) (ctx : EcoContext) (s : State) :
  only_msg s (snd (googleOAuthAuthenticate host google ctx s)).
Proof.
  revert s. change (preserves only_msg (googleOAuthAuthenticate host google ctx)).
  unfold googleOAuthAuthenticate.
  repeat first
    [ apply only_msg_payload_set
    | apply only_msg_next
    | frame_step only_msg_refl only_msg_trans ].
Qed.

Lemma only_msg_and_client_payload_set (client : string) (v : value) :
  preserves (only_msg_and_client client) (payload_set (VString "msg") v).
Proof. intros s. apply only_msg_weaken, only_msg_payload_set. Qed.

Lemma only_msg_and_client_next (client : string) :
  preserves (only_msg_and_client client) next.
Proof. intros s. apply only_msg_weaken, only_msg_next. Qed.

Lemma only_msg_and_client_getAccessToken (host : Host) (client : string) :
  preserves (only_msg_and_client client) (client_getAccessToken host client).
Proof.
  intros s. unfold client_getAccessToken.
  destruct (oauth_getAccessToken host _) as [outcome creds].
  pose proof (only_msg_and_client_assign client creds s) as Hassign.
  by destruct (client_assign_credentials client creds s).
Qed.

(** X15. Whatever happens, the user-details fetcher assigns nothing but
    [payload.msg] and the configuration registered under the client name it
    was given: the status is never set, nothing is logged, and every other
    registered client is left exactly as it was. *)
Theorem getUserDetails_frame (host : Host) (ctx : EcoContext) (s : State) :
  only_msg_and_client (to_string (get_prop (inputs_value ctx) "client"))
    s (snd (getUserDetails host ctx s)).
Proof.
  revert s.
  set (client := to_string (get_prop (inputs_value ctx) "client")).
  change (preserves (only_msg_and_client client) (getUserDetails host ctx)).
  unfold getUserDetails, client_setCredentials. fold client.
  repeat first
    [ apply only_msg_and_client_payload_set
    | apply only_msg_and_client_next
    | apply only_msg_and_client_assign
    | apply only_msg_and_client_getAccessToken
    | frame_step (only_msg_and_client_refl client)
                 (only_msg_and_client_trans client) ].
Qed.

(** ** Client configurations and the controllers that use them *)

(** X16. A client name that is not registered stops both client-based
    controllers alike: with a configuration manager in place, the
    user-details fetcher and the code exchanger (reading its code from the
    inputs) write "Missing config for ecoflow-authentication package" into
    [payload.msg] and return, with [next()] not called and nothing else
    changed. *)
Theorem unknown_client_reported
    (host : Host) (google : GoogleApi) (ctx : EcoContext) (s : State)
    (props : list (string * value)) (client : string)
    (manager : gmap string value) :
  inputs ctx = Some props →
  assoc_get "client" props = VString client →
  client ≠ "" →
  moduleConfigs s = Some manager →
  manager !! client = None →
  let reported :=
    (Normal tt,
     mk_State
       (<["msg" :=
            VObject [("error", VBool true);
                     ("message",
                      VString "Missing config for ecoflow-authentication package")]]>
          (payload s))
       (status s) (next_calls s) (moduleConfigs s) (error_log s) (trace s)) in
  getUserDetails host ctx s = reported
  ∧ (truthy (assoc_get "passByPayload" props) = false →
     getTokenFromCode google ctx s = reported).
Proof.
  intros Hin Hclient Hne Hmanager Hnone reported. subst reported.
  apply String.eqb_neq in Hne.
  split; [| intros Hpass];
    unfold getUserDetails, getTokenFromCode, inputs_value; rewrite Hin;
    (destruct props as [| prop props']; [discriminate |]);
    cbn [truthy lodash.isEmpty negb orb get_prop];
    rewrite Hclient; cbn [truthy lodash.isEmpty to_string];
    rewrite Hne; cbn [negb orb]; rewrite ?Hpass;
    unfold bind, ret, selectPackage; rewrite Hmanager;
    cbn [config_get]; rewrite Hnone; unfold payload_set; simpl;
    rewrite ?Hmanager; reflexivity.
Qed.

Lemma unknown_client_reported_witness :
  getUserDetails scenario_host (exchange_ctx "github" "code-ok") registered
  = (Normal tt,
     mk_State
       {[ "msg" :=
            VObject [("error", VBool true);
                     ("message",
                      VString "Missing config for ecoflow-authentication package")] ]}
       200 0 (Some google_configs) [] [])
  ∧ getTokenFromCode scenario_google (exchange_ctx "github" "code-ok") registered
    = (Normal tt,
       mk_State
         {[ "msg" :=
              VObject [("error", VBool true);
                       ("message",
                        VString "Missing config for ecoflow-authentication package")] ]}
         200 0 (Some google_configs) [] []).
Proof.
  assert (Hne : "github" ≠ "") by discriminate.
  assert (Hnone : google_configs !! "github" = None) by (by vm_compute).
  destruct (unknown_client_reported scenario_host scenario_google
              (exchange_ctx "github" "code-ok") registered _ "github"
              google_configs eq_refl eq_refl Hne eq_refl Hnone)
    as [Hdetails Hexchange].
  split; [exact Hdetails | exact (Hexchange eq_refl)].
Defined.

Lemma ApiCredentialsController_result (inputs : value) (s : State) :
  fst (ApiCredentialsController inputs s) = Normal VNull
  ∨ ∃ id secret uri,
      fst (ApiCredentialsController inputs s)
      = Normal (new_OAuth2Client id secret uri).
Proof.
  unfold ApiCredentialsController.
  repeat match goal with
         | |- context [if ?c then _ else _] => destruct c
         end; simpl; eauto.
Qed.

(** X17. The user-details fetcher and [ApiCredentialsController] agree on
    what a usable client is.  Let a configuration's [configs] hold whatever
    [ApiCredentialsController] returned for some credentials.  Then the
    fetcher reports "Missing OAuth client" exactly when the controller had
    refused the credentials; a client the controller built always passes the
    fetcher's check of the client. *)
Theorem getUserDetails_accepts_built_clients
    (host : Host) (ctx : EcoContext) (s s0 : State)
    (props fields : list (string * value)) (client : string)
    (manager : gmap string value) (credentials : value) :
  inputs ctx = Some props →
  assoc_get "client" props = VString client →
  client ≠ "" →
  moduleConfigs s = Some manager →
  manager !! client = Some (VObject fields) →
  fst (ApiCredentialsController credentials s0)
  = Normal (assoc_get "configs" fields) →
  payload (snd (getUserDetails host ctx s)) !! "msg"
  = Some (VObject [("error", VBool true);
                   ("message", VString "Missing OAuth client")])
  ↔ fst (ApiCredentialsController credentials s0) = Normal VNull.
Proof.
  intros Hin Hclient Hne Hmanager Hconfig Hbuilt.
  destruct (ApiCredentialsController_result credentials s0)
    as [Hrefused | (id & secret & uri & Haccepted)].
  - rewrite Hrefused in Hbuilt |- *. injection Hbuilt as Hnull.
    split; [done | intros _].
    assert (Hfields : fields ≠ []) by (by destruct fields).
    apply String.eqb_neq in Hne.
    unfold getUserDetails, inputs_value. rewrite Hin.
    destruct props as [| prop props']; [discriminate |].
    cbn [truthy lodash.isEmpty negb orb get_prop].
    rewrite Hclient. cbn [truthy lodash.isEmpty to_string].
    rewrite Hne. cbn [negb orb].
    unfold bind, selectPackage. rewrite Hmanager.
    cbn [config_get]. rewrite Hconfig. cbn [from_option id get_prop].
    rewrite <- Hnull. destruct fields; [done |]. simpl.
    by rewrite lookup_insert_eq.
  - rewrite Haccepted in Hbuilt |- *. injection Hbuilt as Hclientobj.
    split; [| discriminate]. intros Hmsg. exfalso.
    destruct (oauth_getAccessToken host
                (VObject
                   [("refresh_token",
                     if truthy (get_prop (inputs_value ctx) "passByQuery")
                     then (if truthy (get_prop (inputs_value ctx) "queryKey")
                           then query_get ctx (get_prop (inputs_value ctx) "queryKey")
                           else query_get ctx (VString "token"))
                     else get_prop (inputs_value ctx) "refreshToken")]))
      as [outcome remaining] eqn:Hlib.
    destruct (getUserDetails_run host ctx s props client manager
                (VObject fields) _ outcome remaining Hin Hclient Hne Hmanager
                Hconfig (eq_sym Hclientobj) ltac:(discriminate) Hlib)
      as (config' & message & calls & Hrun & Hend).
    rewrite Hrun in Hmsg. simpl in Hmsg. rewrite lookup_insert_eq in Hmsg.
    injection Hmsg as ->.
    destruct Hend as [(_ & _ & user & Hm) | (_ & _ & e & Hm)]; discriminate.
Qed.

Lemma getUserDetails_accepts_built_clients_witness :
  payload (snd (getUserDetails scenario_host (userdetails_ctx "refresh-ok")
                  (mk_State ∅ 200 0
                     (Some {[ "google" :=
                                VObject [("label", VString "Google");
                                         ("configs", VNull)] ]})
                     [] []))) !! "msg"
  = Some (VObject [("error", VBool true);
                   ("message", VString "Missing OAuth client")])
  ↔ fst (ApiCredentialsController
           (VObject [("clientId", VString "id-1")]) fresh) = Normal VNull.
Proof.
  assert (Hne : "google" ≠ "") by discriminate.
  apply (getUserDetails_accepts_built_clients scenario_host
           (userdetails_ctx "refresh-ok")
           (mk_State ∅ 200 0
              (Some {[ "google" :=
                         VObject [("label", VString "Google");
                                  ("configs", VNull)] ]})
              [] [])
           fresh _
           [("label", VString "Google"); ("configs", VNull)] "google"
           {[ "google" := VObject [("label", VString "Google");
                                   ("configs", VNull)] ]}
           (VObject [("clientId", VString "id-1")])
           eq_refl eq_refl Hne eq_refl).
  - by vm_compute.
  - reflexivity.
Defined.

(** ** Code Exchanger *)

(** Past its validation, the code exchanger is the exchange itself: the
    [try] block around [getToken] on the registered client, then [next()]
    if nothing was thrown.  The code comes from the inputs, or, with
    [passByPayload], from [payload[payloadKey].code] ([payload.msg.code] when
    no payload key is given). *)
Lemma getTokenFromCode_validated
    (google : GoogleApi) (ctx : EcoContext) (s : State)
    (props fields : list (string * value)) (client : string)
    (manager : gmap string value) (config userCode : value) :
  let code := assoc_get "code" props in
  let payloadKey := assoc_get "payloadKey" props in
  inputs ctx = Some props →
  assoc_get "client" props = VString client →
  client ≠ "" →
  moduleConfigs s = Some manager →
  manager !! client = Some config →
  get_prop config "configs" = VInstance "OAuth2Client" fields →
  fields ≠ [] →
  (truthy (assoc_get "passByPayload" props) = false ∧ userCode = code)
  ∨ (truthy (assoc_get "passByPayload" props) = true
     ∧ ∃ entry,
         payload s !! to_string (if truthy payloadKey then payloadKey
                                 else VString "msg")
         = Some (VObject entry)
         ∧ userCode = assoc_get "code" entry) →
  getTokenFromCode google ctx s
  = (do exchanged <-
       try_catch
         (do token <- lift (oauth_getToken google
                              (VInstance "OAuth2Client" fields) userCode);
          do tokens <- member token "tokens";
          do accessToken <- member tokens "access_token";
          do refreshToken <- member tokens "refresh_token";
          exec payload_set (VString "msg")
                 (VObject [("success", VBool true);
                           ("token", tokens);
                           ("accessToken", accessToken);
                           ("refreshToken", refreshToken)]);
          ret true)
         (fun error =>
            exec payload_set (VString "msg")
                   (VObject
                      [("error", VBool true);
                       ("message",
                        VString ("Failed to get token from code: "
                                 ++ to_string code));
                       ("rawError", error)]);
            ret false);
     if exchanged then next else ret tt) s.
Proof.
  intros code payloadKey Hin Hclient Hne Hmanager Hconfig Hoauth Hfields
    Hsource.
  subst code payloadKey.
  unfold getTokenFromCode, inputs_value. rewrite Hin.
  destruct props as [| prop props']; [discriminate |].
  cbn [truthy lodash.isEmpty negb orb get_prop].
  rewrite Hclient. cbn [truthy lodash.isEmpty to_string].
  apply String.eqb_neq in Hne. rewrite Hne. cbn [negb orb].
  assert (Hlive : lodash.isNull config || lodash.isEmpty config = false).
  { destruct config as [| | | | | | [|] | ? [|]]; try discriminate; reflexivity. }
  assert (Hclass : lodash.isNull (VInstance "OAuth2Client" fields)
                   || lodash.isEmpty (VInstance "OAuth2Client" fields) = false)
    by (by destruct fields).
  assert (Hcode :
            (if truthy (assoc_get "passByPayload" (prop :: props'))
             then
               if truthy (assoc_get "payloadKey" (prop :: props'))
               then (do entry <- payload_get
                                   (assoc_get "payloadKey" (prop :: props'));
                     member entry "code")
               else (do entry <- payload_get (VString "msg");
                     member entry "code")
             else ret (assoc_get "code" (prop :: props'))) s
            = (Normal userCode, s)).
  { destruct Hsource as [[-> ->] | (-> & entry & Hentry & ->)]; [reflexivity |].
    destruct (truthy (assoc_get "payloadKey" (prop :: props')));
      unfold bind, payload_get; rewrite Hentry; reflexivity. }
  unfold bind at 1. rewrite Hcode.
  unfold bind at 1. unfold selectPackage at 1. cbv beta iota.
  rewrite Hmanager. cbn [config_get]. rewrite Hconfig. cbn [from_option id].
  rewrite Hlive, Hoauth, Hclass.
  unfold client_getToken.
  change (is_oauth_client (VInstance "OAuth2Client" fields)) with true.
  reflexivity.
Qed.

(** X18. On a registered client, when [getToken] answers the code with a
    token response, the code exchanger writes the response's tokens, its
    access token and its refresh token into [payload.msg] and calls [next()]
    once; nothing else changes.  The code is the [code] input or, with
    [passByPayload], the [code] of the payload entry. *)
Theorem getTokenFromCode_success
    (google : GoogleApi) (ctx : EcoContext) (s : State)
    (props fields response tokens : list (string * value)) (client : string)
    (manager : gmap string value) (config userCode : value) :
  let code := assoc_get "code" props in
  let payloadKey := assoc_get "payloadKey" props in
  inputs ctx = Some props →
  assoc_get "client" props = VString client →
  client ≠ "" →
  moduleConfigs s = Some manager →
  manager !! client = Some config →
  get_prop config "configs" = VInstance "OAuth2Client" fields →
  fields ≠ [] →
  (truthy (assoc_get "passByPayload" props) = false ∧ userCode = code)
  ∨ (truthy (assoc_get "passByPayload" props) = true
     ∧ ∃ entry,
         payload s !! to_string (if truthy payloadKey then payloadKey
                                 else VString "msg")
         = Some (VObject entry)
         ∧ userCode = assoc_get "code" entry) →
  oauth_getToken google (VInstance "OAuth2Client" fields) userCode
  = Normal (VObject response) →
  assoc_get "tokens" response = VObject tokens →
  getTokenFromCode google ctx s
  = (Normal tt,
     mk_State
       (<["msg" :=
            VObject [("success", VBool true);
                     ("token", VObject tokens);
                     ("accessToken", assoc_get "access_token" tokens);
                     ("refreshToken", assoc_get "refresh_token" tokens)]]>
          (payload s))
       (status s) (S (next_calls s)) (moduleConfigs s) (error_log s) (trace s)).
Proof.
  intros code payloadKey Hin Hclient Hne Hmanager Hconfig Hoauth Hfields
    Hsource Hexchange Htokens.
  rewrite (getTokenFromCode_validated google ctx s props fields client manager
             config userCode Hin Hclient Hne Hmanager Hconfig Hoauth Hfields
             Hsource).
  unfold try_catch, bind, lift. rewrite Hexchange. simpl.
  by rewrite Htokens.
Qed.

Lemma getTokenFromCode_success_witness :
  getTokenFromCode scenario_google (exchange_ctx "google" "code-ok") registered
  = (Normal tt,
     mk_State
       {[ "msg" :=
            VObject [("success", VBool true);
                     ("token",
                      VObject [("access_token", VString "access-1");
                               ("refresh_token", VString "refresh-ok")]);
                     ("accessToken", VString "access-1");
                     ("refreshToken", VString "refresh-ok")] ]}
       200 1 (Some google_configs) [] []).
Proof.
  assert (Hne : "google" ≠ "") by discriminate.
  assert (Hconfig : google_configs !! "google"
                    = Some (VObject [("label", VString "Google");
                                     ("configs",
                                      VInstance "OAuth2Client"
                                        [("_clientId", VString "id-1");
                                         ("credentials", VObject [])])]))
    by (by vm_compute).
  assert (Hfields : [("_clientId", VString "id-1"); ("credentials", VObject [])]
                    ≠ []) by discriminate.
  exact (getTokenFromCode_success scenario_google
           (exchange_ctx "google" "code-ok") registered _ _ _
           [("access_token", VString "access-1");
            ("refresh_token", VString "refresh-ok")]
           "google" google_configs _ (VString "code-ok")
           eq_refl eq_refl Hne eq_refl Hconfig eq_refl Hfields
           (or_introl (conj eq_refl eq_refl)) eq_refl eq_refl).
Defined.

(** X19. When the exchange throws, the code exchanger catches the error,
    reports it in [payload.msg] and returns without calling [next()]; nothing
    else changes.  The message always quotes the [code] input, also when the
    code that was sent came from the payload: with [passByPayload] and no
    [code] input the message ends in "undefined". *)
Theorem getTokenFromCode_failure
    (google : GoogleApi) (ctx : EcoContext) (s : State)
    (props fields : list (string * value)) (client : string)
    (manager : gmap string value) (config userCode e : value) :
  let code := assoc_get "code" props in
  let payloadKey := assoc_get "payloadKey" props in
  inputs ctx = Some props →
  assoc_get "client" props = VString client →
  client ≠ "" →
  moduleConfigs s = Some manager →
  manager !! client = Some config →
  get_prop config "configs" = VInstance "OAuth2Client" fields →
  fields ≠ [] →
  (truthy (assoc_get "passByPayload" props) = false ∧ userCode = code)
  ∨ (truthy (assoc_get "passByPayload" props) = true
     ∧ ∃ entry,
         payload s !! to_string (if truthy payloadKey then payloadKey
                                 else VString "msg")
         = Some (VObject entry)
         ∧ userCode = assoc_get "code" entry) →
  oauth_getToken google (VInstance "OAuth2Client" fields) userCode = Throw e →
  getTokenFromCode google ctx s
  = (Normal tt,
     mk_State
       (<["msg" :=
            VObject [("error", VBool true);
                     ("message",
                      VString ("Failed to get token from code: "
                               ++ to_string code));
                     ("rawError", e)]]>
          (payload s))
       (status s) (next_calls s) (moduleConfigs s) (error_log s) (trace s)).
Proof.
  intros code payloadKey Hin Hclient Hne Hmanager Hconfig Hoauth Hfields
    Hsource Hexchange.
  rewrite (getTokenFromCode_validated google ctx s props fields client manager
             config userCode Hin Hclient Hne Hmanager Hconfig Hoauth Hfields
             Hsource).
  unfold try_catch, bind, lift. by rewrite Hexchange.
Qed.

Lemma getTokenFromCode_failure_witness :
  getTokenFromCode scenario_google (exchange_by_payload_ctx VUndefined)
    code_in_payload
  = (Normal tt,
     mk_State
       (<["msg" :=
            VObject [("error", VBool true);
                     ("message",
                      VString "Failed to get token from code: undefined");
                     ("rawError", error_obj "GaxiosError" "invalid_grant")]]>
          (payload code_in_payload))
       200 0 (Some google_configs) [] []).
Proof.
  assert (Hne : "google" ≠ "") by discriminate.
  assert (Hconfig : google_configs !! "google"
                    = Some (VObject [("label", VString "Google");
                                     ("configs",
                                      VInstance "OAuth2Client"
                                        [("_clientId", VString "id-1");
                                         ("credentials", VObject [])])]))
    by (by vm_compute).
  assert (Hfields : [("_clientId", VString "id-1"); ("credentials", VObject [])]
                    ≠ []) by discriminate.
  assert (Hentry : payload code_in_payload !! "msg"
                   = Some (VObject [("code", VString "code-used")]))
    by (by vm_compute).
  exact (getTokenFromCode_failure scenario_google
           (exchange_by_payload_ctx VUndefined) code_in_payload
           _ _ "google" google_configs _ (VString "code-used")
           (error_obj "GaxiosError" "invalid_grant")
           eq_refl eq_refl Hne eq_refl Hconfig eq_refl Hfields
           (or_intror (conj eq_refl
                         (ex_intro _ [("code", VString "code-used")]
                            (conj Hentry eq_refl))))
           eq_refl).
Defined.



(** ** Inline Google flow *)

(** X21. The inline Google flow validates its client credentials exactly as
    the auth-URL builder does: whenever a resolved credential is missing or
    empty, both controllers end in the same state, with the same error report
    in [payload.msg] (and the same [_.isElement] flags). *)
Theorem googleOAuthAuthenticate_validates_like_auth_url
    (host : Host) (google : GoogleApi) (ctx : EcoContext) (s : State) :
  let clientId := get_prop (inputs_value ctx) "clientId" in
  let clientSecret := get_prop (inputs_value ctx) "clientSecret" in
  let redirectUri := get_prop (inputs_value ctx) "redirectUri" in
  truthy (if truthy (get_prop (inputs_value ctx) "clientIdFromEnv")
          then env_get host clientId else clientId) = false
  ∨ truthy (if truthy (get_prop (inputs_value ctx) "clientSecretFromEnv")
            then env_get host clientSecret else clientSecret) = false
  ∨ truthy (if truthy (get_prop (inputs_value ctx) "redirectUriFromEnv")
            then env_get host redirectUri else redirectUri) = false →
  googleOAuthAuthenticate host google ctx s = generateGoogleAuthUrl host ctx s.
Proof.
  intros clientId clientSecret redirectUri Hmissing.
  subst clientId clientSecret redirectUri.
  unfold googleOAuthAuthenticate, generateGoogleAuthUrl.
  destruct (lodash.isUndefined (inputs_value ctx)); [reflexivity |].
  destruct Hmissing as [-> | [-> | ->]]; simpl; rewrite ?orb_true_r; reflexivity.
Qed.

Lemma googleOAuthAuthenticate_validates_like_auth_url_witness :
  googleOAuthAuthenticate scenario_host scenario_google
    authurl_ctx_without_clientId fresh
  = generateGoogleAuthUrl scenario_host authurl_ctx_without_clientId fresh.
Proof.
  apply (googleOAuthAuthenticate_validates_like_auth_url scenario_host
           scenario_google authurl_ctx_without_clientId fresh).
  left. reflexivity.
Defined.

(** X22. With three non-empty credential strings but no [code] in the query
    string (or an empty one), the inline Google flow reports
    "Missing Google OAuth authorization code" with [statusCode] 400 in
    [payload.msg] and returns: [next()] is not called, nothing else changes,
    and the outcome does not depend on the Google endpoints. *)
Theorem googleOAuthAuthenticate_missing_code
    (host : Host) (google : GoogleApi) (ctx : EcoContext) (s : State)
    (id secret uri : string) :
  let clientId := get_prop (inputs_value ctx) "clientId" in
  let clientSecret := get_prop (inputs_value ctx) "clientSecret" in
  let redirectUri := get_prop (inputs_value ctx) "redirectUri" in
  is_Some (inputs ctx) →
  (if truthy (get_prop (inputs_value ctx) "clientIdFromEnv")
   then env_get host clientId else clientId) = VString id →
  (if truthy (get_prop (inputs_value ctx) "clientSecretFromEnv")
   then env_get host clientSecret else clientSecret) = VString secret →
  (if truthy (get_prop (inputs_value ctx) "redirectUriFromEnv")
   then env_get host redirectUri else redirectUri) = VString uri →
  id ≠ "" → secret ≠ "" → uri ≠ "" →
  truthy (query_get ctx (VString "code")) = false →
  googleOAuthAuthenticate host google ctx s
  = (Normal tt,
     mk_State
       (<["msg" :=
            VObject
              [("error", VBool true);
               ("message", VString "Missing Google OAuth authorization code");
               ("statusCode", VNumber 400)]]>
          (payload s))
       (status s) (next_calls s) (moduleConfigs s) (error_log s) (trace s)).
Proof.
  intros clientId clientSecret redirectUri [props Hin]
    Hid Hsecret Huri Hid' Hsecret' Huri' Hcode.
  subst clientId clientSecret redirectUri.
  unfold googleOAuthAuthenticate, inputs_value in *. rewrite Hin in *.
  cbn [lodash.isUndefined get_prop] in *.
  rewrite Hid, Hsecret, Huri, (credentials_accepted id secret uri) by assumption.
  by rewrite Hcode.
Qed.

Lemma googleOAuthAuthenticate_missing_code_witness :
  googleOAuthAuthenticate scenario_host scenario_google (redirect_ctx None) fresh
  = (Normal tt,
     mk_State
       {[ "msg" :=
            VObject
              [("error", VBool true);
               ("message", VString "Missing Google OAuth authorization code");
               ("statusCode", VNumber 400)] ]}
       200 0 None [] []).
Proof.
  apply (googleOAuthAuthenticate_missing_code scenario_host scenario_google
           (redirect_ctx None) fresh "id-1" "shh"
           "https://app.example/callback").
  - simpl. eauto.
  - reflexivity.
  - reflexivity.
  - reflexivity.
  - discriminate.
  - discriminate.
  - discriminate.
  - reflexivity.
Defined.

(** The inline flow past its validation: the exchange, the user-info call
    and the report, with no [try] around them. *)
Lemma googleOAuthAuthenticate_validated
    (host : Host) (google : GoogleApi) (ctx : EcoContext) (s : State)
    (cid secret uri code : string) :
  let clientId := get_prop (inputs_value ctx) "clientId" in
  let clientSecret := get_prop (inputs_value ctx) "clientSecret" in
  let redirectUri := get_prop (inputs_value ctx) "redirectUri" in
  let oAuth2Client :=
    VObject [("clientId", VString cid);
             ("clientSecret", VString secret);
             ("redirectUri", VString uri)] in
  is_Some (inputs ctx) →
  (if truthy (get_prop (inputs_value ctx) "clientIdFromEnv")
   then env_get host clientId else clientId) = VString cid →
  (if truthy (get_prop (inputs_value ctx) "clientSecretFromEnv")
   then env_get host clientSecret else clientSecret) = VString secret →
  (if truthy (get_prop (inputs_value ctx) "redirectUriFromEnv")
   then env_get host redirectUri else redirectUri) = VString uri →
  cid ≠ "" → secret ≠ "" → uri ≠ "" →
  query (request ctx) !! "code" = Some (VString code) →
  code ≠ "" →
  googleOAuthAuthenticate host google ctx s
  = (do oAuthGetTokensResponse <-
       lift (oauth_getToken google oAuth2Client (VString code));
     do tokens <- member oAuthGetTokensResponse "tokens";
     do response <-
       lift (userinfo_get google (set_prop oAuth2Client "credentials" tokens));
     do data <- member response "data";
     exec payload_set (VString "msg")
            (VObject
               [("error", VBool false);
                ("message", VString "Google OAuth authentication successful");
                ("statusCode", VNumber 200);
                ("user", data)]);
     next) s.
Proof.
  intros clientId clientSecret redirectUri oAuth2Client [props Hin]
    Hid Hsecret Huri Hid' Hsecret' Huri' Hquery Hcode.
  subst clientId clientSecret redirectUri oAuth2Client.
  unfold googleOAuthAuthenticate, inputs_value in *. rewrite Hin in *.
  cbn [lodash.isUndefined get_prop] in *.
  rewrite Hid, Hsecret, Huri, (credentials_accepted cid secret uri) by assumption.
  unfold query_get. cbn [to_string]. rewrite Hquery. cbn [from_option id].
  cbn [truthy lodash.isEmpty]. apply String.eqb_neq in Hcode.
  by rewrite Hcode.
Qed.

(** X23. Invoked as the redirect target with three non-empty credential
    strings and a [code] in the query string, the inline Google flow exchanges
    the code on a client built from those credentials, stores the returned
    tokens as that client's credentials, asks the user-info endpoint with it,
    and writes the user into [payload.msg] with [statusCode] 200 before
    calling [next()] once. *)
Theorem googleOAuthAuthenticate_success
    (host : Host) (google : GoogleApi) (ctx : EcoContext) (s : State)
    (id secret uri code : string) (exchange info : list (string * value)) :
  let clientId := get_prop (inputs_value ctx) "clientId" in
  let clientSecret := get_prop (inputs_value ctx) "clientSecret" in
  let redirectUri := get_prop (inputs_value ctx) "redirectUri" in
  let oAuth2Client :=
    VObject [("clientId", VString id);
             ("clientSecret", VString secret);
             ("redirectUri", VString uri)] in
  is_Some (inputs ctx) →
  (if truthy (get_prop (inputs_value ctx) "clientIdFromEnv")
   then env_get host clientId else clientId) = VString id →
  (if truthy (get_prop (inputs_value ctx) "clientSecretFromEnv")
   then env_get host clientSecret else clientSecret) = VString secret →
  (if truthy (get_prop (inputs_value ctx) "redirectUriFromEnv")
   then env_get host redirectUri else redirectUri) = VString uri →
  id ≠ "" → secret ≠ "" → uri ≠ "" →
  query (request ctx) !! "code" = Some (VString code) →
  code ≠ "" →
  oauth_getToken google oAuth2Client (VString code) = Normal (VObject exchange) →
  userinfo_get google
    (set_prop oAuth2Client "credentials" (assoc_get "tokens" exchange))
  = Normal (VObject info) →
  googleOAuthAuthenticate host google ctx s
  = (Normal tt,
     mk_State
       (<["msg" :=
            VObject
              [("error", VBool false);
               ("message", VString "Google OAuth authentication successful");
               ("statusCode", VNumber 200);
               ("user", assoc_get "data" info)]]>
          (payload s))
       (status s) (S (next_calls s)) (moduleConfigs s) (error_log s) (trace s)).
Proof.
  intros clientId clientSecret redirectUri oAuth2Client Hin
    Hid Hsecret Huri Hid' Hsecret' Huri' Hquery Hcode Hexchange Hinfo.
  rewrite (googleOAuthAuthenticate_validated host google ctx s id secret uri
             code Hin Hid Hsecret Huri Hid' Hsecret' Huri' Hquery Hcode).
  fold oAuth2Client. unfold bind, lift. rewrite Hexchange. simpl member.
  cbv beta iota. unfold ret at 1. cbv beta iota.
  rewrite Hinfo. reflexivity.
Qed.

Lemma googleOAuthAuthenticate_success_witness :
  googleOAuthAuthenticate scenario_host scenario_google
    (redirect_ctx (Some "code-ok")) fresh
  = (Normal tt,
     mk_State
       (<["msg" :=
            VObject
              [("error", VBool false);
               ("message", VString "Google OAuth authentication successful");
               ("statusCode", VNumber 200);
               ("user", VObject [("email", VString "u1@example.com")])]]>
          ∅)
       200 1 None [] []).
Proof.
  assert (Hquery : query (request (redirect_ctx (Some "code-ok"))) !! "code"
                   = Some (VString "code-ok")) by (by vm_compute).
  assert (Hid : "id-1" ≠ "") by discriminate.
  assert (Hsecret : "shh" ≠ "") by discriminate.
  assert (Huri : "https://app.example/callback" ≠ "") by discriminate.
  exact (googleOAuthAuthenticate_success scenario_host scenario_google
           (redirect_ctx (Some "code-ok")) fresh
           "id-1" "shh" "https://app.example/callback" "code-ok"
           [("tokens", VObject [("access_token", VString "access-1");
                                ("refresh_token", VString "refresh-ok")])]
           [("data", VObject [("email", VString "u1@example.com")])]
           (ex_intro _ _ eq_refl) eq_refl eq_refl eq_refl Hid Hsecret Huri
           Hquery ltac:(discriminate) eq_refl eq_refl).
Defined.

(** X24. The inline Google flow has no error handling of its own: when the
    code exchange or the user-info request throws, the exception reaches the
    caller, nothing is written to the payload and [next()] is not called. *)
Theorem googleOAuthAuthenticate_exception
    (host : Host) (google : GoogleApi) (ctx : EcoContext) (s : State)
    (id secret uri code : string) (e : value) :
  let clientId := get_prop (inputs_value ctx) "clientId" in
  let clientSecret := get_prop (inputs_value ctx) "clientSecret" in
  let redirectUri := get_prop (inputs_value ctx) "redirectUri" in
  let oAuth2Client :=
    VObject [("clientId", VString id);
             ("clientSecret", VString secret);
             ("redirectUri", VString uri)] in
  is_Some (inputs ctx) →
  (if truthy (get_prop (inputs_value ctx) "clientIdFromEnv")
   then env_get host clientId else clientId) = VString id →
  (if truthy (get_prop (inputs_value ctx) "clientSecretFromEnv")
   then env_get host clientSecret else clientSecret) = VString secret →
  (if truthy (get_prop (inputs_value ctx) "redirectUriFromEnv")
   then env_get host redirectUri else redirectUri) = VString uri →
  id ≠ "" → secret ≠ "" → uri ≠ "" →
  query (request ctx) !! "code" = Some (VString code) →
  code ≠ "" →
  oauth_getToken google oAuth2Client (VString code) = Throw e
  ∨ (∃ exchange,
        oauth_getToken google oAuth2Client (VString code)
        = Normal (VObject exchange)
        ∧ userinfo_get google
            (set_prop oAuth2Client "credentials" (assoc_get "tokens" exchange))
          = Throw e) →
  googleOAuthAuthenticate host google ctx s = (Throw e, s).
Proof.
  intros clientId clientSecret redirectUri oAuth2Client Hin
    Hid Hsecret Huri Hid' Hsecret' Huri' Hquery Hcode Hthrows.
  rewrite (googleOAuthAuthenticate_validated host google ctx s id secret uri
             code Hin Hid Hsecret Huri Hid' Hsecret' Huri' Hquery Hcode).
  fold oAuth2Client. unfold bind, lift.
  destruct Hthrows as [-> | (exchange & -> & Hinfo)]; [reflexivity |].
  simpl member. cbv beta iota. unfold ret at 1. cbv beta iota.
  by rewrite Hinfo.
Qed.

Lemma googleOAuthAuthenticate_exception_witness :
  googleOAuthAuthenticate scenario_host scenario_google
    (redirect_ctx (Some "code-stale")) fresh
  = (Throw (error_obj "GaxiosError" "invalid_grant"), fresh).
Proof.
  assert (Hquery : query (request (redirect_ctx (Some "code-stale"))) !! "code"
                   = Some (VString "code-stale")) by (by vm_compute).
  assert (Hid : "id-1" ≠ "") by discriminate.
  assert (Hsecret : "shh" ≠ "") by discriminate.
  assert (Huri : "https://app.example/callback" ≠ "") by discriminate.
  exact (googleOAuthAuthenticate_exception scenario_host scenario_google
           (redirect_ctx (Some "code-stale")) fresh
           "id-1" "shh" "https://app.example/callback" "code-stale"
           (error_obj "GaxiosError" "invalid_grant")
           (ex_intro _ _ eq_refl) eq_refl eq_refl eq_refl Hid Hsecret Huri
           Hquery ltac:(discriminate) (or_introl eq_refl)).
Defined.

(** ** The manifest *)

Lemma selectClientConfig_loop_options (entries : list (string * value))
    (result : list value) :
  (∀ key config, (key, config) ∈ entries →
                 config ≠ VUndefined ∧ config ≠ VNull) →
  selectClientConfig_loop entries result
  = Normal (result
            ++ ((λ entry : string * value,
                   VObject
                     [("label",
                       VString (to_string (get_prop (snd entry) "label")
                                ++ " (" ++ fst entry ++ ")")%string);
                      ("value", VString (fst entry))]) <$> entries))%list.
Proof.
  revert result.
  induction entries as [| [key config] rest IH]; intros result Hlive.
  - simpl. by rewrite app_nil_r.
  - assert (Hconfig : config ≠ VUndefined ∧ config ≠ VNull)
      by (apply (Hlive key); left).
    assert (Hrest : ∀ k c, (k, c) ∈ rest → c ≠ VUndefined ∧ c ≠ VNull)
      by (intros k c Hin; apply (Hlive k); by right).
    cbn [selectClientConfig_loop fmap list_fmap].
    destruct config; try (by destruct Hconfig);
      rewrite (IH _ Hrest), <- app_assoc; reflexivity.
Qed.

(** X25. The client picker of the manifest offers exactly the registered
    configurations, in the manager's order: one option per entry, labelled
    [<label> (<key>)] and valued with the key.  So every value the picker
    offers is a client name that the client-based controllers resolve to its
    configuration.  Without a configuration manager the picker is empty. *)
Theorem selectClientConfig_offers_registered_clients
    (entries : list (string * value)) :
  NoDup entries.*1 →
  (∀ key config, (key, config) ∈ entries →
                 config ≠ VUndefined ∧ config ≠ VNull) →
  selectClientConfig None = Normal []
  ∧ ∃ options,
      selectClientConfig (Some entries) = Normal options
      ∧ length options = length entries
      ∧ ∀ i key config,
          entries !! i = Some (key, config) →
          options !! i
          = Some (VObject
                    [("label",
                      VString (to_string (get_prop config "label")
                               ++ " (" ++ key ++ ")"));
                     ("value", VString key)])
          ∧ config_get (list_to_map entries) (VString key) = config.
Proof.
  intros Hnodup Hlive. split; [reflexivity |].
  unfold selectClientConfig.
  rewrite (selectClientConfig_loop_options entries [] Hlive). simpl.
  eexists. split; [reflexivity |]. split; [by rewrite length_fmap |].
  intros i key config Hentry. split.
  - by rewrite list_lookup_fmap, Hentry.
  - unfold config_get.
    rewrite (elem_of_list_to_map_1 (M := gmap string) entries key config Hnodup);
      [reflexivity |].
    by apply list_elem_of_lookup_2 with i.
Qed.

Lemma selectClientConfig_offers_registered_clients_witness :
  selectClientConfig
    (Some [("google", VObject [("label", VString "Google")]);
           ("work", VObject [("label", VString "Workspace")])])
  = Normal [VObject [("label", VString "Google (google)");
                     ("value", VString "google")];
            VObject [("label", VString "Workspace (work)");
                     ("value", VString "work")]].
Proof.
  assert (Hnodup : NoDup [("google", VObject [("label", VString "Google")]);
                          ("work", VObject [("label", VString "Workspace")])].*1).
  { simpl. apply NoDup_cons. split; [| apply NoDup_singleton].
    rewrite list_elem_of_singleton. discriminate. }
  assert (Hlive : ∀ key config,
             (key, config) ∈ [("google", VObject [("label", VString "Google")]);
                              ("work", VObject [("label", VString "Workspace")])] →
             config ≠ VUndefined ∧ config ≠ VNull).
  { intros key config Hin.
    apply list_elem_of_In in Hin. simpl in Hin.
    destruct Hin as [Heq | [Heq | []]]; simplify_eq; by split. }
  destruct (selectClientConfig_offers_registered_clients _ Hnodup Hlive)
    as (_ & options & Hoptions & _).
  reflexivity.
Defined.

Ltac use_agreement H props :=
  repeat match goal with
         | |- context [assoc_get ?k props] =>
             rewrite (H k) by (simpl; tauto)
         end.

(** X26. Every controller depends on its inputs only through the input
    names that the manifest declares for it: two inputs objects that agree on
    the declared names give the same run, on every request and state (for the
    three controllers that test the inputs for emptiness, both objects being
    non-empty).  An input the manifest does not declare can never influence
    a step. *)
Theorem controllers_read_declared_inputs
    (host : Host) (google : GoogleApi)
    (configManager : option (list (string * value)))
    (props props' : list (string * value)) (req : Request) (s : State) :
  let declared := declared_inputs (functionManifest configManager) in
  let ctx := {| inputs := Some props; request := req |} in
  let ctx' := {| inputs := Some props'; request := req |} in
  (agree_on (declared "signJWTController") props props' →
   signJWTController host ctx s = signJWTController host ctx' s)
  ∧ (agree_on (declared "jwtJWKSController") props props' →
     jwtJWKSController host ctx s = jwtJWKSController host ctx' s)
  ∧ (agree_on (declared "authenticateTokenController") props props' →
     authenticateTokenController host ctx s
     = authenticateTokenController host ctx' s)
  ∧ (agree_on (declared "generateGoogleAuthUrl") props props' →
     generateGoogleAuthUrl host ctx s = generateGoogleAuthUrl host ctx' s)
  ∧ (agree_on (declared "googleOAuthAuthenticate") props props' →
     googleOAuthAuthenticate host google ctx s
     = googleOAuthAuthenticate host google ctx' s)
  ∧ (props ≠ [] → props' ≠ [] →
     (agree_on (declared "ApiCredentialsController") props props' →
      ApiCredentialsController (VObject props) s
      = ApiCredentialsController (VObject props') s)
     ∧ (agree_on (declared "getTokenFromCode") props props' →
        getTokenFromCode google ctx s = getTokenFromCode google ctx' s)
     ∧ (agree_on (declared "getUserDetails") props props' →
        getUserDetails host ctx s = getUserDetails host ctx' s)).
Proof.
  intros declared ctx ctx'. subst declared ctx ctx'.
  repeat match goal with
         | |- _ ∧ _ => split
         | |- _ ≠ _ → _ => intros Hprops Hprops'
         | |- agree_on _ _ _ → _ =>
             let H := fresh "H" in
             intros H; unfold agree_on in H;
             cbn [declared_inputs functionManifest specs flat_map controller
                  String.eqb Ascii.eqb Bool.eqb spec_inputs List.map app name
                  input with_required with_default with_hint with_picker
                  with_radio google_credentials_inputs] in H
         end.
  - unfold signJWTController, inputs_value.
    cbn [inputs lodash.isUndefined get_prop]. use_agreement H props.
    reflexivity.
  - unfold jwtJWKSController, inputs_value.
    cbn [inputs lodash.isUndefined get_prop]. use_agreement H props.
    reflexivity.
  - unfold authenticateTokenController, inputs_value, header_authorization.
    cbn [inputs request lodash.isUndefined get_prop]. use_agreement H props.
    reflexivity.
  - unfold generateGoogleAuthUrl, inputs_value.
    cbn [inputs lodash.isUndefined get_prop]. use_agreement H props.
    reflexivity.
  - unfold googleOAuthAuthenticate, inputs_value, query_get.
    cbn [inputs request lodash.isUndefined get_prop]. use_agreement H props.
    reflexivity.
  - unfold ApiCredentialsController.
    destruct props, props'; try done.
    cbn [lodash.isEmpty get_prop].
    match goal with
    | H : ∀ n, _ → assoc_get n ?l = _ |- _ => use_agreement H l
    end.
    reflexivity.
  - unfold getTokenFromCode, inputs_value. cbn [inputs].
    destruct props, props'; try done.
    cbn [truthy lodash.isEmpty negb orb get_prop].
    match goal with
    | H : ∀ n, _ → assoc_get n ?l = _ |- _ => use_agreement H l
    end.
    reflexivity.
  - unfold getUserDetails, inputs_value, query_get. cbn [inputs request].
    destruct props, props'; try done.
    cbn [truthy lodash.isEmpty negb orb get_prop].
    match goal with
    | H : ∀ n, _ → assoc_get n ?l = _ |- _ => use_agreement H l
    end.
    reflexivity.
Qed.

Lemma controllers_read_declared_inputs_witness :
  authenticateTokenController scenario_host
    {| inputs := Some [("responseKey", VString "user");
                       ("algorithm", VString "HS256");
                       ("secretORprivateKeySelector", VString "secret");
                       ("secretORpublicKey", VString "s3cr3t");
                       ("fromEnvironmentVariable", VBool false)];
       request := request_with (Some "Bearer HS256.u1.s3cr3t") |} fresh
  = authenticateTokenController scenario_host
      {| inputs := Some [("debug", VBool true);
                         ("fromEnvironmentVariable", VBool false);
                         ("responseKey", VString "user");
                         ("algorithm", VString "HS256");
                         ("secretORprivateKeySelector", VString "secret");
                         ("secretORpublicKey", VString "s3cr3t")];
         request := request_with (Some "Bearer HS256.u1.s3cr3t") |} fresh.
Proof.
  destruct (controllers_read_declared_inputs scenario_host scenario_google None
              [("responseKey", VString "user");
               ("algorithm", VString "HS256");
               ("secretORprivateKeySelector", VString "secret");
               ("secretORpublicKey", VString "s3cr3t");
               ("fromEnvironmentVariable", VBool false)]
              [("debug", VBool true);
               ("fromEnvironmentVariable", VBool false);
               ("responseKey", VString "user");
               ("algorithm", VString "HS256");
               ("secretORprivateKeySelector", VString "secret");
               ("secretORpublicKey", VString "s3cr3t")]
              (request_with (Some "Bearer HS256.u1.s3cr3t")) fresh)
    as (_ & _ & Hverifier & _).
  apply Hverifier.
  intros n Hn. simpl in Hn.
  destruct Hn as [<- | [<- | [<- | [<- | [<- | []]]]]]; reflexivity.
Defined.

(** ** User-Details Fetcher: the success path *)



(** ** Keys that are configured but cannot be found *)

(** X28. The verifier does not check the result of [fetchJWKPublicKey].  With
    a key selector other than "secret" and a key reference that is no valid
    URL (also an unset environment variable), the empty-string sentinel goes
    straight into [JWT.verify] as the key: the step makes exactly that one
    library call and follows its verdict, with no report of its own about the
    unusable URL. *)
Theorem authenticateToken_unusable_jwks_url
    (host : Host) (ctx : EcoContext) (s : State) (scheme token : string) :
  let key := to_string (get_prop (inputs_value ctx) "responseKey") in
  let algorithm := get_prop (inputs_value ctx) "algorithm" in
  let secretORpublicKey := get_prop (inputs_value ctx) "secretORpublicKey" in
  let reference :=
    if truthy (get_prop (inputs_value ctx) "fromEnvironmentVariable")
    then env_get host secretORpublicKey else secretORpublicKey in
  let sentinel := SecretValue (VString "") in
  is_Some (inputs ctx) →
  is_str (get_prop (inputs_value ctx) "secretORprivateKeySelector") "secret"
  = false →
  url_parses host (to_string reference) = false →
  has_space scheme = false → has_space token = false → token ≠ "" →
  authorization (request ctx) = Some (scheme ++ " " ++ token) →
  authenticateTokenController host ctx s
  = match jwt_verify host token sentinel [algorithm] with
    | VerifyError name message =>
        (Normal tt,
         mk_State (<[key := VString message]> (payload s)) 401 (next_calls s)
                  (moduleConfigs s) (error_log s)
                  (trace s ++ [JwtVerify token sentinel [algorithm]
                                 (VerifyError name message)]))
    | Verified decoded =>
        (Normal tt,
         mk_State (<[key := decoded]> (payload s)) (status s)
                  (S (next_calls s)) (moduleConfigs s) (error_log s)
                  (trace s ++ [JwtVerify token sentinel [algorithm]
                                 (Verified decoded)]))
    end.
Proof.
  intros key algorithm secretORpublicKey reference sentinel Hin Hsel Hurl
    Hscheme Htoken Hne Hheader.
  subst key algorithm secretORpublicKey reference sentinel.
  rewrite (authenticateToken_verify_run host ctx s _ token Hin Hheader
             (header_second_segment scheme token Hscheme Htoken) Hne).
  rewrite Hsel. unfold fetchJWKPublicKey, stringIsAValidUrl.
  by rewrite Hurl.
Qed.

Lemma authenticateToken_unusable_jwks_url_witness :
  authenticateTokenController scenario_host
    (verifier_jwks_ctx "RS256" "keys.example/jwks.json"
       (Some "Bearer RS256.u1.sig"))
    fresh
  = (Normal tt,
     mk_State {[ "user" := VString "secret or public key must be provided" ]}
              401 0 None []
              [JwtVerify "RS256.u1.sig" (SecretValue (VString ""))
                 [VString "RS256"]
                 (VerifyError "JsonWebTokenError"
                    "secret or public key must be provided")]).
Proof.
  apply (authenticateToken_unusable_jwks_url scenario_host
           (verifier_jwks_ctx "RS256" "keys.example/jwks.json"
              (Some "Bearer RS256.u1.sig"))
           fresh "Bearer" "RS256.u1.sig").
  - by eexists.
  - reflexivity.
  - reflexivity.
  - reflexivity.
  - reflexivity.
  - discriminate.
  - reflexivity.
Defined.

(** X29. A signer step that names its secret by an environment variable
    which is unset or empty, with a symmetric algorithm, does not stop: the
    missing value is replaced by the empty string, the resolver passes it on
    without touching the file system, and [JWT.sign] is called with the empty
    string as the secret.  What happens then is the library's decision. *)
Theorem signJWT_unset_environment_key
    (host : Host) (ctx : EcoContext) (s : State) (alg : string) :
  let key := to_string (get_prop (inputs_value ctx) "responseKey") in
  let expiresIn := get_prop (inputs_value ctx) "expiresIn" in
  let claims :=
    js_or (default VUndefined
             (payload s !! to_string (get_prop (inputs_value ctx) "payloadKey")))
          (VObject []) in
  let result := jwt_sign host claims (KValue (VString "")) expiresIn
                  (VString alg) in
  let calls :=
    (trace s ++ [JwtSign claims (KValue (VString "")) expiresIn (VString alg)
                   result])%list in
  is_Some (inputs ctx) →
  get_prop (inputs_value ctx) "algorithm" = VString alg →
  alg = "HS256" ∨ alg = "HS384" →
  truthy (get_prop (inputs_value ctx) "secretORprivateKeyFromEnvironment")
  = true →
  truthy (env_get host (get_prop (inputs_value ctx) "secretORprivateKey"))
  = false →
  signJWTController host ctx s
  = match result with
    | Normal token =>
        (Normal tt,
         mk_State (<[key := VString token]> (payload s)) (status s)
                  (S (next_calls s)) (moduleConfigs s) (error_log s) calls)
    | Throw e =>
        (Throw e,
         mk_State (payload s) (status s) (next_calls s) (moduleConfigs s)
                  (error_log s) calls)
    end.
Proof.
  intros key expiresIn claims result calls [props Hin] Halg Hsym Henv Hunset.
  subst key expiresIn claims result calls.
  revert Halg Henv Hunset.
  unfold signJWTController, inputs_value. rewrite Hin. simpl.
  intros Halg Henv Hunset.
  rewrite Halg, Henv.
  assert (Hkey : js_or (env_get host (assoc_get "secretORprivateKey" props))
                   (VString "") = VString "")
    by (unfold js_or; by rewrite Hunset).
  rewrite Hkey.
  unfold fetchSecretORprivateKey.
  assert (Hs : is_str (VString alg) "HS256" || is_str (VString alg) "HS384"
               = true) by (by destruct Hsym as [-> | ->]).
  rewrite Hs. unfold sign. step_monad.
  by destruct (jwt_sign host _ _ _ _).
Qed.

Lemma signJWT_unset_environment_key_witness :
  signJWTController scenario_host (signer_env_ctx "HS256" "JWT_SECRET")
    with_claims
  = (Throw (error_obj "Error" "secretOrPrivateKey must have a value"),
     mk_State (payload with_claims) 200 0 None []
       [JwtSign (VObject [("sub", VString "u1")]) (KValue (VString ""))
          (VString "1hr") (VString "HS256")
          (Throw (error_obj "Error" "secretOrPrivateKey must have a value"))]).
Proof.
  apply (signJWT_unset_environment_key scenario_host
           (signer_env_ctx "HS256" "JWT_SECRET") with_claims "HS256").
  - by eexists.
  - reflexivity.
  - by left.
  - reflexivity.
  - reflexivity.
Defined.
